(** * Authentication service of the insurance management system

    A shallow embedding of the Express/Mongoose authentication code:
    the [User] schema with its pre-save hook, the express-validator
    chains of the auth routes, the three controllers
    ([registerUser], [loginUser], [getMe]), the two middlewares
    ([protect], [authorize]), the global [errorHandler] and
    [generateToken].

    - Strings are sequences of code units below 256 (the Latin-1 part
      of UTF-16).
    - [req.body] is a map from field paths to JSON values; an unbound
      path is [undefined].  Numbers are kept at integer precision.
    - An [async] function is a computation in the monad [M]: it reads
      and changes a [World] (the users collection, the clock, the
      random source, whether the database is reachable) and returns or
      throws.  Every call to a collaborator is recorded in the world's
      [log], so that "was not called" and "was called before" can be
      stated.
    - Third-party packages (validator.js, bcryptjs, jsonwebtoken), what
      express-validator and Mongoose do with a value that is not a
      string, and the local-time reading of a [Date] are an interface,
      the class [Libs]; the handlers are written against it.
      [Ref.refLibs] is a small executable instance used to run the
      handlers on concrete requests.
    - The regular expressions of the source are translated to [Regex.re]
      and matched with derivatives. *)

From Stdlib Require Import String Ascii List ZArith Bool Lia Arith DecimalString.
Import ListNotations.
Local Open Scope string_scope.
Set Warnings "-register-all".

(* ================================================================== *)
(** ** JavaScript strings (code units below 256) *)

Module JsString.

(** Code units with a lowercase form: [A] to [Z], and the Latin-1
    capitals U+00C0 to U+00DE except the multiplication sign U+00D7. *)
Definition isUpperUnit (n : nat) : bool :=
  ((65 <=? n)%nat && (n <=? 90)%nat)
  || ((192 <=? n)%nat && (n <=? 222)%nat && negb (n =? 215)%nat).

(** [String.prototype.toLowerCase], one code unit at a time. *)
Definition lowerUnit (c : ascii) : ascii :=
  let n := nat_of_ascii c in
  if isUpperUnit n then ascii_of_nat (n + 32) else c.

Fixpoint toLowerCase (s : string) : string :=
  match s with
  | EmptyString => EmptyString
  | String c s' => String (lowerUnit c) (toLowerCase s')
  end.

(** The members below 256 of the regular-expression class [\s], which
    are also what [String.prototype.trim] strips: TAB, LF, VT, FF, CR,
    SPACE and the no-break space U+00A0. *)
Definition isSpace (c : ascii) : bool :=
  let n := nat_of_ascii c in
  ((9 <=? n)%nat && (n <=? 13)%nat) || (n =? 32)%nat || (n =? 160)%nat.

Fixpoint ltrim (s : string) : string :=
  match s with
  | EmptyString => EmptyString
  | String c s' => if isSpace c then ltrim s' else s
  end.

Fixpoint rtrim (s : string) : string :=
  match s with
  | EmptyString => EmptyString
  | String c s' =>
      match rtrim s' with
      | EmptyString => if isSpace c then EmptyString else String c EmptyString
      | r => String c r
      end
  end.

Definition trim (s : string) : string := rtrim (ltrim s).

(** [s.startsWith(p)] *)
Fixpoint startsWith (s p : string) : bool :=
  match p with
  | EmptyString => true
  | String a p' =>
      match s with
      | EmptyString => false
      | String c s' => Ascii.eqb c a && startsWith s' p'
      end
  end.

(** [s.split(sep)] for a separator of one character.  The result is
    never empty: the empty string splits into one empty part. *)
Fixpoint split (sep : ascii) (s : string) : list string :=
  match s with
  | EmptyString => [EmptyString]
  | String c s' =>
      if Ascii.eqb c sep then EmptyString :: split sep s'
      else match split sep s' with
           | [] => [String c EmptyString]
           | p :: ps => String c p :: ps
           end
  end.

(** JavaScript truthiness of a string. *)
Definition truthy (s : string) : bool :=
  match s with EmptyString => false | _ => true end.

(** Truthiness of a possibly [undefined] string. *)
Definition truthyOpt (o : option string) : bool :=
  match o with None => false | Some s => truthy s end.

(** [a || b] where [a] is a possibly [undefined] string. *)
Definition orElse (a : option string) (b : string) : string :=
  match a with
  | Some s => if truthy s then s else b
  | None => b
  end.

Definition contains (c : ascii) (s : string) : bool :=
  existsb (Ascii.eqb c) (list_ascii_of_string s).

(** The parts of [s] between runs of separator characters, empty parts
    dropped.  This is independent of [split] and is used to state what
    a header "with a second part" is. *)
Fixpoint wordsBy (isSep : ascii -> bool) (s : string) : list string :=
  match s with
  | EmptyString => []
  | String c s' =>
      if isSep c then wordsBy isSep s'
      else match s' with
           | EmptyString => [String c EmptyString]
           | String c' _ =>
               if isSep c' then String c EmptyString :: wordsBy isSep s'
               else match wordsBy isSep s' with
                    | [] => [String c EmptyString]
                    | p :: ps => String c p :: ps
                    end
           end
  end.

Definition words (sep : ascii) (s : string) : list string :=
  wordsBy (fun c => Ascii.eqb c sep) s.

(** Decimal rendering of a natural number. *)
Definition ofNat (n : nat) : string :=
  match n with
  | O => "0"
  | _ => NilEmpty.string_of_uint (Nat.to_uint n)
  end.

(** Decimal rendering with at least [w] digits. *)
Fixpoint zeros (k : nat) : string :=
  match k with O => "" | S k' => String "0" (zeros k') end.

Definition pad (w n : nat) : string :=
  let s := ofNat n in zeros (w - String.length s) ++ s.

Definition isDigit (c : ascii) : bool :=
  let n := nat_of_ascii c in (48 <=? n)%nat && (n <=? 57)%nat.

Definition digitVal (c : ascii) : nat := nat_of_ascii c - 48.

(** Value of a string of decimal digits, [None] if another character
    occurs or the string is empty. *)
Fixpoint toNatAcc (acc : nat) (s : string) : option nat :=
  match s with
  | EmptyString => Some acc
  | String c s' =>
      if isDigit c then toNatAcc (10 * acc + digitVal c) s' else None
  end.

Definition toNat (s : string) : option nat :=
  match s with EmptyString => None | _ => toNatAcc 0 s end.

End JsString.

(* ================================================================== *)
(** ** Regular expressions

    The literals of the source are matched with Brzozowski derivatives.
    A literal anchored with [^] and [$] is membership of the whole
    string; a sequence of lookaheads at [^] is an intersection. *)

Module Regex.

Inductive re : Type :=
| Nul                       (* matches nothing *)
| Eps                       (* matches the empty string *)
| Chr (p : ascii -> bool)   (* one character of a class *)
| Cat (r1 r2 : re)
| Alt (r1 r2 : re)
| And (r1 r2 : re)
| Star (r : re).

Fixpoint nullable (r : re) : bool :=
  match r with
  | Nul => false
  | Eps => true
  | Chr _ => false
  | Cat r1 r2 => nullable r1 && nullable r2
  | Alt r1 r2 => nullable r1 || nullable r2
  | And r1 r2 => nullable r1 && nullable r2
  | Star _ => true
  end.

Definition cat (r1 r2 : re) : re :=
  match r1, r2 with
  | Nul, _ => Nul
  | _, Nul => Nul
  | Eps, _ => r2
  | _, Eps => r1
  | _, _ => Cat r1 r2
  end.

Definition alt (r1 r2 : re) : re :=
  match r1, r2 with
  | Nul, _ => r2
  | _, Nul => r1
  | _, _ => Alt r1 r2
  end.

Definition and (r1 r2 : re) : re :=
  match r1, r2 with
  | Nul, _ => Nul
  | _, Nul => Nul
  | _, _ => And r1 r2
  end.

Fixpoint deriv (a : ascii) (r : re) : re :=
  match r with
  | Nul => Nul
  | Eps => Nul
  | Chr p => if p a then Eps else Nul
  | Cat r1 r2 =>
      if nullable r1
      then alt (cat (deriv a r1) r2) (deriv a r2)
      else cat (deriv a r1) r2
  | Alt r1 r2 => alt (deriv a r1) (deriv a r2)
  | And r1 r2 => and (deriv a r1) (deriv a r2)
  | Star r1 => cat (deriv a r1) (Star r1)
  end.

Fixpoint matches (r : re) (s : string) : bool :=
  match s with
  | EmptyString => nullable r
  | String a s' => matches (deriv a r) s'
  end.

(** Character classes of the source's literals. *)
Definition inRange (lo hi : nat) (c : ascii) : bool :=
  let n := nat_of_ascii c in (lo <=? n)%nat && (n <=? hi)%nat.

Definition digit : re := Chr (inRange 48 57).                 (* \d, [0-9] *)
Definition lower : re := Chr (inRange 97 122).                (* [a-z] *)
Definition upper : re := Chr (inRange 65 90).                 (* [A-Z] *)
Definition word : re :=                                       (* \w *)
  Chr (fun c => inRange 48 57 c || inRange 65 90 c || inRange 97 122 c
                || Ascii.eqb c "_").
Definition dot : re :=                                        (* . *)
  Chr (fun c => negb (Ascii.eqb c "010" || Ascii.eqb c "013")).
Definition lit (a : ascii) : re := Chr (Ascii.eqb a).
Definition anything : re := Star (Chr (fun _ => true)).

Definition plus (r : re) : re := Cat r (Star r).              (* r+ *)
Definition opt (r : re) : re := Alt Eps r.                    (* r? *)

Fixpoint times (n : nat) (r : re) : re :=                     (* r{n} *)
  match n with
  | O => Eps
  | S n' => Cat r (times n' r)
  end.

End Regex.

(* ================================================================== *)
(** ** JSON values: what [express.json] parses and [res.json] sends *)

Inductive JSON : Type :=
| JNull
| JBool (b : bool)
| JNum (n : Z)
| JStr (s : string)
| JArr (l : list JSON)
| JObj (fields : list (string * JSON)).

Module Json.

(** An object literal whose members may be [undefined]: [JSON.stringify]
    leaves those members out. *)
Definition obj (members : list (string * option JSON)) : JSON :=
  JObj (flat_map (fun m => match snd m with
                           | Some v => [(fst m, v)]
                           | None => []
                           end) members).

Definition keys (j : JSON) : list string :=
  match j with
  | JObj fs => map fst fs
  | _ => []
  end.

Fixpoint lookup (k : string) (fs : list (string * JSON)) : option JSON :=
  match fs with
  | [] => None
  | (k', v) :: fs' => if String.eqb k k' then Some v else lookup k fs'
  end.

Definition field (k : string) (j : JSON) : option JSON :=
  match j with
  | JObj fs => lookup k fs
  | _ => None
  end.

Definition hasKey (k : string) (j : JSON) : bool :=
  match field k j with Some _ => true | None => false end.

(** Does the key [k] occur anywhere inside [j], at any depth? *)
Fixpoint mentions (k : string) (j : JSON) : bool :=
  match j with
  | JArr l =>
      (fix go (l : list JSON) : bool :=
         match l with
         | [] => false
         | x :: l' => mentions k x || go l'
         end) l
  | JObj fs =>
      (fix go (fs : list (string * JSON)) : bool :=
         match fs with
         | [] => false
         | (k', v) :: fs' => String.eqb k k' || mentions k v || go fs'
         end) fs
  | _ => false
  end.

(** [typeof v]; [None] is [undefined]. *)
Definition typeOf (v : option JSON) : string :=
  match v with
  | None => "undefined"
  | Some (JBool _) => "boolean"
  | Some (JNum _) => "number"
  | Some (JStr _) => "string"
  | Some JNull | Some (JArr _) | Some (JObj _) => "object"
  end.

(** JavaScript truthiness. *)
Definition truthy (v : option JSON) : bool :=
  match v with
  | None | Some JNull => false
  | Some (JBool b) => b
  | Some (JNum n) => negb (n =? 0)%Z
  | Some (JStr s) => JsString.truthy s
  | Some (JArr _) | Some (JObj _) => true
  end.

(** [a || b] *)
Definition orElse (a : option JSON) (b : JSON) : JSON :=
  match a with
  | Some j => if truthy a then j else b
  | None => b
  end.

End Json.

(* ================================================================== *)
(** ** Dates, errors and the user document *)

(** A JavaScript [Date], read in UTC: calendar year, month (1 to 12),
    day of the month and the milliseconds elapsed since midnight. *)
Record Date : Type := mkInstant {
  year : Z; month : Z; day : Z; msOfDay : Z
}.

(** Midnight UTC of a day, which is what a date-only string parses to. *)
Definition mkDate (y m d : Z) : Date := mkInstant y m d 0.

Definition toISOString (d : Date) : string :=
  let ms := msOfDay d in
  JsString.pad 4 (Z.to_nat (year d)) ++ "-" ++
  JsString.pad 2 (Z.to_nat (month d)) ++ "-" ++
  JsString.pad 2 (Z.to_nat (day d)) ++ "T" ++
  JsString.pad 2 (Z.to_nat (ms / 3600000)) ++ ":" ++
  JsString.pad 2 (Z.to_nat ((ms / 60000) mod 60)) ++ ":" ++
  JsString.pad 2 (Z.to_nat ((ms / 1000) mod 60)) ++ "." ++
  JsString.pad 3 (Z.to_nat (ms mod 1000)) ++ "Z".

(** A thrown [Error]: [error.name], [error.message], [error.stack] and
    the optional [error.statusCode] read by the error middleware. *)
Record JsError : Type := mkError {
  errName : string;
  errMessage : string;
  errStack : option string;
  statusCode : option Z
}.

Definition newError (name msg : string) : JsError :=
  mkError name msg (Some (name ++ ": " ++ msg)) None.

Definition ObjectId : Type := nat.

Definition oidString (i : ObjectId) : string := JsString.ofNat i.

Module Address.
Record t : Type := mk {
  street : string;
  city : string;
  state : string;
  zipCode : string
}.

Definition toJSON (a : t) : JSON :=
  JObj [("street", JStr (street a)); ("city", JStr (city a));
        ("state", JStr (state a)); ("zipCode", JStr (zipCode a))].
End Address.

(** A document of the [User] model.  [password] holds the stored digest;
    it is [None] in a document read with the field deselected
    ([select: false] in the schema, [.select('-password')]). *)
Module User.
Record t : Type := mk {
  _id : ObjectId;
  name : string;
  email : string;
  password : option string;
  phone : string;
  dateOfBirth : Date;
  address : Address.t;
  role : string;
  commissionRate : Z;
  assignedCustomers : list ObjectId;
  isActive : bool;
  createdAt : Date;
  updatedAt : Date
}.

Definition withPassword (p : option string) (u : t) : t :=
  mk (_id u) (name u) (email u) p (phone u) (dateOfBirth u) (address u)
     (role u) (commissionRate u) (assignedCustomers u) (isActive u)
     (createdAt u) (updatedAt u).

Definition withIsActive (a : bool) (u : t) : t :=
  mk (_id u) (name u) (email u) (password u) (phone u) (dateOfBirth u)
     (address u) (role u) (commissionRate u) (assignedCustomers u) a
     (createdAt u) (updatedAt u).

(** The [id] virtual of a Mongoose document. *)
Definition id (u : t) : ObjectId := _id u.
End User.

(* ================================================================== *)
(** ** Outcomes, and the interface of the packages and the runtime *)

(** What a call gives: it returns a value or throws. *)
Inductive Outcome (A : Type) : Type :=
| Ret (a : A)
| Throw (e : JsError).
Arguments Ret {A} a.
Arguments Throw {A} e.

(** Result of [jwt.verify]: the decoded payload's [id], or the error it
    throws. *)
Inductive JwtResult : Type :=
| JwtOk (id : ObjectId)
| JwtThrow (e : JsError).

Class Libs : Type := {
  (* validator.js, used through express-validator; where
     normalizeEmail gives false instead of an address, the string is
     the one Mongoose casts false to *)
  isEmail : string -> bool;
  normalizeEmail : string -> string;
  isDate : string -> bool;
  (* express-validator on a value that is neither undefined nor a
     string: the values a standard validator rejects, and the value a
     sanitizer leaves *)
  validateOther : (string -> bool) -> JSON -> list JSON;
  sanitizeOther : (string -> string) -> JSON -> JSON;
  (* the runtime's Date: new Date(value), None being an Invalid Date,
     and getFullYear(), which reads the date in local time *)
  newDate : JSON -> option Date;
  getFullYear : Date -> Z;
  (* Mongoose: the cast of a value that is not a string to a String
     path, the cast of a value to a Date path, the stored emails a
     filter value that is not a string selects (None when the cast
     fails), and the message of a failed cast of a value at a path *)
  castString : JSON -> option string;
  castDate : JSON -> option Date;
  castFilter : JSON -> option (list string);
  castError : string -> JSON -> string;
  (* bcryptjs: genSalt rounds entropy, hash plaintext salt, compare *)
  bcrypt_genSalt : nat -> nat -> string;
  bcrypt_hash : string -> string -> string;
  bcrypt_compare : string -> string -> bool;
  (* jsonwebtoken: sign id secret expiresIn now, which throws on a
     secret or a lifetime it does not accept; verify token secret now *)
  jwt_sign : ObjectId -> option string -> option string -> Date
             -> Outcome string;
  jwt_verify : string -> option string -> Date -> JwtResult
}.

(* ================================================================== *)
(** ** The world a request runs in *)

(** [process.env]; a variable that is not set is [undefined]. *)
Record Env : Type := mkEnv {
  JWT_SECRET : option string;
  JWT_EXPIRE : option string;
  NODE_ENV : option string
}.

(** Calls to collaborators, in the order they are made, with the
    arguments they are given. *)
Inductive Event : Type :=
| EvFindOne (email : option JSON)
| EvFindById (id : ObjectId)
| EvInsert (email : string)
| EvGenSalt (rounds : nat)
| EvHash (plaintext : option string)
| EvCompare (entered : option JSON)
| EvJwtSign (id : ObjectId)
| EvJwtVerify (token : string)
| EvNext.

Record World : Type := mkWorld {
  env : Env;
  users : list User.t;        (* the users collection *)
  dbUp : bool;                (* is the database reachable? *)
  clock : Date;               (* new Date() *)
  nextId : nat;               (* next ObjectId the driver generates *)
  entropy : nat;              (* state of the random source *)
  log : list Event            (* most recent call first *)
}.

Definition emit (e : Event) (w : World) : World :=
  mkWorld (env w) (users w) (dbUp w) (clock w) (nextId w) (entropy w)
          (e :: log w).

Definition setUsers (us : list User.t) (w : World) : World :=
  mkWorld (env w) us (dbUp w) (clock w) (nextId w) (entropy w) (log w).

Definition bumpId (w : World) : World :=
  mkWorld (env w) (users w) (dbUp w) (clock w) (S (nextId w)) (entropy w)
          (log w).

Definition bumpEntropy (w : World) : World :=
  mkWorld (env w) (users w) (dbUp w) (clock w) (nextId w) (S (entropy w))
          (log w).

(** An [async] computation: it returns a value or throws, and changes
    the world. *)
Definition M (A : Type) : Type := World -> Outcome A * World.

Definition ret {A} (a : A) : M A := fun w => (Ret a, w).

Definition throw {A} (e : JsError) : M A := fun w => (Throw e, w).

Definition bind {A B} (m : M A) (k : A -> M B) : M B :=
  fun w => match m w with
           | (Ret a, w') => k a w'
           | (Throw e, w') => (Throw e, w')
           end.

(** [try { m } catch (error) { h error }] *)
Definition tryCatch {A} (m : M A) (h : JsError -> M A) : M A :=
  fun w => match m w with
           | (Ret a, w') => (Ret a, w')
           | (Throw e, w') => h e w'
           end.

Definition get : M World := fun w => (Ret w, w).

Definition tell (e : Event) : M unit := fun w => (Ret tt, emit e w).

(** A call that does not touch the world. *)
Definition call {A} (o : Outcome A) : M A := fun w => (o, w).

Declare Scope js_scope.
Delimit Scope js_scope with js.
Notation "x <- m ;; k" := (bind m (fun x => k))
  (at level 61, m at next level, right associativity) : js_scope.
Notation "m ;; k" := (bind m (fun _ => k))
  (at level 61, right associativity) : js_scope.

Local Open Scope js_scope.

(* ================================================================== *)
(** ** Requests and responses *)

(** [req.body], keyed by field path ([address.street] for a nested
    member).  A path that is not bound is [undefined]. *)
Definition Body : Type := list (string * JSON).

Module Fields.
Fixpoint get (k : string) (b : Body) : option JSON :=
  match b with
  | [] => None
  | (k', v) :: b' => if String.eqb k k' then Some v else get k b'
  end.

Fixpoint remove (k : string) (b : Body) : Body :=
  match b with
  | [] => []
  | (k', v) :: b' =>
      if String.eqb k k' then remove k b' else (k', v) :: remove k b'
  end.

Definition set (k : string) (v : JSON) (b : Body) : Body :=
  (k, v) :: remove k b.
End Fields.

(** One entry of [errors.array()]; [feValue] is the value the failing
    link was given, [undefined] for a field that was not sent and has
    not been sanitized. *)
Record FieldError : Type := mkFieldError {
  fePath : string;
  feMsg : string;
  feValue : option JSON
}.

(** [JSON.stringify] leaves out a member that is [undefined]. *)
Definition fieldErrorJSON (e : FieldError) : JSON :=
  Json.obj [("type", Some (JStr "field")); ("value", feValue e);
            ("msg", Some (JStr (feMsg e))); ("path", Some (JStr (fePath e)));
            ("location", Some (JStr "body"))].

Record Request : Type := mkRequest {
  authorization : option string;      (* req.headers.authorization *)
  body : Body;                        (* req.body *)
  user : option User.t;               (* req.user *)
  validationErrors : list FieldError  (* what validationResult(req) reads *)
}.

Definition setUser (u : User.t) (r : Request) : Request :=
  mkRequest (authorization r) (body r) (Some u) (validationErrors r).

Record Response : Type := mkResponse { status : Z; json : JSON }.

(** What a middleware does with a request: it answers, or it calls
    [next()] with the request as it has left it. *)
Inductive MwResult : Type :=
| Responded (r : Response)
| Proceed (req : Request).

(** What assigning a value to a path gives: nothing for [undefined]
    and [null], the cast value, or a cast error. *)
Inductive Cast (A : Type) : Type :=
| Missing
| Casted (a : A)
| CastFailed (msg : string).
Arguments Missing {A}.
Arguments Casted {A} a.
Arguments CastFailed {A} msg.

Definition casted {A} (default : A) (c : Cast A) : A :=
  match c with Casted a => a | _ => default end.

(* ================================================================== *)
(** ** The service *)

Section Service.

Context {L : Libs}.

(** *** The credential store (Mongoose model [User]) *)

Definition dbError : JsError :=
  newError "MongooseServerSelectionError" "database unreachable".

(** The schema's setters of [email]: [lowercase: true], [trim: true].
    Mongoose applies them to assigned values and to query filters. *)
Definition emailSetters (s : string) : string :=
  JsString.trim (JsString.toLowerCase s).

(** The schema's setter of [name]: [trim: true]. *)
Definition nameSetters (s : string) : string := JsString.trim s.

(** Projection of a query result: the digest is dropped unless the
    query says [.select('+password')]. *)
Definition project (selectPassword : bool) (u : User.t) : User.t :=
  if selectPassword then u else User.withPassword None u.

Definition castFailed (path : string) (j : JSON) : JsError :=
  newError "CastError" (castError path j).

(** [User.findOne({ email })], with or without [.select('+password')].
    A string is cast with the schema's setters.  An [undefined] or
    [null] email matches no document here; behind the routes'
    validation chains the email is always bound.  Any other value is
    cast by Mongoose before the query is sent, which may throw. *)
Definition findOne (email : option JSON) (selectPassword : bool)
  : M (option User.t) :=
  tell (EvFindOne email) ;;
  w <- get ;;
  match email with
  | None | Some JNull =>
      if dbUp w then ret None else throw dbError
  | Some (JStr e) =>
      if dbUp w then
        ret (option_map (project selectPassword)
               (find (fun u => String.eqb (User.email u) (emailSetters e))
                     (users w)))
      else throw dbError
  | Some j =>
      match castFilter j with
      | None => throw (castFailed "email" j)
      | Some es =>
          if dbUp w then
            ret (option_map (project selectPassword)
                   (find (fun u => existsb (String.eqb (User.email u)) es)
                         (users w)))
          else throw dbError
      end
  end.

(** [User.findById(id)], default projection (digest deselected), which
    is also what [.select('-password')] gives. *)
Definition findById (id : ObjectId) : M (option User.t) :=
  tell (EvFindById id) ;;
  w <- get ;;
  if dbUp w then
    ret (option_map (project false)
           (find (fun u => Nat.eqb (User._id u) id) (users w)))
  else throw dbError.

(** *** bcryptjs calls *)

Definition genSalt (rounds : nat) : M string :=
  tell (EvGenSalt rounds) ;;
  w <- get ;;
  (fun w0 => (Ret tt, bumpEntropy w0)) ;;
  ret (bcrypt_genSalt rounds (entropy w)).

(** The error of bcryptjs for an argument that is not a string; it
    names the types of both arguments. *)
Definition illegalArguments (s other : string) : JsError :=
  newError "Error" ("Illegal arguments: " ++ s ++ ", " ++ other).

(** [bcrypt.hash(s, salt)]; it throws when [s] is [undefined]. *)
Definition hash (s : option string) (salt : string) : M string :=
  tell (EvHash s) ;;
  match s with
  | None => throw (illegalArguments "undefined" "string")
  | Some p => ret (bcrypt_hash p salt)
  end.

(** [userSchema.methods.comparePassword]; [bcrypt.compare] throws
    unless both arguments are strings.  [this.password] is
    [undefined] in a document read without the digest. *)
Definition comparePassword (this : User.t) (enteredPassword : option JSON)
  : M bool :=
  tell (EvCompare enteredPassword) ;;
  match enteredPassword, User.password this with
  | Some (JStr entered), Some digest => ret (bcrypt_compare entered digest)
  | _, _ =>
      throw (illegalArguments
               (Json.typeOf enteredPassword)
               (Json.typeOf (option_map JStr (User.password this))))
  end.

(** *** The pre-save hook *)

(** A document in memory: its fields and the paths modified since it
    was loaded or created. *)
Record Doc : Type := mkDoc { this : User.t; modifiedPaths : list string }.

Definition isModified (d : Doc) (path : string) : bool :=
  existsb (String.eqb path) (modifiedPaths d).

Definition next : M unit := tell EvNext.

(** [userSchema.pre('save', async function (next) { ... })].
    The conditional calls [next()] and does not return: control falls
    through to the hashing statements, as in the source. *)
Definition preSave (d : Doc) : M Doc :=
  (if negb (isModified d "password") then next else ret tt) ;;
  salt <- genSalt 10 ;;
  digest <- hash (User.password (this d)) salt ;;
  let d' := mkDoc (User.withPassword (Some digest) (this d))
                  ("password" :: modifiedPaths d) in
  next ;;
  ret d'.

(** *** Schema validation and [User.create] *)

(** [/^\w+([\.-]?\w+)*@\w+([\.-]?\w+)*(\.\w{2,3})+$/] *)
Definition emailPattern : Regex.re :=
  let w1 := Regex.plus Regex.word in
  let sep := Regex.opt (Regex.Alt (Regex.lit ".") (Regex.lit "-")) in
  let tail := Regex.Star (Regex.Cat sep w1) in
  let tld := Regex.Cat (Regex.lit ".")
               (Regex.Cat (Regex.times 2 Regex.word) (Regex.opt Regex.word)) in
  Regex.Cat w1 (Regex.Cat tail (Regex.Cat (Regex.lit "@")
    (Regex.Cat w1 (Regex.Cat tail (Regex.plus tld))))).

(** [/^[0-9]{10}$/] *)
Definition phonePattern : Regex.re := Regex.times 10 Regex.digit.

(** The arguments of [User.create] in [registerUser]. *)
Record CreateInput : Type := mkCreateInput {
  ciName : option JSON;
  ciEmail : option JSON;
  ciPassword : option JSON;
  ciPhone : option JSON;
  ciDateOfBirth : option JSON;
  ciStreet : option JSON;
  ciCity : option JSON;
  ciState : option JSON;
  ciZipCode : option JSON;
  ciRole : JSON
}.

Definition str (o : option string) : string := JsString.orElse o "".

(** Assignment to a String path. *)
Definition castStr (path : string) (v : option JSON) : Cast string :=
  match v with
  | None | Some JNull => Missing
  | Some (JStr s) => Casted s
  | Some j =>
      match castString j with
      | Some s => Casted s
      | None => CastFailed (castError path j)
      end
  end.

(** Assignment to the Date path; the empty string is cast to [null]. *)
Definition castDob (v : option JSON) : Cast Date :=
  match v with
  | None | Some JNull | Some (JStr EmptyString) => Missing
  | Some j =>
      match castDate j with
      | Some d => Casted d
      | None => CastFailed (castError "dateOfBirth" j)
      end
  end.

Definition check (ok : bool) (path msg : string) : list string :=
  if ok then [] else [path ++ ": " ++ msg].

(** The errors of a [required] String path: the value is cast, the
    setters are applied, [required] fails on a missing or empty value,
    and the other validators of the path see a non-empty value only. *)
Definition required (path msg : string) (setters : string -> string)
           (rule : string -> list string) (v : option JSON) : list string :=
  match castStr path v with
  | Missing => [path ++ ": " ++ msg]
  | CastFailed m => [path ++ ": " ++ m]
  | Casted s =>
      if JsString.truthy (setters s) then rule (setters s)
      else [path ++ ": " ++ msg]
  end.

Definition noSetter (s : string) : string := s.
Definition noRule (s : string) : list string := [].

(** The schema's validators, run on the values after casting and
    setters. *)
Definition schemaErrors (c : CreateInput) : list string :=
  required "name" "Please add a name" nameSetters noRule (ciName c) ++
  required "email" "Please add an email" emailSetters
           (fun email => check (Regex.matches emailPattern email)
                               "email" "Please add a valid email")
           (ciEmail c) ++
  required "password" "Please add a password" noSetter
           (fun password => check (6 <=? String.length password)%nat
                                  "password"
                                  "Password must be at least 6 characters")
           (ciPassword c) ++
  required "phone" "Please add a phone number" noSetter
           (fun phone => check (Regex.matches phonePattern phone)
                               "phone"
                               "Please add a valid 10-digit phone number")
           (ciPhone c) ++
  match castDob (ciDateOfBirth c) with
  | Missing => ["dateOfBirth: Please add date of birth"]
  | CastFailed m => ["dateOfBirth: " ++ m]
  | Casted _ => []
  end ++
  required "address.street" "Path `address.street` is required."
           noSetter noRule (ciStreet c) ++
  required "address.city" "Path `address.city` is required."
           noSetter noRule (ciCity c) ++
  required "address.state" "Path `address.state` is required."
           noSetter noRule (ciState c) ++
  required "address.zipCode" "Path `address.zipCode` is required."
           noSetter noRule (ciZipCode c) ++
  match castStr "role" (Some (ciRole c)) with
  | Missing => []
  | CastFailed m => ["role: " ++ m]
  | Casted role =>
      check (existsb (String.eqb role) ["customer"; "agent"; "admin"])
            "role"
            ("`" ++ role ++ "` is not a valid enum value for path `role`.")
  end.

Definition validationError (msgs : list string) : JsError :=
  newError "ValidationError"
           ("User validation failed: " ++ String.concat ", " msgs).

Definition duplicateKey : JsError :=
  newError "MongoServerError" "E11000 duplicate key error collection: users index: email_1".

Definition epoch : Date := mkDate 1970 1 1.

(** A String path of the document [new User(c)] builds. *)
Definition stored (path : string) (v : option JSON) : string :=
  casted "" (castStr path v).

(** The document [new User(c)] builds: values cast, setters applied,
    defaults filled in, every given path marked as modified.  (A value
    that is missing or does not cast fails [schemaErrors], and the
    document is not used.) *)
Definition construct (id : ObjectId) (now : Date) (c : CreateInput) : Doc :=
  mkDoc
    (User.mk id
       (nameSetters (stored "name" (ciName c)))
       (emailSetters (stored "email" (ciEmail c)))
       (match castStr "password" (ciPassword c) with
        | Casted p => Some p
        | _ => None
        end)
       (stored "phone" (ciPhone c))
       (casted epoch (castDob (ciDateOfBirth c)))
       (Address.mk (stored "address.street" (ciStreet c))
                   (stored "address.city" (ciCity c))
                   (stored "address.state" (ciState c))
                   (stored "address.zipCode" (ciZipCode c)))
       (stored "role" (Some (ciRole c)))
       0 [] true now now)
    ["name"; "email"; "password"; "phone"; "dateOfBirth"; "address"; "role"].

(** Insertion into the collection; the unique index on [email] rejects
    a second document with the same email. *)
Definition insertOne (u : User.t) : M unit :=
  tell (EvInsert (User.email u)) ;;
  w <- get ;;
  if dbUp w then
    if existsb (fun v => String.eqb (User.email v) (User.email u)) (users w)
    then throw duplicateKey
    else fun w0 => (Ret tt, setUsers (users w0 ++ [u]) w0)
  else throw dbError.

(** [User.create(c)]: construct, validate, run the pre-save hook,
    insert. *)
Definition create (c : CreateInput) : M User.t :=
  w <- get ;;
  (fun w0 => (Ret tt, bumpId w0)) ;;
  let d := construct (nextId w) (clock w) c in
  match schemaErrors c with
  | (_ :: _) as msgs => throw (validationError msgs)
  | [] =>
      d' <- preSave d ;;
      insertOne (this d') ;;
      ret (this d')
  end.

(** *** [generateToken] *)

(** [jwt.sign] throws when the secret is not set or empty, or the
    lifetime is not one it accepts; nothing here catches that. *)
Definition generateToken (userId : ObjectId) : M string :=
  tell (EvJwtSign userId) ;;
  w <- get ;;
  call (jwt_sign userId (JWT_SECRET (env w)) (JWT_EXPIRE (env w)) (clock w)).

(** *** express-validator chains (the auth routes) *)

(** One link of a chain: a sanitizer, a standard validator with the
    message given by [withMessage], or a [custom] validator, which
    is given the value as it is, throws or returns a truth value, and
    reads today's date. *)
Inductive Step : Type :=
| Sanitizer (f : string -> string)
| Validator (ok : string -> bool) (msg : string)
| Custom (f : Date -> option JSON -> Outcome bool).

(** A standard validator is run on the value as a string, [undefined]
    being the empty string; the result is the values it rejects. *)
Definition rejected (ok : string -> bool) (v : option JSON)
  : list (option JSON) :=
  match v with
  | None => if ok "" then [] else [None]
  | Some (JStr s) => if ok s then [] else [v]
  | Some j => map Some (validateOther ok j)
  end.

(** A sanitizer is run on the value as a string and its result becomes
    the value of the field. *)
Definition sanitize (f : string -> string) (v : option JSON) : JSON :=
  match v with
  | None => JStr (f "")
  | Some (JStr s) => JStr (f s)
  | Some j => sanitizeOther f j
  end.

Record Chain : Type := mkChain {
  chPath : string;
  chOptional : bool;
  chSteps : list Step
}.

(** All links run, in order; a failing validator records its error and
    the chain goes on (no [bail]).  Sanitizers replace the value. *)
Fixpoint runSteps (today : Date) (path : string) (steps : list Step)
         (v : option JSON) : list FieldError * option JSON :=
  match steps with
  | [] => ([], v)
  | Sanitizer f :: rest => runSteps today path rest (Some (sanitize f v))
  | Validator ok msg :: rest =>
      let (errs, v') := runSteps today path rest v in
      ((map (mkFieldError path msg) (rejected ok v) ++ errs)%list, v')
  | Custom f :: rest =>
      let (errs, v') := runSteps today path rest v in
      match f today v with
      | Ret true => (errs, v')
      | Ret false => (mkFieldError path "Invalid value" v :: errs, v')
      | Throw e => (mkFieldError path (errMessage e) v :: errs, v')
      end
  end.

Definition hasSanitizer (steps : list Step) : bool :=
  existsb (fun st => match st with Sanitizer _ => true | _ => false end)
          steps.

(** [_.set(req.body, path, value)] for a value that has changed;
    without a sanitizer the value is as it was. *)
Definition writeBack (path : string) (v : option JSON) (b : Body) : Body :=
  match v with
  | Some j => Fields.set path j b
  | None => b
  end.

(** A chain reads its field (it is skipped altogether when the field
    is unbound and the chain is [optional()]), and writes the
    sanitized value back. *)
Definition runChain (today : Date) (ch : Chain) (b : Body)
  : list FieldError * Body :=
  match Fields.get (chPath ch) b, chOptional ch with
  | None, true => ([], b)
  | o, _ =>
      let (errs, v') := runSteps today (chPath ch) (chSteps ch) o in
      (errs, if hasSanitizer (chSteps ch)
             then writeBack (chPath ch) v' b else b)
  end.

Fixpoint runChains (today : Date) (chains : list Chain) (b : Body)
  : list FieldError * Body :=
  match chains with
  | [] => ([], b)
  | ch :: rest =>
      let (errs, b') := runChain today ch b in
      let (errs', b'') := runChains today rest b' in
      ((errs ++ errs')%list, b'')
  end.

Definition notEmpty (v : string) : bool := JsString.truthy v.

Definition isLength (min : nat) (max : option nat) (v : string) : bool :=
  (min <=? String.length v)%nat
  && match max with
     | Some m => (String.length v <=? m)%nat
     | None => true
     end.

Definition isIn (values : list string) (v : string) : bool :=
  existsb (String.eqb v) values.

(** [/^(?=.*[a-z])(?=.*[A-Z])(?=.*\d)/] *)
Definition passwordPattern : Regex.re :=
  let ahead (c : Regex.re) :=
    Regex.Cat (Regex.Star Regex.dot) (Regex.Cat c Regex.anything) in
  Regex.And (ahead Regex.lower)
            (Regex.And (ahead Regex.upper) (ahead Regex.digit)).

(** [/^[0-9]{6}$/] *)
Definition zipPattern : Regex.re := Regex.times 6 Regex.digit.

(** [new Date(value)]; [new Date(undefined)] is an Invalid Date. *)
Definition jsDate (value : option JSON) : option Date :=
  match value with
  | None => None
  | Some j => newDate j
  end.

Definition parseDate (s : string) : option Date := newDate (JStr s).

(** The [custom] validator of [dateOfBirth].  Both years are read in
    local time.  For an Invalid Date the year is [NaN] and [NaN < 18]
    is false. *)
Definition ageCheck (today : Date) (value : option JSON) : Outcome bool :=
  match jsDate value with
  | None => Ret true
  | Some birthDate =>
      let age := (getFullYear today - getFullYear birthDate)%Z in
      if (age <? 18)%Z
      then Throw (newError "Error"
                    "You must be at least 18 years old to register")
      else Ret true
  end.

Definition registerValidation : list Chain :=
  [ mkChain "name" false
      [ Sanitizer JsString.trim;
        Validator notEmpty "Name is required";
        Validator (isLength 2 (Some 50))
                  "Name must be between 2 and 50 characters" ];
    mkChain "email" false
      [ Sanitizer JsString.trim;
        Validator notEmpty "Email is required";
        Validator isEmail "Please provide a valid email";
        Sanitizer normalizeEmail ];
    mkChain "password" false
      [ Validator notEmpty "Password is required";
        Validator (isLength 6 None) "Password must be at least 6 characters";
        Validator (Regex.matches passwordPattern)
                  "Password must contain at least one uppercase letter, one lowercase letter, and one number" ];
    mkChain "phone" false
      [ Sanitizer JsString.trim;
        Validator notEmpty "Phone number is required";
        Validator (Regex.matches phonePattern)
                  "Phone number must be 10 digits" ];
    mkChain "dateOfBirth" false
      [ Validator notEmpty "Date of birth is required";
        Validator isDate "Please provide a valid date";
        Custom ageCheck ];
    mkChain "address.street" false
      [ Sanitizer JsString.trim;
        Validator notEmpty "Street address is required" ];
    mkChain "address.city" false
      [ Sanitizer JsString.trim;
        Validator notEmpty "City is required" ];
    mkChain "address.state" false
      [ Sanitizer JsString.trim;
        Validator notEmpty "State is required" ];
    mkChain "address.zipCode" false
      [ Sanitizer JsString.trim;
        Validator notEmpty "Zip code is required";
        Validator (Regex.matches zipPattern) "Zip code must be 6 digits" ];
    mkChain "role" true
      [ Validator (isIn ["customer"; "agent"; "admin"])
                  "Role must be customer, agent, or admin" ] ].

Definition loginValidation : list Chain :=
  [ mkChain "email" false
      [ Sanitizer JsString.trim;
        Validator notEmpty "Email is required";
        Validator isEmail "Please provide a valid email" ];
    mkChain "password" false
      [ Validator notEmpty "Password is required" ] ].

(** The chains as route middleware: they sanitize [req.body] and leave
    their errors on the request for [validationResult]. *)
Definition validate (chains : list Chain) (req : Request) : M Request :=
  w <- get ;;
  let (errs, b) := runChains (clock w) chains (body req) in
  ret (mkRequest (authorization req) b (user req)
                 (validationErrors req ++ errs)).

Definition validationResult (req : Request) : list FieldError :=
  validationErrors req.

Definition isEmpty (errors : list FieldError) : bool :=
  match errors with [] => true | _ => false end.

(** *** Controllers *)

Definition respond (code : Z) (members : list (string * option JSON))
  : M Response :=
  ret (mkResponse code (Json.obj members)).

(** The public summary sent by [registerUser] and [loginUser]. *)
Definition summary (u : User.t) : JSON :=
  JObj [("id", JStr (oidString (User._id u)));
        ("name", JStr (User.name u));
        ("email", JStr (User.email u));
        ("role", JStr (User.role u))].

Definition registerUser (req : Request) : M Response :=
  tryCatch
    (let errors := validationResult req in
     if negb (isEmpty errors) then
       respond 400 [("success", Some (JBool false));
                    ("errors", Some (JArr (map fieldErrorJSON errors)))]
     else
       let b := body req in
       let email := Fields.get "email" b in
       userExists <- findOne email false ;;
       match userExists with
       | Some _ =>
           respond 400 [("success", Some (JBool false));
                        ("message",
                         Some (JStr "User already exists with this email"))]
       | None =>
           user <- create (mkCreateInput
                             (Fields.get "name" b)
                             email
                             (Fields.get "password" b)
                             (Fields.get "phone" b)
                             (Fields.get "dateOfBirth" b)
                             (Fields.get "address.street" b)
                             (Fields.get "address.city" b)
                             (Fields.get "address.state" b)
                             (Fields.get "address.zipCode" b)
                             (Json.orElse (Fields.get "role" b)
                                          (JStr "customer"))) ;;
           token <- generateToken (User._id user) ;;
           respond 201 [("success", Some (JBool true));
                        ("message", Some (JStr "User registered successfully"));
                        ("token", Some (JStr token));
                        ("user", Some (summary user))]
       end)
    (fun error =>
       respond 500 [("success", Some (JBool false));
                    ("message", Some (JStr "Server error during registration"));
                    ("error", Some (JStr (errMessage error)))]).

Definition loginUser (req : Request) : M Response :=
  tryCatch
    (let errors := validationResult req in
     if negb (isEmpty errors) then
       respond 400 [("success", Some (JBool false));
                    ("errors", Some (JArr (map fieldErrorJSON errors)))]
     else
       let email := Fields.get "email" (body req) in
       let password := Fields.get "password" (body req) in
       found <- findOne email true ;;
       match found with
       | None =>
           respond 401 [("success", Some (JBool false));
                        ("message", Some (JStr "Invalid email or password"))]
       | Some user =>
           if negb (User.isActive user) then
             respond 401 [("success", Some (JBool false));
                          ("message",
                           Some (JStr "Account is deactivated. Please contact support."))]
           else
             isPasswordMatch <- comparePassword user password ;;
             if negb isPasswordMatch then
               respond 401 [("success", Some (JBool false));
                            ("message",
                             Some (JStr "Invalid email or password"))]
             else
               token <- generateToken (User._id user) ;;
               respond 200 [("success", Some (JBool true));
                            ("message", Some (JStr "Login successful"));
                            ("token", Some (JStr token));
                            ("user", Some (summary user))]
       end)
    (fun error =>
       respond 500 [("success", Some (JBool false));
                    ("message", Some (JStr "Server error during login"));
                    ("error", Some (JStr (errMessage error)))]).

Definition typeError (prop : string) : JsError :=
  newError "TypeError"
    ("Cannot read properties of undefined (reading '" ++ prop ++ "')").

(** The profile sent by [getMe]. *)
Definition profile (u : User.t) : JSON :=
  JObj [("id", JStr (oidString (User._id u)));
        ("name", JStr (User.name u));
        ("email", JStr (User.email u));
        ("phone", JStr (User.phone u));
        ("dateOfBirth", JStr (toISOString (User.dateOfBirth u)));
        ("address", Address.toJSON (User.address u));
        ("role", JStr (User.role u));
        ("isActive", JBool (User.isActive u));
        ("createdAt", JStr (toISOString (User.createdAt u)))].

Definition getMe (req : Request) : M Response :=
  tryCatch
    (match user req with
     | None => throw (typeError "id")
     | Some me =>
         found <- findById (User.id me) ;;
         match found with
         | None =>
             respond 404 [("success", Some (JBool false));
                          ("message", Some (JStr "User not found"))]
         | Some u =>
             respond 200 [("success", Some (JBool true));
                          ("user", Some (profile u))]
         end
     end)
    (fun error =>
       respond 500 [("success", Some (JBool false));
                    ("message", Some (JStr "Server error"));
                    ("error", Some (JStr (errMessage error)))]).

(** *** Middlewares *)

Definition answer (code : Z) (members : list (string * option JSON))
  : M MwResult :=
  ret (Responded (mkResponse code (Json.obj members))).

(** The token the header carries, as [protect] extracts it:
    [authorization.split(' ')[1]] when the header is truthy and starts
    with [Bearer], otherwise [undefined]. *)
Definition bearerToken (authorization : option string) : option string :=
  match authorization with
  | Some h =>
      if JsString.truthy h && JsString.startsWith h "Bearer"
      then nth_error (JsString.split " " h) 1
      else None
  | None => None
  end.

(** [jwt.verify(token, process.env.JWT_SECRET)] *)
Definition verify (token : string) : M ObjectId :=
  tell (EvJwtVerify token) ;;
  w <- get ;;
  match jwt_verify token (JWT_SECRET (env w)) (clock w) with
  | JwtOk id => ret id
  | JwtThrow e => throw e
  end.

Definition protect (req : Request) : M MwResult :=
  tryCatch
    (let token := bearerToken (authorization req) in
     if negb (JsString.truthyOpt token) then
       answer 401 [("success", Some (JBool false));
                   ("message",
                    Some (JStr "Not authorized, no token provided"))]
     else
       decoded <- verify (str token) ;;
       found <- findById decoded ;;
       match found with
       | None =>
           answer 401 [("success", Some (JBool false));
                       ("message", Some (JStr "User not found"))]
       | Some u =>
           if negb (User.isActive u) then
             answer 401 [("success", Some (JBool false));
                         ("message", Some (JStr "Account is deactivated"))]
           else
             next ;;
             ret (Proceed (setUser u req))
       end)
    (fun error =>
       if String.eqb (errName error) "JsonWebTokenError" then
         answer 401 [("success", Some (JBool false));
                     ("message", Some (JStr "Invalid token"))]
       else if String.eqb (errName error) "TokenExpiredError" then
         answer 401 [("success", Some (JBool false));
                     ("message",
                      Some (JStr "Token expired, please login again"))]
       else
         answer 500 [("success", Some (JBool false));
                     ("message", Some (JStr "Server error in authentication"));
                     ("error", Some (JStr (errMessage error)))]).

(** [authorize(...roles)]: the middleware the factory returns.  It is
    synchronous and not guarded: reading [req.user.role] throws when
    [req.user] is noSetter. *)
Definition authorize (roles : list string) (req : Request) : M MwResult :=
  match user req with
  | None => throw (typeError "role")
  | Some u =>
      if negb (existsb (String.eqb (User.role u)) roles) then
        answer 403 [("success", Some (JBool false));
                    ("message",
                     Some (JStr ("User role '" ++ User.role u ++
                                 "' is not authorized to access this route")))]
      else
        next ;;
        ret (Proceed req)
  end.

(** The global error-handling middleware. *)
Definition errorHandler (err : JsError) : M Response :=
  w <- get ;;
  let statusCode :=
    match statusCode err with
    | Some c => if (c =? 0)%Z then 500%Z else c
    | None => 500%Z
    end in
  respond statusCode
    [("success", Some (JBool false));
     ("message",
      Some (JStr (if JsString.truthy (errMessage err)
                  then errMessage err else "Server Error")));
     ("stack",
      match NODE_ENV (env w) with
      | Some mode =>
          if String.eqb mode "development"
          then option_map JStr (errStack err) else None
      | None => None
      end)].

(** *** Routes *)

(** [app.get('/', ...)], the test route. *)
Definition root : M Response :=
  respond 200 [("success", Some (JBool true));
               ("message",
                Some (JStr "Insurance Management API is running!"))].

(** [router.post('/register', registerValidation, registerUser)] *)
Definition postRegister (req : Request) : M Response :=
  req' <- validate registerValidation req ;;
  registerUser req'.

(** [router.post('/login', loginValidation, loginUser)] *)
Definition postLogin (req : Request) : M Response :=
  req' <- validate loginValidation req ;;
  loginUser req'.

(** A handler mounted behind [protect]: it runs only if the
    middleware calls [next()]. *)
Definition behindProtect (handler : Request -> M Response) (req : Request)
  : M Response :=
  r <- protect req ;;
  match r with
  | Responded resp => ret resp
  | Proceed req' => handler req'
  end.

(** [router.get('/me', protect, getMe)] *)
Definition getMeRoute (req : Request) : M Response :=
  behindProtect getMe req.

End Service.

(* ================================================================== *)
(** ** A reference instance of the packages

    Executable stand-ins with the documented behaviour of the packages
    and of the runtime, in a process whose time zone is UTC, at the
    precision the handlers depend on; they serve to run the handlers on
    concrete requests. *)

Module Ref.

(** Addresses of the shape [local@label.label...]. *)
Definition emailShape : Regex.re :=
  let localChar :=
    Regex.Alt Regex.word
      (Regex.Alt (Regex.lit ".") (Regex.Alt (Regex.lit "+") (Regex.lit "-"))) in
  let label := Regex.plus (Regex.Alt Regex.word (Regex.lit "-")) in
  Regex.Cat (Regex.plus localChar)
    (Regex.Cat (Regex.lit "@")
       (Regex.Cat label (Regex.plus (Regex.Cat (Regex.lit ".") label)))).

Definition isEmail (s : string) : bool := Regex.matches emailShape s.

Fixpoint dropDots (s : string) : string :=
  match s with
  | EmptyString => EmptyString
  | String c s' =>
      if Ascii.eqb c "." then dropDots s' else String c (dropDots s')
  end.

(** [normalizeEmail] with its default options, as the route's comment
    has it: the address in lowercase, and the dots of the local part
    removed for a Gmail address. *)
Definition normalizeEmail (s : string) : string :=
  let l := JsString.toLowerCase s in
  match JsString.split "@" l with
  | [localPart; domain] =>
      if String.eqb domain "gmail.com"
      then dropDots localPart ++ "@" ++ domain
      else l
  | _ => l
  end.

(** Dates written [YYYY-MM-DD] or [YYYY/MM/DD]. *)
Definition parseYMD (s : string) : option Date :=
  let parts :=
    match JsString.split "-" s with
    | [_; _; _] as p => p
    | _ => JsString.split "/" s
    end in
  match parts with
  | [y; m; d] =>
      match JsString.toNat y, JsString.toNat m, JsString.toNat d with
      | Some yn, Some mn, Some dn =>
          if (String.length y =? 4)%nat
             && (1 <=? mn)%nat && (mn <=? 12)%nat
             && (1 <=? dn)%nat && (dn <=? 31)%nat
          then Some (mkDate (Z.of_nat yn) (Z.of_nat mn) (Z.of_nat dn))
          else None
      | _, _, _ => None
      end
  | _ => None
  end.

Definition isDate (s : string) : bool :=
  match parseYMD s with Some _ => true | None => false end.

(** The quotation mark. *)
Definition dq : string := String (ascii_of_nat 34) EmptyString.

Definition showZ (n : Z) : string := NilZero.string_of_int (Z.to_int n).

(** [String(j)]; an array is joined with commas, [null] members
    giving the empty string. *)
Fixpoint show (j : JSON) : string :=
  match j with
  | JNull => "null"
  | JBool true => "true"
  | JBool false => "false"
  | JNum n => showZ n
  | JStr s => s
  | JArr l =>
      (fix join (l : list JSON) : string :=
         match l with
         | [] => ""
         | x :: l' =>
             (match x with JNull => "" | _ => show x end)
             ++ match l' with [] => "" | _ => "," ++ join l' end
         end) l
  | JObj _ => "[object Object]"
  end.

(** express-validator's [toString]: the first member of a non-empty
    array, the empty string for [null]. *)
Definition toStr (j : JSON) : string :=
  match j with
  | JNull => ""
  | JArr (JNull :: _) => ""
  | JArr (x :: _) => show x
  | _ => show j
  end.

(** A standard validator runs on every member of an array, a sanitizer
    maps over it. *)
Definition validateOther (ok : string -> bool) (j : JSON) : list JSON :=
  match j with
  | JArr l => filter (fun x => negb (ok (toStr x))) l
  | _ => if ok (toStr j) then [] else [j]
  end.

Definition sanitizeOther (f : string -> string) (j : JSON) : JSON :=
  match j with
  | JArr l => JArr (map (fun x => JStr (f (toStr x))) l)
  | _ => JStr (f (toStr j))
  end.

(** The civil date of a day number (days since 1970-01-01). *)
Definition civil (days : Z) : Z * Z * Z :=
  let z := (days + 719468)%Z in
  let era := (z / 146097)%Z in
  let doe := (z - era * 146097)%Z in
  let yoe := ((doe - doe / 1460 + doe / 36524 - doe / 146096) / 365)%Z in
  let doy := (doe - (365 * yoe + yoe / 4 - yoe / 100))%Z in
  let mp := ((5 * doy + 2) / 153)%Z in
  let d := (doy - (153 * mp + 2) / 5 + 1)%Z in
  let m := if (mp <? 10)%Z then (mp + 3)%Z else (mp - 9)%Z in
  let y := (yoe + era * 400 + (if (m <=? 2)%Z then 1 else 0))%Z in
  (y, m, d).

(** [new Date(ms)] *)
Definition ofMillis (ms : Z) : Date :=
  let '(y, m, d) := civil (ms / 86400000) in
  mkInstant y m d (ms mod 86400000).

(** [new Date(value)]: a number is a time in milliseconds, [null] and
    the booleans are numbers, anything else is parsed as a string. *)
Definition newDate (j : JSON) : option Date :=
  match j with
  | JNull => Some (ofMillis 0)
  | JBool b => Some (ofMillis (if b then 1 else 0))
  | JNum n => Some (ofMillis n)
  | _ => parseYMD (show j)
  end.

(** A process in the UTC time zone: local time is UTC. *)
Definition getFullYear (d : Date) : Z := year d.

(** Mongoose casts numbers and booleans to a String path, and numbers
    and date strings to a Date path. *)
Definition castString (j : JSON) : option string :=
  match j with
  | JBool _ | JNum _ | JStr _ => Some (show j)
  | _ => None
  end.

Definition castDate (j : JSON) : option Date :=
  match j with
  | JNum n => Some (ofMillis n)
  | JStr _ | JArr _ => parseYMD (show j)
  | _ => None
  end.

(** An array in a filter selects the documents that have one of its
    members. *)
Fixpoint castAll (l : list JSON) : option (list string) :=
  match l with
  | [] => Some []
  | x :: l' =>
      match castString x, castAll l' with
      | Some s, Some ss => Some (emailSetters s :: ss)
      | _, _ => None
      end
  end.

Definition castFilter (j : JSON) : option (list string) :=
  match j with
  | JArr l => castAll l
  | JObj _ | JNull => None
  | _ => option_map (fun s => [emailSetters s]) (castString j)
  end.

Definition castError (path : string) (j : JSON) : string :=
  "Cast failed for value " ++ dq ++ show j ++ dq ++ " (type " ++
  Json.typeOf (Some j) ++ ") at path " ++ dq ++ path ++ dq.

(** Days since 1970-01-01 of a civil date. *)
Definition dayNumber (t : Date) : Z :=
  let y := if (month t <=? 2)%Z then (year t - 1)%Z else year t in
  let era := (y / 400)%Z in
  let yoe := (y - era * 400)%Z in
  let mp := if (month t <=? 2)%Z then (month t + 9)%Z else (month t - 3)%Z in
  let doy := ((153 * mp + 2) / 5 + day t - 1)%Z in
  let doe := (yoe * 365 + yoe / 4 - yoe / 100 + doy)%Z in
  (era * 146097 + doe - 719468)%Z.

Definition genSalt (rounds entropy : nat) : string :=
  "$2a$" ++ JsString.pad 2 rounds ++ "$salt" ++ JsString.ofNat entropy.

(** The digest embeds its salt, then the secret; [compare] recomputes
    the digest of the entered secret under the embedded salt. *)
Definition hash (plaintext salt : string) : string :=
  salt ++ "$" ++ plaintext.

Fixpoint saltOf (dollars : nat) (digest : string) : string :=
  match digest with
  | EmptyString => EmptyString
  | String c s' =>
      if Ascii.eqb c "$" then
        match dollars with
        | O => EmptyString
        | S k => String c (saltOf k s')
        end
      else String c (saltOf dollars s')
  end.

Definition compare (entered digest : string) : bool :=
  String.eqb digest (hash entered (saltOf 3 digest)).

Fixpoint leadingDigits (s : string) : string :=
  match s with
  | EmptyString => EmptyString
  | String c s' =>
      if JsString.isDigit c then String c (leadingDigits s') else EmptyString
  end.

(** Lifetime in days of an [expiresIn] written in days, such as [30d];
    no other lifetime is accepted here. *)
Definition ttlDays (expiresIn : string) : option Z :=
  let n := leadingDigits expiresIn in
  if String.eqb expiresIn (n ++ "d")
  then option_map Z.of_nat (JsString.toNat n)
  else None.

Definition sign (id : ObjectId) (secret expiresIn : option string)
           (now : Date) : Outcome string :=
  match secret, option_map ttlDays expiresIn with
  | Some (String c s), Some (Some days) =>
      Ret ("jwt." ++ JsString.ofNat id ++ "." ++
           JsString.ofNat (Z.to_nat (dayNumber now + days)) ++ "." ++
           String c s)
  | Some (String _ _), _ =>
      Throw (newError "Error"
               (dq ++ "expiresIn" ++ dq ++
                " should be a number of seconds or string representing a timespan"))
  | _, _ => Throw (newError "Error" "secretOrPrivateKey must have a value")
  end.

Definition verify (token : string) (secret : option string) (now : Date)
  : JwtResult :=
  match secret with
  | None | Some EmptyString =>
      JwtThrow (newError "JsonWebTokenError"
                         "secret or public key must be provided")
  | Some secret =>
      match JsString.split "." token with
      | [tag; id; exp; sig] =>
          match JsString.toNat id, JsString.toNat exp with
          | Some i, Some e =>
              if negb (String.eqb tag "jwt") then
                JwtThrow (newError "JsonWebTokenError" "jwt malformed")
              else if negb (String.eqb sig secret) then
                JwtThrow (newError "JsonWebTokenError" "invalid signature")
              else if (Z.of_nat e <? dayNumber now)%Z then
                JwtThrow (newError "TokenExpiredError" "jwt expired")
              else JwtOk i
          | _, _ => JwtThrow (newError "JsonWebTokenError" "jwt malformed")
          end
      | _ => JwtThrow (newError "JsonWebTokenError" "jwt malformed")
      end
  end.

Definition refLibs : Libs :=
  Build_Libs isEmail normalizeEmail isDate
             validateOther sanitizeOther
             newDate getFullYear
             castString castDate castFilter castError
             genSalt hash compare sign verify.

(** A configured process and an empty collection on 1 March 2024. *)
Definition env0 : Env :=
  mkEnv (Some "s3cret") (Some "30d") (Some "production").

Definition world0 : World :=
  mkWorld env0 [] true (mkDate 2024 3 1) 1 0 [].

Definition request (auth : option string) (b : Body) : Request :=
  mkRequest auth b None [].

(** A body whose fields are all strings. *)
Definition strings (fields : list (string * string)) : Body :=
  map (fun kv => (fst kv, JStr (snd kv))) fields.

Definition registration (email password dob : string) : Body :=
  strings
    [("name", "Jane Doe"); ("email", email); ("password", password);
     ("phone", "9876543210"); ("dateOfBirth", dob);
     ("address.street", "1 Rd"); ("address.city", "C");
     ("address.state", "S"); ("address.zipCode", "123456")].

Definition credentials (email password : string) : Body :=
  strings [("email", email); ("password", password)].

(** A stored user, her token, and a collection on the same day. *)
Definition jane : User.t :=
  User.mk 1 "Jane Doe" "jane@ex.com" (Some "$2a$10$salt0$Abcdef1")
          "9876543210" (mkDate 1990 1 1)
          (Address.mk "1 Rd" "C" "S" "123456") "customer" 0 [] true
          (mkDate 2024 3 1) (mkDate 2024 3 1).

Definition janeToken : string := "jwt.1.19813.s3cret".

Definition worldOf (us : list User.t) : World :=
  mkWorld env0 us true (mkDate 2024 3 1) 2 1 [].

Definition offline (w : World) : World :=
  mkWorld (env w) (users w) false (clock w) (nextId w) (entropy w) (log w).

Definition at_ (d : Date) (w : World) : World :=
  mkWorld (env w) (users w) (dbUp w) d (nextId w) (entropy w) (log w).

Definition bearer (token : string) : Request :=
  request (Some ("Bearer " ++ token)) [].

(** The world left by a computation, and its response. *)
Definition after {A} (m : M A) (w : World) : World := snd (m w).

Definition result {A} (m : M A) (w : World) : Outcome A := fst (m w).

End Ref.

(* ================================================================== *)
(** ** Vocabulary of the statements *)

Section Statements.

Context {L : Libs}.

Definition unauthorized (msg : string) : Response :=
  mkResponse 401 (JObj [("success", JBool false); ("message", JStr msg)]).




Definition serverError (msg detail : string) : Response :=
  mkResponse 500 (JObj [("success", JBool false); ("message", JStr msg);
                        ("error", JStr detail)]).

(** What the [catch] block of [protect] answers to an error. *)
Definition caught (e : JsError) : Response :=
  if String.eqb (errName e) "JsonWebTokenError" then
    unauthorized "Invalid token"
  else if String.eqb (errName e) "TokenExpiredError" then
    unauthorized "Token expired, please login again"
  else serverError "Server error in authentication" (errMessage e).

Definition byId (id : ObjectId) (w : World) : option User.t :=
  find (fun u => Nat.eqb (User._id u) id) (users w).

Definition byEmail (e : string) (w : World) : option User.t :=
  find (fun u => String.eqb (User.email u) (emailSetters e)) (users w).

Definition invalidCredentials : Response :=
  unauthorized "Invalid email or password".

Definition deactivated : Response :=
  unauthorized "Account is deactivated. Please contact support.".

Definition loginSuccess (token : string) (u : User.t) : Response :=
  mkResponse 200
    (JObj [("success", JBool true); ("message", JStr "Login successful");
           ("token", JStr token); ("user", summary u)]).

Definition validationFailed (errors : list FieldError) : Response :=
  mkResponse 400
    (JObj [("success", JBool false);
           ("errors", JArr (map fieldErrorJSON errors))]).

(** A login request that meets the route's preconditions: an email
    that is present and valid once trimmed, and a password that is
    present. *)
Definition validLogin (req : Request) (e p : string) : Prop :=
  validationErrors req = []
  /\ Fields.get "email" (body req) = Some (JStr e)
  /\ Fields.get "password" (body req) = Some (JStr p)
  /\ JsString.truthy (JsString.trim e) = true
  /\ isEmail (JsString.trim e) = true
  /\ JsString.truthy p = true.

Definition sanitizedLogin (req : Request) (e : string) : Request :=
  mkRequest (authorization req)
            (Fields.set "email" (JStr (JsString.trim e)) (body req))
            (user req) [].

Definition conflict : Response :=
  mkResponse 400
    (JObj [("success", JBool false);
           ("message", JStr "User already exists with this email")]).

Definition registerSuccess (token : string) (u : User.t) : Response :=
  mkResponse 201
    (JObj [("success", JBool true);
           ("message", JStr "User registered successfully");
           ("token", JStr token); ("user", summary u)]).

Definition notFound : Response :=
  mkResponse 404
    (JObj [("success", JBool false); ("message", JStr "User not found")]).

Definition profileSuccess (u : User.t) : Response :=
  mkResponse 200 (JObj [("success", JBool true); ("user", profile u)]).

Definition forbidden (role : string) : Response :=
  mkResponse 403
    (JObj [("success", JBool false);
           ("message",
            JStr ("User role '" ++ role ++
                  "' is not authorized to access this route"))]).

(** A document with its digest left out, and two collections that
    differ in the digests only. *)
Definition withoutDigest (u : User.t) : User.t :=
  User.mk (User._id u) (User.name u) (User.email u) None (User.phone u)
          (User.dateOfBirth u) (User.address u) (User.role u)
          (User.commissionRate u) (User.assignedCustomers u)
          (User.isActive u) (User.createdAt u) (User.updatedAt u).

Definition sameButDigests (us vs : list User.t) : Prop :=
  map withoutDigest us = map withoutDigest vs.

(** A success response: its [success] flag is [true]. *)
Definition isSuccess (r : Response) : Prop :=
  Json.field "success" (json r) = Some (JBool true).

(** An error response: an HTTP error status, or a [success] flag that
    is [false]. *)
Definition isError (r : Response) : Prop :=
  (400 <= status r)%Z \/ Json.field "success" (json r) = Some (JBool false).

(** The responses of the service: those of the routes' controllers
    and middlewares, of the test route and of the error middleware. *)
Inductive sent : Response -> Prop :=
| sent_root (w w' : World) (resp : Response) :
    root w = (Ret resp, w') -> sent resp
| sent_register (req : Request) (w w' : World) (resp : Response) :
    registerUser req w = (Ret resp, w') -> sent resp
| sent_login (req : Request) (w w' : World) (resp : Response) :
    loginUser req w = (Ret resp, w') -> sent resp
| sent_getMe (req : Request) (w w' : World) (resp : Response) :
    getMe req w = (Ret resp, w') -> sent resp
| sent_protect (req : Request) (w w' : World) (resp : Response) :
    protect req w = (Ret (Responded resp), w') -> sent resp
| sent_authorize (roles : list string) (req : Request) (w w' : World)
                 (resp : Response) :
    authorize roles req w = (Ret (Responded resp), w') -> sent resp
| sent_errorHandler (err : JsError) (w w' : World) (resp : Response) :
    errorHandler err w = (Ret resp, w') -> sent resp.

(** The age in completed years on the day [today] of a subject born
    on [birth]: the notion behind "at least 18 years old at call
    time". *)
Definition ageInYears (today birth : Date) : Z :=
  let before :=
    (month today <? month birth)%Z
    || ((month today =? month birth)%Z && (day today <? day birth)%Z) in
  (year today - year birth - (if before then 1 else 0))%Z.

End Statements.

(* ================================================================== *)
(** ** Further vocabulary *)

(** The part of a string before its first line terminator (LF or CR),
    which is as far as [.*] reaches. *)
Fixpoint firstLine (s : string) : list ascii :=
  match s with
  | EmptyString => []
  | String a s' =>
      if Ascii.eqb a "010" || Ascii.eqb a "013" then [] else a :: firstLine s'
  end.

Definition isLower (c : ascii) : bool := Regex.inRange 97 122 c.
Definition isUpper (c : ascii) : bool := Regex.inRange 65 90 c.
Definition isDigit (c : ascii) : bool := Regex.inRange 48 57 c.

(** A string of exactly [n] decimal digits. *)
Definition digits (n : nat) (s : string) : bool :=
  (String.length s =? n)%nat && forallb isDigit (list_ascii_of_string s).

(** A value as a standard validator reads it when it is a string or
    [undefined]: [undefined] is the empty string. *)
Definition text (v : option JSON) : string :=
  match v with
  | Some (JStr s) => s
  | _ => ""
  end.

(** The value of a body field as the chains read it. *)
Definition field (k : string) (b : Body) : string := text (Fields.get k b).

(** A value that is a string or [undefined]. *)
Definition plain (v : option JSON) : bool :=
  match v with
  | None | Some (JStr _) => true
  | Some _ => false
  end.

(** A body in which the given fields, where they are sent, are
    strings. *)
Definition stringsAt (paths : list string) (b : Body) : bool :=
  forallb (fun p => plain (Fields.get p b)) paths.

Definition registerPaths : list string :=
  ["name"; "email"; "password"; "phone"; "dateOfBirth"; "address.street";
   "address.city"; "address.state"; "address.zipCode"; "role"].

Definition loginPaths : list string := ["email"; "password"].

Section RegisterPreconditions.

Context {L : Libs}.

(** The rule of the [custom] validator as a truth value. *)
Definition yearsOk (today : Date) (dob : string) : bool :=
  match parseDate dob with
  | None => true
  | Some birth => (18 <=? getFullYear today - getFullYear birth)%Z
  end.

(** The preconditions of registration, field by field. *)
Definition registerValid (today : Date) (b : Body) : bool :=
  let name := JsString.trim (field "name" b) in
  let email := JsString.trim (field "email" b) in
  let password := field "password" b in
  let dob := field "dateOfBirth" b in
  ((2 <=? String.length name)%nat && (String.length name <=? 50)%nat)
  && (JsString.truthy email && isEmail email)
  && ((6 <=? String.length password)%nat
      && (existsb isLower (firstLine password)
          && existsb isUpper (firstLine password)
          && existsb isDigit (firstLine password)))
  && digits 10 (JsString.trim (field "phone" b))
  && (JsString.truthy dob && isDate dob && yearsOk today dob)
  && JsString.truthy (JsString.trim (field "address.street" b))
  && JsString.truthy (JsString.trim (field "address.city" b))
  && JsString.truthy (JsString.trim (field "address.state" b))
  && digits 6 (JsString.trim (field "address.zipCode" b))
  && match Fields.get "role" b with
     | None => true
     | Some _ => isIn ["customer"; "agent"; "admin"] (field "role" b)
     end.

(** The preconditions of login. *)
Definition loginValid (b : Body) : bool :=
  let email := JsString.trim (field "email" b) in
  JsString.truthy email && isEmail email
  && JsString.truthy (field "password" b).

End RegisterPreconditions.

Section ChainVocabulary.

Context {L : Libs}.

(** Does a standard validator accept the value? *)
Definition accepts (ok : string -> bool) (v : option JSON) : bool :=
  match rejected ok v with [] => true | _ => false end.

(** Do all the validators of a chain accept the value?  Sanitizers
    change the value the later validators see. *)
Fixpoint stepsOk (today : Date) (steps : list Step) (v : option JSON)
  : bool :=
  match steps with
  | [] => true
  | Sanitizer f :: rest => stepsOk today rest (Some (sanitize f v))
  | Validator ok _ :: rest => accepts ok v && stepsOk today rest v
  | Custom f :: rest =>
      match f today v with
      | Ret true => stepsOk today rest v
      | _ => false
      end
  end.

(** The value a chain leaves: all its sanitizers applied in order. *)
Fixpoint sanitized (steps : list Step) (v : option JSON) : option JSON :=
  match steps with
  | [] => v
  | Sanitizer f :: rest => sanitized rest (Some (sanitize f v))
  | _ :: rest => sanitized rest v
  end.

End ChainVocabulary.

Section RegisterVocabulary.

Context {L : Libs}.

(** The arguments [registerUser] passes to [User.create]. *)
Definition createInput (b : Body) : CreateInput :=
  mkCreateInput (Fields.get "name" b) (Fields.get "email" b)
                (Fields.get "password" b) (Fields.get "phone" b)
                (Fields.get "dateOfBirth" b) (Fields.get "address.street" b)
                (Fields.get "address.city" b) (Fields.get "address.state" b)
                (Fields.get "address.zipCode" b)
                (Json.orElse (Fields.get "role" b) (JStr "customer")).

(** The document [User.create] stores for these arguments in the world
    [w], with its digest. *)
Definition newUser (w : World) (c : CreateInput) (digest : string) : User.t :=
  User.withPassword (Some digest) (this (construct (nextId w) (clock w) c)).

(** The digest the hook computes in the world [w]. *)
Definition digestOf (w : World) (plaintext : string) : string :=
  bcrypt_hash plaintext (bcrypt_genSalt 10 (entropy w)).

(** The world after the calls of a successful [User.create]: the id
    and the random source advanced, the salt, the hash, [next()] and
    the insertion logged. *)
Definition hashedAndInserted (w : World) (plaintext email : string) : World :=
  emit (EvInsert email)
    (emit EvNext
       (emit (EvHash (Some plaintext))
          (bumpEntropy (emit (EvGenSalt 10) (bumpId w))))).

(** Two worlds with the same store and configuration; the log may
    differ. *)
Definition sameStore (w w' : World) : Prop :=
  env w' = env w /\ users w' = users w /\ dbUp w' = dbUp w
  /\ clock w' = clock w /\ nextId w' = nextId w /\ entropy w' = entropy w.

End RegisterVocabulary.

Section RouteVocabulary.

Context {L : Libs}.

(** The arguments of [User.create] for a body [b] that has passed the
    register chains: the sanitized fields, and password, date of birth
    and role as sent. *)
Definition sanitizedInput (b : Body) : CreateInput :=
  mkCreateInput
    (Some (JStr (JsString.trim (field "name" b))))
    (Some (JStr (normalizeEmail (JsString.trim (field "email" b)))))
    (Fields.get "password" b)
    (Some (JStr (JsString.trim (field "phone" b))))
    (Fields.get "dateOfBirth" b)
    (Some (JStr (JsString.trim (field "address.street" b))))
    (Some (JStr (JsString.trim (field "address.city" b))))
    (Some (JStr (JsString.trim (field "address.state" b))))
    (Some (JStr (JsString.trim (field "address.zipCode" b))))
    (Json.orElse (Fields.get "role" b) (JStr "customer")).

(** The email [registerUser] looks up and stores for a body. *)
Definition registeredEmail (b : Body) : string :=
  normalizeEmail (JsString.trim (field "email" b)).

Definition registrationFailed (detail : string) : Response :=
  serverError "Server error during registration" detail.

(** What [loginUser] answers once the password has been compared
    successfully: the token is signed, which may throw. *)
Definition signedIn (u : User.t) (w : World) : Outcome Response * World :=
  (match jwt_sign (User._id u) (JWT_SECRET (env w)) (JWT_EXPIRE (env w))
                  (clock w) with
   | Ret token => Ret (loginSuccess token u)
   | Throw err =>
       Ret (serverError "Server error during login" (errMessage err))
   end,
   emit (EvJwtSign (User._id u)) w).

(** What [registerUser] answers once the user is stored: the token is
    signed, which may throw. *)
Definition registered (u : User.t) (w : World) : Response :=
  match jwt_sign (User._id u) (JWT_SECRET (env w)) (JWT_EXPIRE (env w))
                 (clock w) with
  | Ret token => registerSuccess token u
  | Throw err => registrationFailed (errMessage err)
  end.

(** The routes of the application. *)
Inductive Endpoint : Type :=
| GetRoot          (* GET / *)
| PostRegister     (* POST /api/auth/register *)
| PostLogin        (* POST /api/auth/login *)
| GetMe.           (* GET /api/auth/me *)

Definition serve (ep : Endpoint) (req : Request) : M Response :=
  match ep with
  | GetRoot => root
  | PostRegister => postRegister req
  | PostLogin => postLogin req
  | GetMe => getMeRoute req
  end.

(** What happens to a running service: a request arrives, time passes,
    the database goes away or comes back. *)
Inductive Happening : Type :=
| Arrives (ep : Endpoint) (req : Request)
| TimeIs (now : Date)
| DatabaseIs (up : bool).

Definition happen (w : World) (h : Happening) : World :=
  match h with
  | Arrives ep req => snd (serve ep req w)
  | TimeIs now =>
      mkWorld (env w) (users w) (dbUp w) now (nextId w) (entropy w) (log w)
  | DatabaseIs up =>
      mkWorld (env w) (users w) up (clock w) (nextId w) (entropy w) (log w)
  end.

Definition history (hs : list Happening) (w : World) : World :=
  fold_left happen hs w.

(** What the store keeps true: no two users share an email or an id,
    ids are below the next id, every stored email is in the form the
    schema's setters give, every user has a digest. *)
Definition storeInvariant (w : World) : Prop :=
  NoDup (map User.email (users w))
  /\ NoDup (map User._id (users w))
  /\ (forall u, In u (users w) ->
        (User._id u < nextId w)%nat
        /\ emailSetters (User.email u) = User.email u
        /\ User.password u <> None).

End RouteVocabulary.

(** Running the monad: unfold its operations and the store's, keep the
    packages and the schema folded. *)
Create HintDb js.
#[local] Hint Unfold bind ret throw tryCatch get tell call respond answer next
  findOne findById genSalt hash comparePassword generateToken
  validationResult : js.

Ltac run :=
  autounfold with js;
  cbn [emit setUsers bumpId bumpEntropy
       env users dbUp clock nextId entropy log
       negb isEmpty option_map fst snd].

Ltac run_in H :=
  autounfold with js in H;
  cbn [emit setUsers bumpId bumpEntropy
       env users dbUp clock nextId entropy log
       negb isEmpty option_map fst snd] in H.

(* ================================================================== *)
(** ** Facts about strings and bodies *)

Module StringFacts.
Import JsString.




(** A string without the separator is its own single part. *)
Lemma split_without_sep (sep : ascii) (s : string) :
  contains sep s = false -> split sep s = [s].
Proof.
  unfold contains. induction s as [|c s' IH]; [reflexivity|].
  cbn [list_ascii_of_string existsb split]. intros H.
  apply orb_false_iff in H. destruct H as [Hc Hs].
  rewrite Ascii.eqb_sym, Hc. rewrite (IH Hs). reflexivity.
Qed.



Lemma rtrim_head (c : ascii) (s : string) :
  isSpace c = false -> exists r, rtrim (String c s) = String c r
                                 /\ r = rtrim s.
Proof.
  intros Hc. cbn [rtrim]. destruct (rtrim s) as [|c' r'].
  - rewrite Hc. exists "". split; reflexivity.
  - eexists. split; reflexivity.
Qed.





Lemma truthy_neq (s : string) : s <> "" -> truthy s = true.
Proof. destruct s; [congruence|reflexivity]. Qed.

End StringFacts.

Module FieldsFacts.
Import Fields.

Lemma get_remove_same (k : string) (b : Body) : get k (remove k b) = None.
Proof.
  induction b as [|[k' v] b IH]; [reflexivity|].
  simpl. destruct (String.eqb k k') eqn:E; [exact IH|].
  simpl. rewrite E. exact IH.
Qed.

Lemma get_remove_other (k k0 : string) (b : Body) :
  String.eqb k k0 = false -> get k (remove k0 b) = get k b.
Proof.
  intros Hk. induction b as [|[k' v] b IH]; [reflexivity|].
  simpl. destruct (String.eqb k0 k') eqn:E0.
  - apply String.eqb_eq in E0. subst k'. rewrite Hk. exact IH.
  - simpl. rewrite IH. reflexivity.
Qed.

Lemma get_set_same (k : string) (v : JSON) (b : Body) : get k (set k v b) = Some v.
Proof. unfold set. simpl. rewrite String.eqb_refl. reflexivity. Qed.

Lemma get_set_other (k k0 : string) (v : JSON) (b : Body) :
  String.eqb k k0 = false -> get k (set k0 v b) = get k b.
Proof.
  intros Hk. unfold set. simpl. rewrite Hk.
  apply get_remove_other. exact Hk.
Qed.

End FieldsFacts.


(* ================================================================== *)
(** ** Facts about the operations of the store *)

Section StoreOperations.

Context {L : Libs}.

Lemma find_none_existsb {A} (f : A -> bool) (l : list A) :
  find f l = None -> existsb f l = false.
Proof.
  induction l as [|x l IH]; [reflexivity|]. cbn [find existsb].
  destruct (f x); [discriminate | exact IH].
Qed.

(** [findOne] with an email that is a string. *)
Lemma findOne_string (e : string) (selectPassword : bool) (w : World) :
  findOne (Some (JStr e)) selectPassword w =
    (if dbUp w
     then Ret (option_map (project selectPassword) (byEmail e w))
     else Throw dbError,
     emit (EvFindOne (Some (JStr e))) w).
Proof.
  unfold findOne, byEmail. run. destruct (dbUp w); reflexivity.
Qed.

(** [findOne] makes one call, and a document it returns is a stored
    one, projected. *)
Lemma findOne_cases (email : option JSON) (selectPassword : bool)
      (w : World) :
  exists o,
    findOne email selectPassword w = (o, emit (EvFindOne email) w)
    /\ forall u, o = Ret (Some u) ->
         dbUp w = true
         /\ exists v, In v (users w) /\ u = project selectPassword v.
Proof.
  assert (Hfind : forall f u,
            Ret (option_map (project selectPassword) (find f (users w)))
            = Ret (Some u) ->
            exists v, In v (users w) /\ u = project selectPassword v).
  { intros f u H.
    destruct (find f (users w)) as [v|] eqn:Hf; [|discriminate].
    injection H as <-. exists v. split; [|reflexivity].
    exact (proj1 (find_some _ _ Hf)). }
  unfold findOne. run.
  destruct email as [[|b|n|e|l|fs]|];
    try destruct (castFilter _) as [es|];
    try destruct (dbUp w);
    eexists; (split; [reflexivity|]); intros u H;
    solve [discriminate H
          | split; [reflexivity | exact (Hfind _ u H)]].
Qed.

(** A document the schema accepts has a password that casts. *)
Lemma schemaErrors_password (c : CreateInput) :
  schemaErrors c = [] ->
  exists p, castStr "password" (ciPassword c) = Casted p.
Proof.
  unfold schemaErrors. intros H.
  apply app_eq_nil in H. destruct H as [_ H].
  apply app_eq_nil in H. destruct H as [_ H].
  apply app_eq_nil in H. destruct H as [H _].
  unfold required in H.
  destruct (castStr "password" (ciPassword c)) as [|p|m];
    [discriminate | exists p; reflexivity | discriminate].
Qed.

(** [User.create] unfolded into the decisions it takes. *)
Lemma create_table (c : CreateInput) (w : World) :
  create c w =
    match schemaErrors c with
    | (_ :: _) as msgs => (Throw (validationError msgs), bumpId w)
    | [] =>
        let p := stored "password" (ciPassword c) in
        let u := newUser w c (digestOf w p) in
        let w' := hashedAndInserted w p (User.email u) in
        if dbUp w then
          if existsb (fun v => String.eqb (User.email v) (User.email u))
                     (users w)
          then (Throw duplicateKey, w')
          else (Ret u, setUsers (users w ++ [u]) w')
        else (Throw dbError, w')
    end.
Proof.
  unfold create. run.
  destruct (schemaErrors c) as [|m ms] eqn:Hs; [|reflexivity].
  destruct (schemaErrors_password c Hs) as (p & Hp).
  unfold preSave, construct, insertOne, isModified, stored.
  cbn [modifiedPaths this User.password existsb String.eqb Ascii.eqb
       Bool.eqb orb negb].
  rewrite Hp. run.
  cbn [this User.withPassword User.email User._id casted]. cbv zeta.
  unfold newUser, hashedAndInserted, digestOf, construct.
  cbn [this User.withPassword User.email User._id].
  destruct (dbUp w); [|reflexivity].
  destruct (existsb _ (users w)); reflexivity.
Qed.

(** [User.create] leaves the configuration as it was, and returns the
    document it has appended to the collection. *)
Lemma create_cases (c : CreateInput) (w : World) :
  exists o w',
    create c w = (o, w')
    /\ env w' = env w /\ clock w' = clock w /\ dbUp w' = dbUp w
    /\ match o with
       | Ret u => users w' = (users w ++ [u])%list
       | Throw _ => users w' = users w
       end.
Proof.
  rewrite create_table.
  destruct (schemaErrors c);
    [|do 2 eexists; split; [reflexivity|];
      repeat apply conj; reflexivity].
  cbv zeta. destruct (dbUp w) eqn:Hdb;
    [destruct (existsb _ (users w))|];
    do 2 eexists; (split; [reflexivity|]);
    repeat apply conj; try reflexivity; exact Hdb.
Qed.

End StoreOperations.
(* ================================================================== *)
(** ** Properties of the middlewares *)

Section MiddlewareProperties.

Context {L : Libs}.

Lemma bearerToken_absent : bearerToken None = None.
Proof. reflexivity. Qed.




(** The token of a header [Bearer <token>]. *)
Lemma bearerToken_bearer (t : string) :
  JsString.contains " " t = false ->
  bearerToken (Some ("Bearer " ++ t)) = Some t.
Proof.
  intros H. unfold bearerToken.
  cbn [append JsString.truthy JsString.startsWith Ascii.eqb Bool.eqb andb
       JsString.split].
  rewrite (StringFacts.split_without_sep " " t H). reflexivity.
Qed.

(** With no usable token [protect] answers at once, and the world is
    as it was. *)
Lemma protect_no_token (req : Request) (w : World) :
  JsString.truthyOpt (bearerToken (authorization req)) = false ->
  protect req w =
    (Ret (Responded (unauthorized "Not authorized, no token provided")), w).
Proof.
  intros H. unfold protect, tryCatch. rewrite H. reflexivity.
Qed.

(** [protect] on a request that carries a token, unfolded into the
    decisions it takes. *)
Lemma protect_with_token (req : Request) (w : World) (t : string) :
  bearerToken (authorization req) = Some t ->
  JsString.truthy t = true ->
  protect req w =
    let w1 := emit (EvJwtVerify t) w in
    match jwt_verify t (JWT_SECRET (env w)) (clock w) with
    | JwtThrow e => (Ret (Responded (caught e)), w1)
    | JwtOk id =>
        let w2 := emit (EvFindById id) w1 in
        if dbUp w then
          match byId id w with
          | None => (Ret (Responded (unauthorized "User not found")), w2)
          | Some u =>
              if User.isActive u
              then (Ret (Proceed (setUser (project false u) req)),
                    emit EvNext w2)
              else (Ret (Responded (unauthorized "Account is deactivated")),
                    w2)
          end
        else (Ret (Responded (caught dbError)), w2)
    end.
Proof.
  intros Ht Htruthy.
  unfold protect, tryCatch. rewrite Ht. cbn [JsString.truthyOpt].
  rewrite Htruthy. cbn [negb].
  unfold bind at 1. unfold verify, bind, tell, get. cbn [emit env clock str
    JsString.orElse]. rewrite Htruthy.
  destruct (jwt_verify t (JWT_SECRET (env w)) (clock w)) as [id|e].
  - unfold ret at 1. unfold findById, bind, tell, get.
    cbn [emit dbUp users]. unfold byId.
    destruct (dbUp w).
    + unfold ret at 1. cbn [users emit].
      destruct (find _ (users w)) as [u|]; cbn [option_map]; [|reflexivity].
      assert (Hp : User.isActive (project false u) = User.isActive u)
        by reflexivity.
      rewrite Hp. destruct (User.isActive u); reflexivity.
    + unfold throw. unfold caught, dbError, newError. reflexivity.
  - unfold throw, caught, answer, ret.
    destruct (String.eqb (errName e) "JsonWebTokenError"); [reflexivity|].
    destruct (String.eqb (errName e) "TokenExpiredError"); reflexivity.
Qed.


(** C6. [protect] takes its steps in order and stops at the first
    failure: no usable bearer token, 401 "no token provided" with no
    call made; verification throws, 401 "Invalid token" or 401 "Token
    expired" by the error's name, any other error 500, after the
    verifier alone was called; the store fails, 500; no user with the
    token's id, 401 "User not found"; user not active, 401 "Account is
    deactivated"; otherwise [next()] is called, and the request it
    passes on is the incoming one with [req.user] set to the stored
    user, digest left out.  The five 401 messages differ from one
    another. *)
Theorem protect_state_machine (req : Request) (w : World) :
  let tok := bearerToken (authorization req) in
  (JsString.truthyOpt tok = false ->
   protect req w =
     (Ret (Responded (unauthorized "Not authorized, no token provided")), w))
  /\ (forall t, tok = Some t -> JsString.truthy t = true ->
      let w1 := emit (EvJwtVerify t) w in
      (forall e, jwt_verify t (JWT_SECRET (env w)) (clock w) = JwtThrow e ->
         (errName e = "JsonWebTokenError" ->
          protect req w =
            (Ret (Responded (unauthorized "Invalid token")), w1))
         /\ (errName e = "TokenExpiredError" ->
             protect req w =
               (Ret (Responded
                       (unauthorized "Token expired, please login again")),
                w1))
         /\ (errName e <> "JsonWebTokenError" ->
             errName e <> "TokenExpiredError" ->
             protect req w =
               (Ret (Responded
                       (serverError "Server error in authentication"
                                    (errMessage e))), w1)))
      /\ (forall id,
            jwt_verify t (JWT_SECRET (env w)) (clock w) = JwtOk id ->
            let w2 := emit (EvFindById id) w1 in
            (dbUp w = false ->
             protect req w =
               (Ret (Responded
                       (serverError "Server error in authentication"
                                    (errMessage dbError))), w2))
            /\ (dbUp w = true -> byId id w = None ->
                protect req w =
                  (Ret (Responded (unauthorized "User not found")), w2))
            /\ (forall u, dbUp w = true -> byId id w = Some u ->
                  User.isActive u = false ->
                  protect req w =
                    (Ret (Responded (unauthorized "Account is deactivated")),
                     w2))
            /\ (forall u, dbUp w = true -> byId id w = Some u ->
                  User.isActive u = true ->
                  exists req',
                    protect req w = (Ret (Proceed req'), emit EvNext w2)
                    /\ user req'
                       = Some (User.mk (User._id u) (User.name u)
                                 (User.email u) None (User.phone u)
                                 (User.dateOfBirth u) (User.address u)
                                 (User.role u) (User.commissionRate u)
                                 (User.assignedCustomers u)
                                 (User.isActive u) (User.createdAt u)
                                 (User.updatedAt u))
                    /\ authorization req' = authorization req
                    /\ body req' = body req
                    /\ validationErrors req' = validationErrors req)))
  /\ NoDup ["Not authorized, no token provided"; "Invalid token";
            "Token expired, please login again"; "User not found";
            "Account is deactivated"].
Proof.
  cbv zeta. split; [exact (protect_no_token req w)|]. split.
  - intros t Ht Htruthy.
    pose proof (protect_with_token req w t Ht Htruthy) as P.
    cbv zeta in P. split.
    + intros e He. rewrite He in P. rewrite P. unfold caught.
      repeat split.
      * intros ->. reflexivity.
      * intros ->. reflexivity.
      * intros N1 N2.
        apply String.eqb_neq in N1. apply String.eqb_neq in N2.
        rewrite N1, N2. reflexivity.
    + intros id Hid. rewrite Hid in P.
      split; [|split; [|split]].
      * intros Hdb. rewrite Hdb in P. exact P.
      * intros Hdb Hnone. rewrite Hdb, Hnone in P. exact P.
      * intros u Hdb Hu Hact. rewrite Hdb, Hu, Hact in P. exact P.
      * intros u Hdb Hu Hact. rewrite Hdb, Hu, Hact in P.
        eexists. split; [exact P|].
        split; [reflexivity|]. split; [reflexivity|].
        split; reflexivity.
  - repeat constructor; simpl; intuition discriminate.
Qed.

(** C3. When the user a token was issued for has [isActive = false],
    a request with the header [Bearer <token>], the token still accepted
    by the verifier, is answered 401 "Account is deactivated"; whatever
    handler is mounted behind [protect] does not run, and nothing but
    the verification and the lookup by id took place: no revocation
    list is read. *)
Theorem deactivated_user_is_blocked
        (handler : Request -> M Response)
        (req : Request) (w : World) (t : string) (u : User.t) :
  authorization req = Some ("Bearer " ++ t) ->
  JsString.contains " " t = false ->
  t <> "" ->
  jwt_verify t (JWT_SECRET (env w)) (clock w) = JwtOk (User._id u) ->
  dbUp w = true ->
  byId (User._id u) w = Some u ->
  User.isActive u = false ->
  let w' := emit (EvFindById (User._id u)) (emit (EvJwtVerify t) w) in
  protect req w =
    (Ret (Responded (unauthorized "Account is deactivated")), w')
  /\ behindProtect handler req w =
       (Ret (unauthorized "Account is deactivated"), w').
Proof.
  intros Hh Hsp Hne Hv Hdb Hu Hact. cbv zeta.
  assert (Ht : bearerToken (authorization req) = Some t).
  { rewrite Hh. exact (bearerToken_bearer t Hsp). }
  assert (P : protect req w =
              (Ret (Responded (unauthorized "Account is deactivated")),
               emit (EvFindById (User._id u)) (emit (EvJwtVerify t) w))).
  { rewrite (protect_with_token req w t Ht (StringFacts.truthy_neq t Hne)).
    cbv zeta. rewrite Hv, Hdb, Hu, Hact. reflexivity. }
  split; [exact P|].
  unfold behindProtect, bind. rewrite P. reflexivity.
Qed.

End MiddlewareProperties.

(** Witnesses of the middleware theorems on the reference instance. *)


Lemma deactivated_user_is_blocked_witness :
  let w := Ref.worldOf [User.withIsActive false Ref.jane] in
  @behindProtect Ref.refLibs getMe (Ref.bearer Ref.janeToken) w
  = (Ret (unauthorized "Account is deactivated"),
     emit (EvFindById 1) (emit (EvJwtVerify Ref.janeToken) w)).
Proof.
  cbv zeta.
  apply (@deactivated_user_is_blocked Ref.refLibs getMe
           (Ref.bearer Ref.janeToken)
           (Ref.worldOf [User.withIsActive false Ref.jane])
           Ref.janeToken (User.withIsActive false Ref.jane));
    first [ reflexivity | discriminate ].
Defined.

Lemma protect_state_machine_witness :
  let w := Ref.worldOf [Ref.jane] in
  let gone := Ref.worldOf [] in
  let off := Ref.worldOf [User.withIsActive false Ref.jane] in
  let late := Ref.at_ (mkDate 2025 1 1) w in
  let seen (t : string) (v : World) := emit (EvJwtVerify t) v in
  let looked (v : World) :=
    emit (EvFindById 1) (emit (EvJwtVerify Ref.janeToken) v) in
  @protect Ref.refLibs (Ref.request None []) w =
    (Ret (Responded (unauthorized "Not authorized, no token provided")), w)
  /\ @protect Ref.refLibs (Ref.bearer "garbage") w =
       (Ret (Responded (unauthorized "Invalid token")), seen "garbage" w)
  /\ @protect Ref.refLibs (Ref.bearer Ref.janeToken) late =
       (Ret (Responded (unauthorized "Token expired, please login again")),
        seen Ref.janeToken late)
  /\ @protect Ref.refLibs (Ref.bearer Ref.janeToken) (Ref.offline w) =
       (Ret (Responded (serverError "Server error in authentication"
                                    "database unreachable")),
        looked (Ref.offline w))
  /\ @protect Ref.refLibs (Ref.bearer Ref.janeToken) gone =
       (Ret (Responded (unauthorized "User not found")), looked gone)
  /\ @protect Ref.refLibs (Ref.bearer Ref.janeToken) off =
       (Ret (Responded (unauthorized "Account is deactivated")), looked off)
  /\ (exists req',
        @protect Ref.refLibs (Ref.bearer Ref.janeToken) w =
          (Ret (Proceed req'), emit EvNext (looked w))
        /\ user req'
           = Some (User.mk 1 "Jane Doe" "jane@ex.com" None "9876543210"
                     (mkDate 1990 1 1) (Address.mk "1 Rd" "C" "S" "123456")
                     "customer" 0 [] true (mkDate 2024 3 1)
                     (mkDate 2024 3 1))
        /\ authorization req' = Some ("Bearer " ++ Ref.janeToken)
        /\ body req' = []).
Proof.
  cbv zeta. repeat apply conj.
  - apply (@protect_state_machine Ref.refLibs). reflexivity.
  - destruct (@protect_state_machine Ref.refLibs (Ref.bearer "garbage")
                (Ref.worldOf [Ref.jane])) as (_ & H & _).
    destruct (H "garbage" eq_refl eq_refl) as (Hthrow & _).
    apply (Hthrow (newError "JsonWebTokenError" "jwt malformed") eq_refl).
    reflexivity.
  - destruct (@protect_state_machine Ref.refLibs (Ref.bearer Ref.janeToken)
                (Ref.at_ (mkDate 2025 1 1) (Ref.worldOf [Ref.jane])))
      as (_ & H & _).
    destruct (H Ref.janeToken eq_refl eq_refl) as (Hthrow & _).
    apply (Hthrow (newError "TokenExpiredError" "jwt expired") eq_refl).
    reflexivity.
  - destruct (@protect_state_machine Ref.refLibs (Ref.bearer Ref.janeToken)
                (Ref.offline (Ref.worldOf [Ref.jane]))) as (_ & H & _).
    destruct (H Ref.janeToken eq_refl eq_refl) as (_ & Hok).
    apply (Hok 1 eq_refl). reflexivity.
  - destruct (@protect_state_machine Ref.refLibs (Ref.bearer Ref.janeToken)
                (Ref.worldOf [])) as (_ & H & _).
    destruct (H Ref.janeToken eq_refl eq_refl) as (_ & Hok).
    apply (Hok 1 eq_refl); reflexivity.
  - destruct (@protect_state_machine Ref.refLibs (Ref.bearer Ref.janeToken)
                (Ref.worldOf [User.withIsActive false Ref.jane]))
      as (_ & H & _).
    destruct (H Ref.janeToken eq_refl eq_refl) as (_ & Hok).
    apply (Hok 1 eq_refl) with (u := User.withIsActive false Ref.jane);
      reflexivity.
  - destruct (@protect_state_machine Ref.refLibs (Ref.bearer Ref.janeToken)
                (Ref.worldOf [Ref.jane])) as (_ & H & _).
    destruct (H Ref.janeToken eq_refl eq_refl) as (_ & Hok).
    destruct (Hok 1 eq_refl) as (_ & _ & _ & Hgo).
    destruct (Hgo Ref.jane eq_refl eq_refl eq_refl)
      as (req' & Hp & Hu & Ha & Hb & _).
    exists req'. split; [exact Hp|]. split; [exact Hu|].
    split; [exact Ha | exact Hb].
Defined.

(* ================================================================== *)
(** ** Properties of the controllers *)

Section ControllerProperties.

Context {L : Libs}.

(** [loginUser] on a request that passed validation and whose email is
    a string, unfolded into the decisions it takes.  The password is
    any value. *)
Lemma loginUser_validated (req : Request) (w : World) (e : string)
      (pw : option JSON) :
  validationErrors req = [] ->
  Fields.get "email" (body req) = Some (JStr e) ->
  Fields.get "password" (body req) = pw ->
  loginUser req w =
    let w1 := emit (EvFindOne (Some (JStr e))) w in
    if dbUp w then
      match byEmail e w with
      | None => (Ret invalidCredentials, w1)
      | Some u =>
          if User.isActive u then
            let w2 := emit (EvCompare pw) w1 in
            match pw, User.password u with
            | Some (JStr p), Some digest =>
                if bcrypt_compare p digest then signedIn u w2
                else (Ret invalidCredentials, w2)
            | _, _ =>
                (Ret (serverError "Server error during login"
                        (errMessage
                           (illegalArguments
                              (Json.typeOf pw)
                              (Json.typeOf
                                 (option_map JStr (User.password u)))))),
                 w2)
            end
          else (Ret deactivated, w1)
      end
    else (Ret (serverError "Server error during login"
                           (errMessage dbError)), w1).
Proof.
  intros Hv He Hp.
  unfold loginUser, validationResult. rewrite Hv, He, Hp.
  run. unfold byEmail.
  destruct (dbUp w); [|reflexivity].
  destruct (find _ (users w)) as [u|]; [|reflexivity].
  run. unfold project.
  destruct (User.isActive u); [|reflexivity]. run.
  unfold signedIn.
  destruct pw as [[| | |p| |]|]; try reflexivity.
  destruct (User.password u) as [digest|]; [|reflexivity].
  destruct (bcrypt_compare p digest); [|reflexivity].
  cbn [negb env clock emit].
  destruct (jwt_sign (User._id u) (JWT_SECRET (env w)) (JWT_EXPIRE (env w))
                     (clock w)); reflexivity.
Qed.

(** The login chains accept a request whose email is a string that is
    an email once trimmed and whose password [notEmpty] does not
    reject, whatever the type of the password. *)
Lemma validate_login_any (req : Request) (w : World) (e : string) :
  validationErrors req = [] ->
  Fields.get "email" (body req) = Some (JStr e) ->
  JsString.truthy (JsString.trim e) = true ->
  isEmail (JsString.trim e) = true ->
  rejected notEmpty (Fields.get "password" (body req)) = [] ->
  validate loginValidation req w = (Ret (sanitizedLogin req e), w).
Proof.
  intros Hv He Te Ie Hp.
  unfold validate, loginValidation. run.
  cbn [runChains]. unfold runChain.
  cbn [chPath chOptional chSteps hasSanitizer existsb orb].
  rewrite He. cbn [runSteps sanitize rejected].
  change (notEmpty (JsString.trim e))
    with (JsString.truthy (JsString.trim e)).
  rewrite Te, Ie. cbn [map app writeBack].
  rewrite FieldsFacts.get_set_other by reflexivity.
  destruct (Fields.get "password" (body req)) as [pw|];
    cbn [rejected] in Hp; rewrite Hp, Hv; reflexivity.
Qed.

Lemma validate_login (req : Request) (w : World) (e p : string) :
  validLogin req e p ->
  validate loginValidation req w = (Ret (sanitizedLogin req e), w).
Proof.
  intros (Hv & He & Hp & Te & Ie & Tp).
  apply validate_login_any; try assumption.
  rewrite Hp. cbn [rejected]. unfold notEmpty. rewrite Tp. reflexivity.
Qed.

(** The login route on a request that meets its preconditions. *)
Lemma postLogin_valid (req : Request) (w : World) (e p : string) :
  validLogin req e p ->
  postLogin req w =
    let e' := JsString.trim e in
    let w1 := emit (EvFindOne (Some (JStr e'))) w in
    if dbUp w then
      match byEmail e' w with
      | None => (Ret invalidCredentials, w1)
      | Some u =>
          if User.isActive u then
            let w2 := emit (EvCompare (Some (JStr p))) w1 in
            match User.password u with
            | None =>
                (Ret (serverError "Server error during login"
                        (errMessage
                           (illegalArguments "string" "undefined"))), w2)
            | Some digest =>
                if bcrypt_compare p digest then signedIn u w2
                else (Ret invalidCredentials, w2)
            end
          else (Ret deactivated, w1)
      end
    else (Ret (serverError "Server error during login"
                           (errMessage dbError)), w1).
Proof.
  intros H. pose proof H as (Hv & He & Hp & Te & Ie & Tp).
  unfold postLogin. unfold bind at 1.
  rewrite (validate_login req w e p H).
  rewrite (loginUser_validated (sanitizedLogin req e) w (JsString.trim e)
             (Some (JStr p))).
  - cbv zeta. destruct (dbUp w); [|reflexivity].
    destruct (byEmail _ w) as [u|]; [|reflexivity].
    destruct (User.isActive u); [|reflexivity].
    destruct (User.password u); reflexivity.
  - reflexivity.
  - unfold sanitizedLogin. cbn [body]. apply FieldsFacts.get_set_same.
  - unfold sanitizedLogin. cbn [body].
    rewrite FieldsFacts.get_set_other by reflexivity. exact Hp.
Qed.

(** For passwords that are strings, a login for an email no user has
    and a login for an active user with a wrong password get the same
    response, 401 "Invalid email or password". *)
Lemma login_failures_same_for_strings
      (req1 req2 : Request) (w1 w2 : World)
      (e1 p1 e2 p2 : string) (u : User.t) (digest : string) :
  validLogin req1 e1 p1 -> dbUp w1 = true ->
  byEmail (JsString.trim e1) w1 = None ->
  validLogin req2 e2 p2 -> dbUp w2 = true ->
  byEmail (JsString.trim e2) w2 = Some u ->
  User.isActive u = true ->
  User.password u = Some digest ->
  bcrypt_compare p2 digest = false ->
  fst (postLogin req1 w1) = Ret (unauthorized "Invalid email or password")
  /\ fst (postLogin req2 w2) = fst (postLogin req1 w1).
Proof.
  intros V1 D1 N1 V2 D2 F2 A2 P2 C2.
  rewrite (postLogin_valid req1 w1 e1 p1 V1).
  rewrite (postLogin_valid req2 w2 e2 p2 V2). cbv zeta.
  rewrite D1, N1, D2, F2, A2, P2, C2. split; reflexivity.
Qed.

(** A password that is not a string but passes [notEmpty], such as a
    number, reaches [bcrypt.compare] when the account exists and is
    active, and makes it throw: the answer is 500 with the types of
    the arguments.  When no account has the email the answer is the
    generic 401: the two cases are told apart. *)
Lemma login_password_not_a_string
      (req : Request) (w : World) (e : string) (j : JSON) :
  validationErrors req = [] ->
  Fields.get "email" (body req) = Some (JStr e) ->
  JsString.truthy (JsString.trim e) = true ->
  isEmail (JsString.trim e) = true ->
  Fields.get "password" (body req) = Some j ->
  (forall s, j <> JStr s) ->
  validateOther notEmpty j = [] ->
  dbUp w = true ->
  (byEmail (JsString.trim e) w = None ->
   fst (postLogin req w) = Ret invalidCredentials)
  /\ (forall u, byEmail (JsString.trim e) w = Some u ->
        User.isActive u = true ->
        postLogin req w =
          (Ret (serverError "Server error during login"
                  ("Illegal arguments: " ++ Json.typeOf (Some j) ++ ", "
                   ++ Json.typeOf (option_map JStr (User.password u)))),
           emit (EvCompare (Some j))
             (emit (EvFindOne (Some (JStr (JsString.trim e)))) w))).
Proof.
  intros Hv He Te Ie Hp Hj Hok Hdb.
  assert (Hrej : rejected notEmpty (Fields.get "password" (body req)) = []).
  { rewrite Hp. destruct j; cbn [rejected]; try (rewrite Hok; reflexivity).
    exfalso. exact (Hj s eq_refl). }
  assert (Hrun : postLogin req w
                 = loginUser (sanitizedLogin req e) w).
  { unfold postLogin. unfold bind at 1.
    rewrite (validate_login_any req w e Hv He Te Ie Hrej). reflexivity. }
  rewrite Hrun.
  rewrite (loginUser_validated (sanitizedLogin req e) w (JsString.trim e)
             (Some j)).
  - cbv zeta. rewrite Hdb. split.
    + intros ->. reflexivity.
    + intros u -> ->.
      destruct j; try reflexivity. exfalso. exact (Hj s eq_refl).
  - reflexivity.
  - unfold sanitizedLogin. cbn [body]. apply FieldsFacts.get_set_same.
  - unfold sanitizedLogin. cbn [body].
    rewrite FieldsFacts.get_set_other by reflexivity. exact Hp.
Qed.

(** C9. A login with the email of a stored user whose [isActive] is
    false is answered 401 "Account is deactivated. Please contact
    support."; only the lookup by email took place (the hasher was not
    called), so two such logins with different passwords get the same
    response, and that response is not the generic one. *)
Theorem deactivated_login_ignores_password
        (req1 req2 : Request) (w : World) (e p1 p2 : string) (u : User.t) :
  validLogin req1 e p1 ->
  validLogin req2 e p2 ->
  dbUp w = true ->
  byEmail (JsString.trim e) w = Some u ->
  User.isActive u = false ->
  let answered :=
    (Ret (unauthorized "Account is deactivated. Please contact support."),
     emit (EvFindOne (Some (JStr (JsString.trim e)))) w) in
  postLogin req1 w = answered
  /\ postLogin req2 w = answered
  /\ unauthorized "Account is deactivated. Please contact support."
     <> unauthorized "Invalid email or password".
Proof.
  intros V1 V2 D F A. cbv zeta.
  rewrite (postLogin_valid req1 w e p1 V1).
  rewrite (postLogin_valid req2 w e p2 V2). cbv zeta.
  rewrite D, F, A. repeat apply conj; try reflexivity. discriminate.
Qed.

End ControllerProperties.

(** The login theorems on the reference instance. *)

(** C4 fails on the code.  The body [{email, password: 12345678}]
    passes the login chains, which do not ask for a string.  For the
    email of the stored, active user the comparison throws and the
    answer is 500 "Server error during login" with the detail "Illegal
    arguments: number, string"; for an email no user has the answer is
    401 "Invalid email or password".  The caller learns which emails
    have an account. *)
Theorem login_failures_distinguishable :
  let login (email : string) :=
    Ref.request None [("email", JStr email); ("password", JNum 12345678)] in
  let w := Ref.worldOf [Ref.jane] in
  @postLogin Ref.refLibs (login "nobody@ex.com") w
  = (Ret (unauthorized "Invalid email or password"),
     emit (EvFindOne (Some (JStr "nobody@ex.com"))) w)
  /\ @postLogin Ref.refLibs (login "jane@ex.com") w
     = (Ret (serverError "Server error during login"
                         "Illegal arguments: number, string"),
        emit (EvCompare (Some (JNum 12345678)))
          (emit (EvFindOne (Some (JStr "jane@ex.com"))) w))
  /\ byEmail "jane@ex.com" w = Some Ref.jane
  /\ User.isActive Ref.jane = true
  /\ byEmail "nobody@ex.com" w = None
  /\ fst (@postLogin Ref.refLibs (login "jane@ex.com") w)
     <> fst (@postLogin Ref.refLibs (login "nobody@ex.com") w).
Proof.
  cbv zeta.
  assert (Hnobody :
            @postLogin Ref.refLibs
              (Ref.request None [("email", JStr "nobody@ex.com");
                                 ("password", JNum 12345678)])
              (Ref.worldOf [Ref.jane])
            = (Ret (unauthorized "Invalid email or password"),
               emit (EvFindOne (Some (JStr "nobody@ex.com")))
                    (Ref.worldOf [Ref.jane])))
    by (vm_compute; reflexivity).
  assert (Hjane :
            @postLogin Ref.refLibs
              (Ref.request None [("email", JStr "jane@ex.com");
                                 ("password", JNum 12345678)])
              (Ref.worldOf [Ref.jane])
            = (Ret (serverError "Server error during login"
                                "Illegal arguments: number, string"),
               emit (EvCompare (Some (JNum 12345678)))
                 (emit (EvFindOne (Some (JStr "jane@ex.com")))
                       (Ref.worldOf [Ref.jane])))).
  { destruct (@login_password_not_a_string Ref.refLibs
                (Ref.request None [("email", JStr "jane@ex.com");
                                   ("password", JNum 12345678)])
                (Ref.worldOf [Ref.jane]) "jane@ex.com" (JNum 12345678)
                eq_refl eq_refl eq_refl eq_refl eq_refl
                ltac:(intros s E; discriminate E) eq_refl eq_refl)
      as (_ & H).
    exact (H Ref.jane eq_refl eq_refl). }
  split; [exact Hnobody|]. split; [exact Hjane|].
  split; [reflexivity|]. split; [reflexivity|]. split; [reflexivity|].
  rewrite Hnobody, Hjane. discriminate.
Qed.

Lemma deactivated_login_ignores_password_witness :
  let w := Ref.worldOf [User.withIsActive false Ref.jane] in
  let answered :=
    (Ret (unauthorized "Account is deactivated. Please contact support."),
     emit (EvFindOne (Some (JStr "jane@ex.com"))) w) in
  @postLogin Ref.refLibs
    (Ref.request None (Ref.credentials "jane@ex.com" "Abcdef1")) w = answered
  /\ @postLogin Ref.refLibs
       (Ref.request None (Ref.credentials "jane@ex.com" "Wrong99")) w
     = answered.
Proof.
  cbv zeta.
  assert (V1 : @validLogin Ref.refLibs
                 (Ref.request None (Ref.credentials "jane@ex.com" "Abcdef1"))
                 "jane@ex.com" "Abcdef1")
    by (repeat apply conj; reflexivity).
  assert (V2 : @validLogin Ref.refLibs
                 (Ref.request None (Ref.credentials "jane@ex.com" "Wrong99"))
                 "jane@ex.com" "Wrong99")
    by (repeat apply conj; reflexivity).
  destruct (@deactivated_login_ignores_password Ref.refLibs _ _
              (Ref.worldOf [User.withIsActive false Ref.jane])
              "jane@ex.com" "Abcdef1" "Wrong99"
              (User.withIsActive false Ref.jane)
              V1 V2 eq_refl eq_refl eq_refl) as (H1 & H2 & _).
  split; [exact H1 | exact H2].
Defined.

Section Shapes.
Context {L : Libs}.

(** [generateToken] makes one call and leaves the store as it is. *)
Lemma generateToken_run (id : ObjectId) (w : World) :
  generateToken id w =
    (jwt_sign id (JWT_SECRET (env w)) (JWT_EXPIRE (env w)) (clock w),
     emit (EvJwtSign id) w).
Proof.
  unfold generateToken. run.
  destruct (jwt_sign id (JWT_SECRET (env w)) (JWT_EXPIRE (env w)) (clock w));
    reflexivity.
Qed.

(** Every response [registerUser] can send.  A success response
    carries the token signed for the user that has just been stored. *)
Lemma registerUser_responses (req : Request) (w : World) :
  exists resp w', registerUser req w = (Ret resp, w')
    /\ ((validationErrors req <> []
         /\ resp = validationFailed (validationErrors req))
        \/ (validationErrors req = []
            /\ (resp = conflict
                \/ (exists token u,
                      resp = registerSuccess token u
                      /\ In u (users w')
                      /\ jwt_sign (User._id u) (JWT_SECRET (env w))
                                  (JWT_EXPIRE (env w)) (clock w)
                         = Ret token)
                \/ (exists detail,
                      resp = serverError "Server error during registration"
                                         detail)))).
Proof.
  unfold registerUser, validationResult.
  destruct (validationErrors req) as [|fe fes] eqn:Hv; cbn [isEmpty negb].
  2:{ do 2 eexists. split; [reflexivity|]. left.
      split; [discriminate | reflexivity]. }
  destruct (findOne_cases (Fields.get "email" (body req)) false w)
    as (o & Ho & _).
  unfold tryCatch, bind. rewrite Ho.
  destruct o as [[x|]|err].
  - do 2 eexists. split; [reflexivity|]. right. split; [reflexivity|].
    left. reflexivity.
  - match goal with
    | |- context [create ?c ?w1] =>
        destruct (create_cases c w1) as (o2 & w2 & Hc & He & Hk & _ & Hu);
        rewrite Hc
    end.
    destruct o2 as [u|err].
    + rewrite generateToken_run.
      cbn [emit env clock] in He, Hk. rewrite He, Hk.
      destruct (jwt_sign (User._id u) (JWT_SECRET (env w))
                         (JWT_EXPIRE (env w)) (clock w)) as [token|err]
        eqn:Hsign.
      * do 2 eexists. split; [reflexivity|]. right.
        split; [reflexivity|]. right. left. exists token, u.
        split; [reflexivity|]. split; [|exact Hsign].
        cbn [users emit]. rewrite Hu. apply in_or_app. right. left.
        reflexivity.
      * do 2 eexists. split; [reflexivity|]. right.
        split; [reflexivity|]. right. right. eexists. reflexivity.
    + do 2 eexists. split; [reflexivity|]. right.
      split; [reflexivity|]. right. right. eexists. reflexivity.
  - do 2 eexists. split; [reflexivity|]. right. split; [reflexivity|].
    right. right. eexists. reflexivity.
Qed.

(** Every response [loginUser] can send.  A success response carries
    a stored user and the token signed for it. *)
Lemma loginUser_responses (req : Request) (w : World) :
  exists resp w', loginUser req w = (Ret resp, w')
    /\ ((validationErrors req <> []
         /\ resp = validationFailed (validationErrors req))
        \/ (validationErrors req = []
            /\ (resp = invalidCredentials
                \/ resp = deactivated
                \/ (exists token u,
                      resp = loginSuccess token u
                      /\ In u (users w)
                      /\ jwt_sign (User._id u) (JWT_SECRET (env w))
                                  (JWT_EXPIRE (env w)) (clock w)
                         = Ret token)
                \/ (exists detail,
                      resp = serverError "Server error during login"
                                         detail)))).
Proof.
  unfold loginUser, validationResult.
  destruct (validationErrors req) as [|fe fes] eqn:Hv; cbn [isEmpty negb].
  2:{ do 2 eexists. split; [reflexivity|]. left.
      split; [discriminate | reflexivity]. }
  destruct (findOne_cases (Fields.get "email" (body req)) true w)
    as (o & Ho & Hin).
  unfold tryCatch, bind. rewrite Ho.
  destruct o as [[x|]|err].
  - destruct (Hin x eq_refl) as (_ & v & Hv' & ->). unfold project.
    destruct (User.isActive v); cbn [negb].
    + unfold comparePassword, bind, tell, ret, throw.
      destruct (Fields.get "password" (body req)) as [[| | |p| |]|],
        (User.password v) as [digest|];
        try (do 2 eexists; (split; [reflexivity|]); right;
             (split; [reflexivity|]); right; right; right;
             eexists; reflexivity).
      destruct (bcrypt_compare p digest); cbn [negb].
      * rewrite generateToken_run. cbn [emit env clock].
        destruct (jwt_sign (User._id v) (JWT_SECRET (env w))
                           (JWT_EXPIRE (env w)) (clock w)) as [token|err]
          eqn:Hsign.
        -- do 2 eexists. split; [reflexivity|]. right.
           split; [reflexivity|]. right. right. left. exists token, v.
           repeat apply conj; solve [reflexivity | assumption].
        -- do 2 eexists. split; [reflexivity|]. right.
           split; [reflexivity|]. right. right. right.
           eexists. reflexivity.
      * do 2 eexists. split; [reflexivity|]. right.
        split; [reflexivity|]. left. reflexivity.
    + do 2 eexists. split; [reflexivity|]. right.
      split; [reflexivity|]. right. left. reflexivity.
  - do 2 eexists. split; [reflexivity|]. right.
    split; [reflexivity|]. left. reflexivity.
  - do 2 eexists. split; [reflexivity|]. right. split; [reflexivity|].
    right. right. right. eexists. reflexivity.
Qed.

(** Every response [getMe] can send.  A success response carries a
    stored user, read without the digest. *)
Lemma getMe_responses (req : Request) (w : World) :
  exists resp w', getMe req w = (Ret resp, w')
    /\ (resp = notFound
        \/ (exists u, resp = profileSuccess u /\ In u (users w))
        \/ (exists detail, resp = serverError "Server error" detail)).
Proof.
  unfold getMe. run.
  destruct (user req) as [me|].
  - destruct (dbUp w).
    + destruct (find _ (users w)) as [u|] eqn:Hf; cbn [option_map].
      * do 2 eexists. split; [reflexivity|]. right. left.
        exists u. split; [reflexivity|].
        exact (proj1 (find_some _ _ Hf)).
      * do 2 eexists. split; [reflexivity|]. left. reflexivity.
    + do 2 eexists. split; [reflexivity|]. right. right.
      eexists. reflexivity.
  - do 2 eexists. split; [reflexivity|]. right. right. eexists. reflexivity.
Qed.

(** Every response [protect] can send. *)
Lemma protect_responses (req : Request) (w : World) :
  exists r w', protect req w = (Ret r, w')
    /\ ((exists req', r = Proceed req')
        \/ (exists msg, r = Responded (unauthorized msg))
        \/ (exists detail,
              r = Responded (serverError "Server error in authentication"
                                         detail))).
Proof.
  destruct (JsString.truthyOpt (bearerToken (authorization req))) eqn:Ht.
  - destruct (bearerToken (authorization req)) as [t|] eqn:Hb;
      [|discriminate].
    cbn [JsString.truthyOpt] in Ht.
    rewrite (protect_with_token req w t Hb Ht). cbv zeta.
    destruct (jwt_verify t _ _) as [id|e].
    + destruct (dbUp w).
      * destruct (byId id w) as [u|].
        -- destruct (User.isActive u); do 2 eexists;
             (split; [reflexivity|]).
           ++ left. eexists. reflexivity.
           ++ right. left. eexists. reflexivity.
        -- do 2 eexists. split; [reflexivity|]. right. left.
           eexists. reflexivity.
      * do 2 eexists. split; [reflexivity|]. right. right.
        eexists. reflexivity.
    + unfold caught.
      destruct (String.eqb (errName e) "JsonWebTokenError");
        [|destruct (String.eqb (errName e) "TokenExpiredError")];
        do 2 eexists; (split; [reflexivity|]).
      * right. left. eexists. reflexivity.
      * right. left. eexists. reflexivity.
      * right. right. eexists. reflexivity.
  - rewrite (protect_no_token req w Ht). do 2 eexists.
    split; [reflexivity|]. right. left. eexists. reflexivity.
Qed.

(** [authorize] answers 403 or calls [next()]; it throws when no user
    is attached. *)
Lemma authorize_responses (roles : list string) (req : Request) (w : World) :
  (exists e, authorize roles req w = (Throw e, w))
  \/ (exists req' w', authorize roles req w = (Ret (Proceed req'), w'))
  \/ (exists role, authorize roles req w = (Ret (Responded (forbidden role)), w)).
Proof.
  unfold authorize. destruct (user req) as [u|].
  - destruct (existsb _ roles); cbn [negb]; run.
    + right. left. do 2 eexists. reflexivity.
    + right. right. eexists. reflexivity.
  - left. eexists. reflexivity.
Qed.

(** The error middleware always answers with a message. *)
Lemma errorHandler_response (err : JsError) (w : World) :
  exists code msg rest,
    errorHandler err w =
      (Ret (mkResponse code
              (JObj (("success", JBool false) :: ("message", JStr msg)
                     :: rest))), w).
Proof.
  unfold errorHandler. run. unfold Json.obj. cbn [flat_map fst snd app].
  do 3 eexists. reflexivity.
Qed.

(** The summary and the profile do not read the digest. *)
Lemma summary_ignores_password (p : option string) (u : User.t) :
  summary (User.withPassword p u) = summary u.
Proof. reflexivity. Qed.

Lemma profile_ignores_password (p : option string) (u : User.t) :
  profile (User.withPassword p u) = profile u.
Proof. reflexivity. Qed.

Lemma some_eq {A} (x y : A) : Some x = Some y -> x = y.
Proof. intros H. injection H as H. exact H. Qed.

(** The lookup by id in two collections that differ in the digests
    only finds documents that differ in the digest only. *)
Lemma find_sameButDigests (id : ObjectId) (us vs : list User.t) :
  sameButDigests us vs ->
  option_map withoutDigest (find (fun u => Nat.eqb (User._id u) id) us)
  = option_map withoutDigest (find (fun u => Nat.eqb (User._id u) id) vs).
Proof.
  unfold sameButDigests. revert vs.
  induction us as [|u us IH]; intros [|v vs] H; try discriminate H.
  - reflexivity.
  - cbn [map] in H.
    assert (Hu : withoutDigest u = withoutDigest v)
      by exact (f_equal (hd (withoutDigest u)) H).
    assert (Hus : map withoutDigest us = map withoutDigest vs)
      by exact (f_equal (@tl User.t) H).
    cbn [find].
    assert (Hid : User._id u = User._id v).
    { exact (f_equal User._id Hu). }
    rewrite Hid. destruct (Nat.eqb (User._id v) id).
    + cbn [option_map]. rewrite Hu. reflexivity.
    + apply IH. exact Hus.
Qed.

Lemma profile_withoutDigest (u : User.t) :
  profile (withoutDigest u) = profile u.
Proof. reflexivity. Qed.

(** C7. A success response of [registerUser] or [loginUser] is
    exactly [{success, message, token, user}], where [user] has exactly
    the members id, name, email and role of a stored user and [token]
    is what [jwt.sign] returned for that user's id.  A success
    response of [getMe] is exactly [{success, user}], where [user] has
    exactly the members id, name, email, phone, dateOfBirth, address,
    role, isActive and createdAt of a stored user.  No member holds the
    digest, no key [password] occurs, and what [getMe] answers is the
    same in any collection that differs in the digests only. *)
Theorem success_responses_omit_digest
        (req : Request) (w w' : World) (resp : Response) :
  let public (u : User.t) :=
    JObj [("id", JStr (oidString (User._id u)));
          ("name", JStr (User.name u));
          ("email", JStr (User.email u));
          ("role", JStr (User.role u))] in
  let signed (u : User.t) (token : string) :=
    jwt_sign (User._id u) (JWT_SECRET (env w)) (JWT_EXPIRE (env w)) (clock w)
    = Ret token in
  (registerUser req w = (Ret resp, w') -> isSuccess resp ->
   exists u token,
     In u (users w') /\ signed u token
     /\ resp = mkResponse 201
                 (JObj [("success", JBool true);
                        ("message", JStr "User registered successfully");
                        ("token", JStr token);
                        ("user", public u)]))
  /\ (loginUser req w = (Ret resp, w') -> isSuccess resp ->
      exists u token,
        In u (users w) /\ signed u token
        /\ resp = mkResponse 200
                    (JObj [("success", JBool true);
                           ("message", JStr "Login successful");
                           ("token", JStr token);
                           ("user", public u)]))
  /\ (getMe req w = (Ret resp, w') -> isSuccess resp ->
      exists u,
        In u (users w)
        /\ resp = mkResponse 200
                    (JObj [("success", JBool true);
                           ("user",
                            JObj [("id", JStr (oidString (User._id u)));
                                  ("name", JStr (User.name u));
                                  ("email", JStr (User.email u));
                                  ("phone", JStr (User.phone u));
                                  ("dateOfBirth",
                                   JStr (toISOString (User.dateOfBirth u)));
                                  ("address",
                                   JObj [("street",
                                          JStr (Address.street
                                                  (User.address u)));
                                         ("city",
                                          JStr (Address.city
                                                  (User.address u)));
                                         ("state",
                                          JStr (Address.state
                                                  (User.address u)));
                                         ("zipCode",
                                          JStr (Address.zipCode
                                                  (User.address u)))]);
                                  ("role", JStr (User.role u));
                                  ("isActive", JBool (User.isActive u));
                                  ("createdAt",
                                   JStr (toISOString
                                           (User.createdAt u)))])]))
  /\ ((registerUser req w = (Ret resp, w')
       \/ loginUser req w = (Ret resp, w')
       \/ getMe req w = (Ret resp, w')) ->
      isSuccess resp -> Json.mentions "password" (json resp) = false)
  /\ (forall us,
        sameButDigests us (users w) ->
        fst (getMe req (setUsers us w)) = fst (getMe req w)).
Proof.
  cbv zeta.
  assert (Hreg : registerUser req w = (Ret resp, w') -> isSuccess resp ->
                 exists u token,
                   In u (users w')
                   /\ jwt_sign (User._id u) (JWT_SECRET (env w))
                               (JWT_EXPIRE (env w)) (clock w) = Ret token
                   /\ resp = registerSuccess token u).
  { intros H Hs.
    destruct (registerUser_responses req w) as (r & w1 & E & C).
    rewrite E in H. injection H as -> ->.
    destruct C
      as [[_ ->] | [_ [-> | [(token & u & -> & Hin & Hsign) | (d & ->)]]]];
      try discriminate Hs.
    exists u, token. repeat apply conj; solve [assumption | reflexivity]. }
  assert (Hlog : loginUser req w = (Ret resp, w') -> isSuccess resp ->
                 exists u token,
                   In u (users w)
                   /\ jwt_sign (User._id u) (JWT_SECRET (env w))
                               (JWT_EXPIRE (env w)) (clock w) = Ret token
                   /\ resp = loginSuccess token u).
  { intros H Hs.
    destruct (loginUser_responses req w) as (r & w1 & E & C).
    rewrite E in H. injection H as -> ->.
    destruct C
      as [[_ ->]
         | [_ [-> | [-> | [(token & u & -> & Hin & Hsign) | (d & ->)]]]]];
      try discriminate Hs.
    exists u, token. repeat apply conj; solve [assumption | reflexivity]. }
  assert (Hme : getMe req w = (Ret resp, w') -> isSuccess resp ->
                exists u, In u (users w) /\ resp = profileSuccess u).
  { intros H Hs.
    destruct (getMe_responses req w) as (r & w1 & E & C).
    rewrite E in H. injection H as -> ->.
    destruct C as [-> | [(u & -> & Hin) | (d & ->)]]; try discriminate Hs.
    exists u. split; [exact Hin | reflexivity]. }
  split; [|split; [|split; [|split]]].
  - intros H Hs. destruct (Hreg H Hs) as (u & token & Hin & Hsign & ->).
    exists u, token. repeat apply conj; solve [assumption | reflexivity].
  - intros H Hs. destruct (Hlog H Hs) as (u & token & Hin & Hsign & ->).
    exists u, token. repeat apply conj; solve [assumption | reflexivity].
  - intros H Hs. destruct (Hme H Hs) as (u & Hin & ->).
    exists u. split; [exact Hin | reflexivity].
  - intros [H | [H | H]] Hs.
    + destruct (Hreg H Hs) as (u & token & _ & _ & ->). reflexivity.
    + destruct (Hlog H Hs) as (u & token & _ & _ & ->). reflexivity.
    + destruct (Hme H Hs) as (u & _ & ->). reflexivity.
  - intros us Hus. unfold getMe. run.
    destruct (user req) as [me|]; [|reflexivity].
    change (dbUp (setUsers us w)) with (dbUp w).
    change (users (setUsers us w)) with us.
    destruct (dbUp w); [|reflexivity].
    pose proof (find_sameButDigests (User.id me) us (users w) Hus) as Hf.
    destruct (find _ us) as [a|], (find _ (users w)) as [b|];
      cbn [option_map] in Hf |- *; try discriminate Hf;
      [|reflexivity].
    assert (Hab : withoutDigest a = withoutDigest b)
      by exact (some_eq _ _ Hf).
    cbn [fst]. unfold project.
    change (User.withPassword None a) with (withoutDigest a).
    change (User.withPassword None b) with (withoutDigest b).
    rewrite Hab. reflexivity.
Qed.

(** C8, as the code has it.  Every error response of the service has
    [success: false].  It carries a [message], except the response to
    a failed validation in [registerUser] and [loginUser], which is
    [{success: false, errors}] with a non-empty [errors] array and no
    [message]. *)
Theorem error_envelope (resp : Response) :
  sent resp -> isError resp ->
  Json.field "success" (json resp) = Some (JBool false)
  /\ (Json.hasKey "message" (json resp) = true
      \/ (exists errors, errors <> []
            /\ resp = validationFailed errors
            /\ Json.hasKey "errors" (json resp) = true
            /\ Json.hasKey "message" (json resp) = false)).
Proof.
  intros Hsent Herr. destruct Hsent as
      [w w' resp H | req w w' resp H | req w w' resp H | req w w' resp H
      | req w w' resp H | roles req w w' resp H | err w w' resp H].
  - unfold root in H. run. injection H as <- _.
    destruct Herr as [Hc | Hf]; [cbn in Hc; lia | discriminate Hf].
  - destruct (registerUser_responses req w) as (r & w1 & E & C).
    rewrite E in H. injection H as -> ->.
    destruct C as [[Hne ->] | [_ [-> | [(token & u & -> & _ & _) | (d & ->)]]]].
    + split; [reflexivity|]. right. exists (validationErrors req).
      repeat apply conj; solve [assumption | reflexivity].
    + split; [reflexivity | left; reflexivity].
    + destruct Herr as [Hc | Hf]; [cbn in Hc; lia | discriminate Hf].
    + split; [reflexivity | left; reflexivity].
  - destruct (loginUser_responses req w) as (r & w1 & E & C).
    rewrite E in H. injection H as -> ->.
    destruct C
      as [[Hne ->] | [_ [-> | [-> | [(token & u & -> & _ & _) | (d & ->)]]]]].
    + split; [reflexivity|]. right. exists (validationErrors req).
      repeat apply conj; solve [assumption | reflexivity].
    + split; [reflexivity | left; reflexivity].
    + split; [reflexivity | left; reflexivity].
    + destruct Herr as [Hc | Hf]; [cbn in Hc; lia | discriminate Hf].
    + split; [reflexivity | left; reflexivity].
  - destruct (getMe_responses req w) as (r & w1 & E & C).
    rewrite E in H. injection H as -> ->.
    destruct C as [-> | [(u & -> & _) | (d & ->)]].
    + split; [reflexivity | left; reflexivity].
    + destruct Herr as [Hc | Hf]; [cbn in Hc; lia | discriminate Hf].
    + split; [reflexivity | left; reflexivity].
  - destruct (protect_responses req w) as (r & w1 & E & C).
    rewrite E in H. injection H as -> ->.
    destruct C as [(req' & C) | [(msg & C) | (d & C)]];
      [discriminate C | injection C as -> | injection C as ->];
      (split; [reflexivity | left; reflexivity]).
  - destruct (authorize_responses roles req w)
      as [(e & E) | [(req' & w1 & E) | (role & E)]];
      rewrite E in H; try discriminate H.
    injection H as <- _. split; [reflexivity | left; reflexivity].
  - destruct (errorHandler_response err w) as (code & msg & rest & E).
    rewrite E in H. injection H as <- _.
    split; [reflexivity | left]. unfold Json.hasKey. reflexivity.
Qed.

End Shapes.

(** Witnesses and a counterexample on the reference instance. *)

Lemma success_responses_omit_digest_witness :
  let req := Ref.request None (Ref.credentials "jane@ex.com" "Abcdef1") in
  let w := Ref.worldOf [Ref.jane] in
  exists u token,
    In u (users w)
    /\ @jwt_sign Ref.refLibs (User._id u) (JWT_SECRET (env w))
                 (JWT_EXPIRE (env w)) (clock w) = Ret token
    /\ fst (@loginUser Ref.refLibs req w)
       = Ret (mkResponse 200
                (JObj [("success", JBool true);
                       ("message", JStr "Login successful");
                       ("token", JStr token);
                       ("user",
                        JObj [("id", JStr (oidString (User._id u)));
                              ("name", JStr (User.name u));
                              ("email", JStr (User.email u));
                              ("role", JStr (User.role u))])])).
Proof.
  cbv zeta.
  destruct (@success_responses_omit_digest Ref.refLibs
              (Ref.request None (Ref.credentials "jane@ex.com" "Abcdef1"))
              (Ref.worldOf [Ref.jane])
              (snd (@loginUser Ref.refLibs
                      (Ref.request None
                         (Ref.credentials "jane@ex.com" "Abcdef1"))
                      (Ref.worldOf [Ref.jane])))
              (loginSuccess Ref.janeToken Ref.jane))
    as (_ & Hlogin & _).
  assert (Hrun : @loginUser Ref.refLibs
                   (Ref.request None
                      (Ref.credentials "jane@ex.com" "Abcdef1"))
                   (Ref.worldOf [Ref.jane])
                 = (Ret (loginSuccess Ref.janeToken Ref.jane),
                    snd (@loginUser Ref.refLibs
                           (Ref.request None
                              (Ref.credentials "jane@ex.com" "Abcdef1"))
                           (Ref.worldOf [Ref.jane]))))
    by (vm_compute; reflexivity).
  destruct (Hlogin Hrun eq_refl) as (u & token & Hin & Hsign & Hresp).
  exists u, token. split; [exact Hin|]. split; [exact Hsign|].
  rewrite Hrun. cbn [fst]. rewrite Hresp. reflexivity.
Defined.

(** C8 as stated fails: the login route answers a request with empty
    credentials 400 with [{success: false, errors}], an error response
    of the service without a [message]. *)
Lemma login_validation_failure_lacks_message :
  let resp :=
    validationFailed
      [mkFieldError "email" "Email is required" (Some (JStr ""));
       mkFieldError "email" "Please provide a valid email" (Some (JStr ""));
       mkFieldError "password" "Password is required" (Some (JStr ""))] in
  fst (@postLogin Ref.refLibs (Ref.request None (Ref.credentials "" ""))
                  Ref.world0) = Ret resp
  /\ @sent Ref.refLibs resp
  /\ isError resp
  /\ status resp = 400%Z
  /\ Json.hasKey "message" (json resp) = false.
Proof.
  cbv zeta. repeat apply conj.
  - vm_compute. reflexivity.
  - apply (@sent_login Ref.refLibs
             (mkRequest None (Ref.credentials "" "") None
                [mkFieldError "email" "Email is required" (Some (JStr ""));
                 mkFieldError "email" "Please provide a valid email"
                              (Some (JStr ""));
                 mkFieldError "password" "Password is required"
                              (Some (JStr ""))])
             Ref.world0 Ref.world0).
    reflexivity.
  - left. cbn. lia.
  - reflexivity.
  - reflexivity.
Qed.

Lemma error_envelope_witness :
  Json.field "success" (json invalidCredentials) = Some (JBool false)
  /\ (Json.hasKey "message" (json invalidCredentials) = true
      \/ exists errors, errors <> []
           /\ invalidCredentials = validationFailed errors
           /\ Json.hasKey "errors" (json invalidCredentials) = true
           /\ Json.hasKey "message" (json invalidCredentials) = false).
Proof.
  apply (@error_envelope Ref.refLibs invalidCredentials).
  - apply (@sent_login Ref.refLibs
             (Ref.request None (Ref.credentials "jane@ex.com" "Wrong99"))
             (Ref.worldOf [Ref.jane])
             (emit (EvCompare (Some (JStr "Wrong99")))
                (emit (EvFindOne (Some (JStr "jane@ex.com")))
                      (Ref.worldOf [Ref.jane])))).
    reflexivity.
  - left. cbn. lia.
Defined.

(* ================================================================== *)
(** ** The pre-save hook, the age rule and login after registration *)

Section HookAndAge.

Context {L : Libs}.

(** The hook on a document whose password was not modified: [next()]
    is called, and the statements after the conditional still run.
    The stored digest is hashed again and replaced. *)
Lemma preSave_unmodified (d : Doc) (w : World) (digest : string) :
  User.password (this d) = Some digest ->
  isModified d "password" = false ->
  preSave d w =
    (Ret (mkDoc (User.withPassword
                   (Some (bcrypt_hash digest
                            (bcrypt_genSalt 10 (entropy w))))
                   (this d))
                ("password" :: modifiedPaths d)),
     emit EvNext
       (emit (EvHash (Some digest))
          (bumpEntropy (emit (EvGenSalt 10) (emit EvNext w))))).
Proof.
  intros Hp Hm. unfold preSave. rewrite Hp, Hm. reflexivity.
Qed.

(** The hook on a document whose password was modified hashes it
    once. *)
Lemma preSave_modified (d : Doc) (w : World) (plaintext : string) :
  User.password (this d) = Some plaintext ->
  isModified d "password" = true ->
  preSave d w =
    (Ret (mkDoc (User.withPassword
                   (Some (bcrypt_hash plaintext
                            (bcrypt_genSalt 10 (entropy w))))
                   (this d))
                ("password" :: modifiedPaths d)),
     emit EvNext
       (emit (EvHash (Some plaintext))
          (bumpEntropy (emit (EvGenSalt 10) w)))).
Proof.
  intros Hp Hm. unfold preSave. rewrite Hp, Hm. reflexivity.
Qed.

(** What the [custom] validator decides: it compares calendar years
    only, as [getFullYear] reads them. *)
Lemma ageCheck_by_year (today birth : Date) (value : string) :
  parseDate value = Some birth ->
  ageCheck today (Some (JStr value)) = Ret true
  <-> (18 <= getFullYear today - getFullYear birth)%Z.
Proof.
  intros Hp. unfold ageCheck, jsDate. unfold parseDate in Hp. rewrite Hp.
  destruct (getFullYear today - getFullYear birth <? 18)%Z eqn:E.
  - apply Z.ltb_lt in E. split; [discriminate | lia].
  - apply Z.ltb_ge in E. split; [intros _; exact E | reflexivity].
Qed.

(** In a process whose local time is UTC, a subject of 18 or more
    always passes the rule: the difference of the years is at least the
    age. *)
Lemma ageCheck_accepts_adults (today birth : Date) (value : string) :
  (forall d, getFullYear d = year d) ->
  parseDate value = Some birth ->
  (18 <= ageInYears today birth)%Z ->
  ageCheck today (Some (JStr value)) = Ret true.
Proof.
  intros Hutc Hp Hage. apply (ageCheck_by_year today birth value Hp).
  rewrite !Hutc. unfold ageInYears in *.
  destruct ((month today <? month birth)%Z
            || ((month today =? month birth)%Z && (day today <? day birth)%Z));
    lia.
Qed.

End HookAndAge.

(** C1 on the code.  A stored user is loaded with her digest and saved
    after a change of name only.  The hook calls [next()], generates a
    salt, hashes the stored digest and replaces it: the new digest no
    longer verifies her password. *)
Theorem preSave_rehashes_unmodified_password :
  let d := @mkDoc (Ref.jane) ["name"] in
  let w := Ref.worldOf [Ref.jane] in
  let digest := "$2a$10$salt0$Abcdef1" in
  let digest' := "$2a$10$salt1$$2a$10$salt0$Abcdef1" in
  User.password (this d) = Some digest
  /\ isModified d "password" = false
  /\ Ref.compare "Abcdef1" digest = true
  /\ (exists d' w',
        @preSave Ref.refLibs d w = (Ret d', w')
        /\ User.password (this d') = Some digest'
        /\ log w' = [EvNext; EvHash (Some digest); EvGenSalt 10; EvNext])
  /\ Ref.compare "Abcdef1" digest' = false.
Proof.
  cbv zeta. repeat apply conj; try reflexivity.
  do 2 eexists. repeat apply conj.
  - rewrite (@preSave_unmodified Ref.refLibs _ _ "$2a$10$salt0$Abcdef1");
      reflexivity.
  - reflexivity.
  - reflexivity.
Qed.

(** C5 on the code.  On 1 March 2024 a subject born on 31 December 2006
    is 17 years old; the validator computes 2024 - 2006 = 18 and lets
    the registration through, which is answered 201. *)
Theorem register_accepts_seventeen_year_old :
  let today := mkDate 2024 3 1 in
  let req := Ref.request None (Ref.registration "minor@ex.com" "Abcdef1"
                                                "2006-12-31") in
  clock Ref.world0 = today
  /\ Ref.parseYMD "2006-12-31" = Some (mkDate 2006 12 31)
  /\ ageInYears today (mkDate 2006 12 31) = 17%Z
  /\ @ageCheck Ref.refLibs today (Some (JStr "2006-12-31")) = Ret true
  /\ (exists resp w',
        @postRegister Ref.refLibs req Ref.world0 = (Ret resp, w')
        /\ status resp = 201%Z
        /\ isSuccess resp).
Proof.
  cbv zeta. repeat apply conj; try reflexivity.
  do 2 eexists. repeat apply conj.
  - vm_compute. reflexivity.
  - reflexivity.
  - reflexivity.
Qed.

(** C2 on the code.  A registration with the email [j.doe@gmail.com]
    is answered 201 with a token: the register chain normalizes the
    email and the user is stored as [jdoe@gmail.com].  A login with the
    same two strings looks up [j.doe@gmail.com], finds no user and is
    answered 401. *)
Theorem login_after_register_fails_for_gmail_dots :
  let reg := Ref.request None (Ref.registration "j.doe@gmail.com" "Abcdef1"
                                                "1990-01-01") in
  let login := Ref.request None (Ref.credentials "j.doe@gmail.com"
                                                 "Abcdef1") in
  exists resp w',
    @postRegister Ref.refLibs reg Ref.world0 = (Ret resp, w')
    /\ status resp = 201%Z
    /\ Json.hasKey "token" (json resp) = true
    /\ map User.email (users w') = ["jdoe@gmail.com"]
    /\ fst (@postLogin Ref.refLibs login w')
       = Ret (unauthorized "Invalid email or password").
Proof.
  cbv zeta. do 2 eexists. repeat apply conj.
  - vm_compute. reflexivity.
  - reflexivity.
  - reflexivity.
  - reflexivity.
  - vm_compute. reflexivity.
Qed.

Section LoginAfterRegister.

Context {L : Libs}.

Lemma str_some (s : string) : str (Some s) = s.
Proof. unfold str, JsString.orElse. destruct s; reflexivity. Qed.

(** A chain leaves the other fields of the body alone. *)
Lemma runChain_frame (today : Date) (ch : Chain) (b : Body) (k : string) :
  String.eqb k (chPath ch) = false ->
  Fields.get k (snd (runChain today ch b)) = Fields.get k b.
Proof.
  intros Hk. unfold runChain.
  destruct (Fields.get (chPath ch) b) as [v|], (chOptional ch);
    try reflexivity;
    destruct (runSteps today (chPath ch) (chSteps ch) _) as [errs v'];
    destruct (hasSanitizer (chSteps ch)); cbn [snd]; try reflexivity;
    destruct v' as [j|]; cbn [writeBack]; try reflexivity;
    apply FieldsFacts.get_set_other; exact Hk.
Qed.

Lemma runChains_cons (today : Date) (ch : Chain) (rest : list Chain)
      (b : Body) :
  runChains today (ch :: rest) b =
    ((fst (runChain today ch b)
      ++ fst (runChains today rest (snd (runChain today ch b))))%list,
     snd (runChains today rest (snd (runChain today ch b)))).
Proof.
  cbn [runChains]. destruct (runChain today ch b) as [errs b'].
  cbn [fst snd]. destruct (runChains today rest b'). reflexivity.
Qed.

Lemma runChains_frame (today : Date) (chains : list Chain) (b : Body)
      (k : string) :
  forallb (fun ch => negb (String.eqb k (chPath ch))) chains = true ->
  Fields.get k (snd (runChains today chains b)) = Fields.get k b.
Proof.
  revert b. induction chains as [|ch rest IH]; intros b H; [reflexivity|].
  cbn [forallb] in H. apply andb_true_iff in H. destruct H as [Hch Hrest].
  rewrite runChains_cons. cbn [snd]. rewrite (IH _ Hrest).
  apply runChain_frame. apply negb_true_iff. exact Hch.
Qed.

(** What the register chains do to an email and a password that are
    strings, and what an empty list of errors says about them. *)
Lemma register_chains (today : Date) (b : Body) (e p : string) :
  Fields.get "email" b = Some (JStr e) ->
  Fields.get "password" b = Some (JStr p) ->
  let out := runChains today registerValidation b in
  Fields.get "email" (snd out)
  = Some (JStr (normalizeEmail (JsString.trim e)))
  /\ Fields.get "password" (snd out) = Some (JStr p)
  /\ (fst out = [] ->
      JsString.truthy (JsString.trim e) = true
      /\ isEmail (JsString.trim e) = true
      /\ JsString.truthy p = true).
Proof.
  intros He Hp. cbv zeta. unfold registerValidation.
  rewrite runChains_cons.
  set (nameChain := mkChain "name" _ _).
  set (b1 := snd (runChain today nameChain b)).
  assert (He1 : Fields.get "email" b1 = Some (JStr e))
    by (unfold b1; rewrite runChain_frame by reflexivity; exact He).
  assert (Hp1 : Fields.get "password" b1 = Some (JStr p))
    by (unfold b1; rewrite runChain_frame by reflexivity; exact Hp).
  rewrite runChains_cons.
  set (emailChain := mkChain "email" _ _).
  assert (Hem : runChain today emailChain b1 =
                ((if notEmpty (JsString.trim e) then [] else
                    [mkFieldError "email" "Email is required"
                                  (Some (JStr (JsString.trim e)))])
                 ++ (if isEmail (JsString.trim e) then [] else
                       [mkFieldError "email" "Please provide a valid email"
                                     (Some (JStr (JsString.trim e)))]),
                 Fields.set "email"
                            (JStr (normalizeEmail (JsString.trim e))) b1)%list).
  { unfold runChain, emailChain.
    cbn [chPath chOptional chSteps hasSanitizer existsb orb].
    rewrite He1. cbn [runSteps sanitize rejected writeBack].
    destruct (notEmpty (JsString.trim e)), (isEmail (JsString.trim e));
      reflexivity. }
  rewrite Hem. cbn [fst snd].
  set (b2 := Fields.set "email" _ b1).
  assert (Hp2 : Fields.get "password" b2 = Some (JStr p))
    by (unfold b2; rewrite FieldsFacts.get_set_other by reflexivity;
        exact Hp1).
  rewrite runChains_cons.
  set (passwordChain := mkChain "password" _ _).
  assert (Hpw : snd (runChain today passwordChain b2) = b2
                /\ (fst (runChain today passwordChain b2) = [] ->
                    JsString.truthy p = true)).
  { unfold runChain, passwordChain.
    cbn [chPath chOptional chSteps hasSanitizer existsb orb].
    rewrite Hp2. cbn [runSteps rejected]. unfold notEmpty.
    destruct (JsString.truthy p); [split; [|reflexivity]|].
    - destruct (isLength 6 None p), (Regex.matches passwordPattern p);
        reflexivity.
    - destruct (isLength 6 None p), (Regex.matches passwordPattern p);
        split; try reflexivity; discriminate. }
  destruct Hpw as [Hb3 Hpw]. rewrite Hb3. cbn [fst snd].
  set (rest := runChains today _ b2).
  repeat apply conj.
  - unfold rest. rewrite runChains_frame by reflexivity.
    unfold b2. apply FieldsFacts.get_set_same.
  - unfold rest. rewrite runChains_frame by reflexivity. exact Hp2.
  - intros Hnil.
    apply app_eq_nil in Hnil. destruct Hnil as [_ Hnil].
    apply app_eq_nil in Hnil. destruct Hnil as [Hemail Hnil].
    apply app_eq_nil in Hnil. destruct Hnil as [Hpass _].
    apply app_eq_nil in Hemail. destruct Hemail as [H1 H2].
    unfold notEmpty in H1.
    destruct (JsString.truthy (JsString.trim e)); [|discriminate H1].
    destruct (isEmail (JsString.trim e)); [|discriminate H2].
    repeat apply conj; try reflexivity. exact (Hpw Hpass).
Qed.

Lemma find_snoc {A} (f : A -> bool) (l : list A) (x : A) :
  find f l = None -> f x = true -> find f (l ++ [x]) = Some x.
Proof.
  induction l as [|y l IH]; cbn [find app]; intros Hn Hx.
  - rewrite Hx. reflexivity.
  - destruct (f y); [discriminate|]. exact (IH Hn Hx).
Qed.

(** What a successful [User.create] has done, for an email and a
    password that are strings. *)
Lemma create_returns (c : CreateInput) (w w1 : World) (u : User.t)
      (e p : string) :
  ciEmail c = Some (JStr e) ->
  ciPassword c = Some (JStr p) ->
  create c w = (Ret u, w1) ->
  users w1 = (users w ++ [u])%list
  /\ dbUp w1 = true
  /\ env w1 = env w
  /\ clock w1 = clock w
  /\ User.email u = emailSetters e
  /\ User.password u
     = Some (bcrypt_hash p (bcrypt_genSalt 10 (entropy w)))
  /\ User.isActive u = true.
Proof.
  intros He Hp H. rewrite create_table in H.
  destruct (schemaErrors c); [|discriminate H].
  cbv zeta in H. unfold stored in H. rewrite Hp in H.
  cbn [castStr casted] in H.
  destruct (dbUp w) eqn:Hdb; [|discriminate H].
  destruct (existsb _ (users w)); [discriminate H|].
  injection H as <- <-.
  unfold newUser, construct, digestOf, hashedAndInserted, stored.
  rewrite He.
  cbn [castStr casted this User.withPassword User.email User.password
       User.isActive users dbUp env clock emit setUsers bumpId bumpEntropy].
  repeat apply conj; try reflexivity. exact Hdb.
Qed.

(** What [registerUser] has done when it answers 201. *)
Lemma registerUser_created (req : Request) (w w' : World) (resp : Response)
      (e p : string) :
  Fields.get "email" (body req) = Some (JStr e) ->
  Fields.get "password" (body req) = Some (JStr p) ->
  registerUser req w = (Ret resp, w') ->
  status resp = 201%Z ->
  validationErrors req = []
  /\ byEmail e w = None
  /\ env w' = env w
  /\ clock w' = clock w
  /\ exists u,
       users w' = (users w ++ [u])%list
       /\ dbUp w' = true
       /\ User.email u = emailSetters e
       /\ User.password u
          = Some (bcrypt_hash p (bcrypt_genSalt 10 (entropy w)))
       /\ User.isActive u = true
       /\ exists token,
            jwt_sign (User._id u) (JWT_SECRET (env w)) (JWT_EXPIRE (env w))
                     (clock w) = Ret token.
Proof.
  intros He Hp H Hs. unfold registerUser, validationResult in H.
  destruct (validationErrors req) as [|fe fes].
  2:{ cbn [isEmpty negb] in H. unfold tryCatch, respond, ret in H.
      injection H as <- _. discriminate Hs. }
  cbn [isEmpty negb] in H. rewrite He in H.
  unfold tryCatch, bind in H. rewrite findOne_string in H.
  destruct (dbUp w); [|injection H as <- _; discriminate Hs].
  destruct (byEmail e w) as [x|] eqn:Hf; cbn [option_map] in H;
    [injection H as <- _; discriminate Hs|].
  destruct (create _ _) as [[u|err] w1] eqn:Hc;
    [|injection H as <- _; discriminate Hs].
  apply (create_returns _ _ _ _ e p) in Hc; [|reflexivity|exact Hp].
  destruct Hc as (Hu & Hdb & Henv & Hclock & Hem & Hpw & Hact).
  rewrite generateToken_run in H. rewrite Henv, Hclock in H.
  cbn [emit env clock users entropy] in *.
  destruct (jwt_sign (User._id u) (JWT_SECRET (env w))
                     (JWT_EXPIRE (env w)) (clock w)) as [token|err]
    eqn:Hsign;
    [|injection H as <- _; discriminate Hs].
  injection H as _ <-. cbn [emit env clock users dbUp].
  repeat apply conj; try reflexivity; try assumption.
  exists u. repeat apply conj; try assumption.
  exists token. exact Hsign.
Qed.

(** The hasher's contract (section 8 of the specification): a secret
    verifies against its own digest. *)
Hypothesis compare_hash :
  forall (p : string) (n : nat),
    bcrypt_compare p (bcrypt_hash p (bcrypt_genSalt 10 n)) = true.

(** Where C2 holds.  When normalization does not change the address the
    schema would store, a login with the strings given to a successful
    registration succeeds. *)
Lemma login_after_register
      (reg login : Request) (w w' : World) (resp : Response) (e p : string) :
  validationErrors reg = [] ->
  Fields.get "email" (body reg) = Some (JStr e) ->
  Fields.get "password" (body reg) = Some (JStr p) ->
  postRegister reg w = (Ret resp, w') ->
  status resp = 201%Z ->
  emailSetters (normalizeEmail (JsString.trim e))
  = emailSetters (JsString.trim e) ->
  validationErrors login = [] ->
  Fields.get "email" (body login) = Some (JStr e) ->
  Fields.get "password" (body login) = Some (JStr p) ->
  exists token u w'',
    postLogin login w' = (Ret (loginSuccess token u), w'').
Proof.
  intros Hv He Hp H Hs Hnorm Hv' He' Hp'.
  unfold postRegister, validate in H. run_in H.
  destruct (register_chains (clock w) (body reg) e p He Hp)
    as (Hge & Hgp & Hok).
  cbv zeta in Hge, Hgp, Hok.
  destruct (runChains (clock w) registerValidation (body reg))
    as [errs b'] eqn:Hrun.
  cbn [fst snd] in Hge, Hgp, Hok.
  apply (registerUser_created _ w w' resp
           (normalizeEmail (JsString.trim e)) p) in H;
    [|exact Hge|exact Hgp|exact Hs].
  destruct H as (Hnil & Hnone & Henv & Hclock & u & Hu & Hdb & Hem & Hpw
                 & Hact & token & Hsign).
  cbn [validationErrors] in Hnil. rewrite Hv in Hnil. cbn [app] in Hnil.
  destruct (Hok Hnil) as (Te & Ie & Tp).
  assert (V : validLogin login e p) by (repeat apply conj; assumption).
  rewrite (postLogin_valid login w' e p V). cbv zeta.
  rewrite Hdb.
  assert (Hfound : byEmail (JsString.trim e) w' = Some u).
  { unfold byEmail in *. rewrite Hu. apply find_snoc.
    - rewrite <- Hnorm. exact Hnone.
    - rewrite Hem, Hnorm. apply String.eqb_refl. }
  rewrite Hfound, Hact, Hpw, compare_hash.
  unfold signedIn. cbn [emit env clock]. rewrite Henv, Hclock, Hsign.
  do 3 eexists. reflexivity.
Qed.

End LoginAfterRegister.

(** The scenario of the specification on the reference instance:
    registration stores the email in lowercase; login with the stored
    email succeeds, with a wrong password it is answered 401; the
    profile route answers the token, and answers 401 "Token expired"
    once the token's lifetime is over. *)
Example scenario_jane :
  let reg := Ref.request None (Ref.registration "JANE@EX.com" "Abcdef1"
                                                "1990-01-01") in
  let w := Ref.after (@postRegister Ref.refLibs reg) Ref.world0 in
  let login (p : string) :=
    Ref.request None (Ref.credentials "jane@ex.com" p) in
  Ref.result (@postRegister Ref.refLibs reg) Ref.world0
  = Ret (registerSuccess Ref.janeToken Ref.jane)
  /\ users w = [Ref.jane]
  /\ Ref.result (@postLogin Ref.refLibs (login "Abcdef1")) w
     = Ret (loginSuccess Ref.janeToken Ref.jane)
  /\ Ref.result (@postLogin Ref.refLibs (login "Abcdef2")) w
     = Ret (unauthorized "Invalid email or password")
  /\ Ref.result (@getMeRoute Ref.refLibs (Ref.bearer Ref.janeToken)) w
     = Ret (profileSuccess Ref.jane)
  /\ Ref.result (@getMeRoute Ref.refLibs (Ref.bearer Ref.janeToken))
                (Ref.at_ (mkDate 2024 4 1) w)
     = Ret (unauthorized "Token expired, please login again").
Proof.
  cbv zeta. repeat apply conj; vm_compute; reflexivity.
Qed.

(* ================================================================== *)
(** ** Trimming and lowercase *)

Module TrimFacts.
Import JsString.

Lemma ltrim_cases (s : string) :
  ltrim s = "" \/ exists c s', ltrim s = String c s' /\ isSpace c = false.
Proof.
  induction s as [|c s IH]; [left; reflexivity|].
  cbn [ltrim]. destruct (isSpace c) eqn:E; [exact IH|].
  right. exists c, s. split; [reflexivity | exact E].
Qed.

Lemma rtrim_rtrim (s : string) : rtrim (rtrim s) = rtrim s.
Proof.
  induction s as [|c s IH]; [reflexivity|].
  cbn [rtrim]. destruct (rtrim s) as [|a r] eqn:E.
  - destruct (isSpace c) eqn:Ec; [reflexivity|].
    cbn [rtrim]. rewrite Ec. reflexivity.
  - change (rtrim (String c (String a r)))
      with (match rtrim (String a r) with
            | EmptyString =>
                if isSpace c then EmptyString else String c EmptyString
            | x => String c x
            end).
    rewrite IH. reflexivity.
Qed.

Lemma trim_trim (s : string) : trim (trim s) = trim s.
Proof.
  unfold trim. destruct (ltrim_cases s) as [E | (c & s' & E & Hc)];
    rewrite E; [reflexivity|].
  destruct (StringFacts.rtrim_head c s' Hc) as (r & Er & _).
  rewrite Er. cbn [ltrim]. rewrite Hc. rewrite <- Er. apply rtrim_rtrim.
Qed.

Lemma lowerUnit_idempotent (c : ascii) :
  lowerUnit (lowerUnit c) = lowerUnit c.
Proof.
  destruct c as [[] [] [] [] [] [] [] []]; reflexivity.
Qed.

Lemma isSpace_lowerUnit (c : ascii) : isSpace (lowerUnit c) = isSpace c.
Proof.
  destruct c as [[] [] [] [] [] [] [] []]; reflexivity.
Qed.

Lemma toLowerCase_idempotent (s : string) :
  toLowerCase (toLowerCase s) = toLowerCase s.
Proof.
  induction s as [|c s IH]; [reflexivity|].
  cbn [toLowerCase]. rewrite lowerUnit_idempotent, IH. reflexivity.
Qed.

Lemma toLowerCase_ltrim (s : string) :
  toLowerCase (ltrim s) = ltrim (toLowerCase s).
Proof.
  induction s as [|c s IH]; [reflexivity|].
  cbn [ltrim toLowerCase]. rewrite isSpace_lowerUnit.
  destruct (isSpace c); [exact IH | reflexivity].
Qed.

Lemma toLowerCase_rtrim (s : string) :
  toLowerCase (rtrim s) = rtrim (toLowerCase s).
Proof.
  induction s as [|c s IH]; [reflexivity|].
  cbn [rtrim toLowerCase]. rewrite <- IH, isSpace_lowerUnit.
  destruct (rtrim s) as [|a r]; cbn [toLowerCase];
    [destruct (isSpace c)|]; reflexivity.
Qed.

Lemma toLowerCase_trim (s : string) :
  toLowerCase (trim s) = trim (toLowerCase s).
Proof. unfold trim. rewrite toLowerCase_rtrim, toLowerCase_ltrim. reflexivity. Qed.

(** The schema's setters of [email] change nothing when applied a
    second time. *)
Lemma emailSetters_idempotent (s : string) :
  emailSetters (emailSetters s) = emailSetters s.
Proof.
  unfold emailSetters.
  rewrite toLowerCase_trim, toLowerCase_idempotent. apply trim_trim.
Qed.

End TrimFacts.

(* ================================================================== *)
(** ** The patterns of the validation rules in plain terms *)

Module RegexFacts.
Import Regex.

Lemma matches_Nul (s : string) : matches Nul s = false.
Proof. induction s as [|a s IH]; [reflexivity | exact IH]. Qed.

Lemma matches_anything (s : string) : matches anything s = true.
Proof. induction s as [|a s IH]; [reflexivity | exact IH]. Qed.

Lemma matches_Alt (r1 r2 : re) (s : string) :
  matches (Alt r1 r2) s = matches r1 s || matches r2 s.
Proof.
  revert r1 r2. induction s as [|a s IH]; intros r1 r2; [reflexivity|].
  cbn [matches deriv]. unfold alt.
  destruct (deriv a r1) eqn:E1, (deriv a r2) eqn:E2;
    rewrite ?matches_Nul, ?orb_false_r; try reflexivity; apply IH.
Qed.

Lemma matches_alt (r1 r2 : re) (s : string) :
  matches (alt r1 r2) s = matches r1 s || matches r2 s.
Proof.
  unfold alt. destruct r1, r2;
    rewrite ?matches_Nul, ?orb_false_r; try reflexivity; apply matches_Alt.
Qed.

Lemma matches_And (r1 r2 : re) (s : string) :
  matches (And r1 r2) s = matches r1 s && matches r2 s.
Proof.
  revert r1 r2. induction s as [|a s IH]; intros r1 r2; [reflexivity|].
  cbn [matches deriv]. unfold and.
  destruct (deriv a r1) eqn:E1, (deriv a r2) eqn:E2;
    rewrite ?matches_Nul, ?andb_false_r; try reflexivity; apply IH.
Qed.

(** [c{n}] for a character class [c]: exactly [n] characters of the
    class. *)
Lemma matches_times (p : ascii -> bool) (n : nat) (s : string) :
  matches (times n (Chr p)) s
  = (String.length s =? n)%nat && forallb p (list_ascii_of_string s).
Proof.
  revert s. induction n as [|n IH]; intros [|a s].
  - reflexivity.
  - cbn [times matches deriv]. apply matches_Nul.
  - reflexivity.
  - cbn [times matches deriv nullable String.length Nat.eqb
         list_ascii_of_string forallb].
    destruct (p a).
    + rewrite <- IH. destruct n; reflexivity.
    + cbn [cat]. rewrite matches_Nul. rewrite andb_false_r. reflexivity.
Qed.

(** [(?=.*c)] at the start of the pattern, for a class [c] without line
    terminators: a character of the class on the first line. *)
Lemma matches_ahead (p : ascii -> bool) (s : string) :
  p "010"%char = false -> p "013"%char = false ->
  matches (Cat (Star dot) (Cat (Chr p) anything)) s = existsb p (firstLine s).
Proof.
  intros Hlf Hcr. unfold anything in *.
  induction s as [|a s IH]; [reflexivity|].
  cbn [matches deriv nullable firstLine andb].
  cbn [dot deriv].
  destruct (Ascii.eqb a "010") eqn:Elf.
  - apply Ascii.eqb_eq in Elf. subst a. rewrite Hlf.
    cbn. apply matches_Nul.
  - destruct (Ascii.eqb a "013") eqn:Ecr.
    + apply Ascii.eqb_eq in Ecr. subst a. rewrite Hcr.
      cbn. apply matches_Nul.
    + cbn [orb negb existsb cat].
      destruct (p a).
      * cbn [cat alt orb]. rewrite matches_Alt.
        change (Star (Chr (fun _ : ascii => true))) with anything.
        rewrite (matches_anything s). apply orb_true_r.
      * cbn [cat alt orb]. exact IH.
Qed.

Lemma phonePattern_digits (s : string) :
  matches phonePattern s = digits 10 s.
Proof. apply matches_times. Qed.

Lemma zipPattern_digits (s : string) :
  matches zipPattern s = digits 6 s.
Proof. apply matches_times. Qed.

Lemma passwordPattern_classes (s : string) :
  matches passwordPattern s
  = existsb isLower (firstLine s) && existsb isUpper (firstLine s)
    && existsb isDigit (firstLine s).
Proof.
  unfold passwordPattern, lower, upper, digit. rewrite !matches_And.
  rewrite !matches_ahead by reflexivity.
  rewrite andb_assoc. reflexivity.
Qed.

End RegexFacts.

(* ================================================================== *)
(** ** Validation chains *)

Section ChainFacts.

Context {L : Libs}.

Lemma isEmpty_app (a b : list FieldError) :
  isEmpty (a ++ b) = isEmpty a && isEmpty b.
Proof. destruct a; reflexivity. Qed.

Lemma truthy_false (s : string) : JsString.truthy s = false -> s = "".
Proof. destruct s; [reflexivity | discriminate]. Qed.

(** The errors of a chain depend on its own field only. *)
Lemma runChain_errors_ext (today : Date) (ch : Chain) (b1 b2 : Body) :
  Fields.get (chPath ch) b1 = Fields.get (chPath ch) b2 ->
  fst (runChain today ch b1) = fst (runChain today ch b2).
Proof.
  intros H. unfold runChain. rewrite H.
  destruct (Fields.get (chPath ch) b2), (chOptional ch); try reflexivity;
    match goal with
    | |- context [runSteps ?a ?p ?st ?v] => destruct (runSteps a p st v)
    end; reflexivity.
Qed.

Lemma runChain_get_ext (today : Date) (ch : Chain) (b1 b2 : Body)
      (k : string) :
  Fields.get (chPath ch) b1 = Fields.get (chPath ch) b2 ->
  Fields.get k b1 = Fields.get k b2 ->
  Fields.get k (snd (runChain today ch b1))
  = Fields.get k (snd (runChain today ch b2)).
Proof.
  intros Hp Hk. destruct (String.eqb k (chPath ch)) eqn:E.
  - apply String.eqb_eq in E. subst k. unfold runChain. rewrite Hp.
    destruct (Fields.get (chPath ch) b2) eqn:E2, (chOptional ch);
      try (cbn [snd]; congruence);
      match goal with
      | |- context [runSteps ?a ?p ?st ?v] => destruct (runSteps a p st v)
      end;
      destruct (hasSanitizer (chSteps ch)); cbn [snd]; try congruence;
      match goal with
      | |- context [writeBack _ ?v' _] => destruct v'
      end; cbn [writeBack]; try congruence;
      rewrite !FieldsFacts.get_set_same; reflexivity.
  - rewrite !runChain_frame by exact E. exact Hk.
Qed.

Lemma runChains_errors_ext (today : Date) (chains : list Chain)
      (b1 b2 : Body) :
  (forall k, In k (map chPath chains) -> Fields.get k b1 = Fields.get k b2) ->
  fst (runChains today chains b1) = fst (runChains today chains b2).
Proof.
  revert b1 b2. induction chains as [|ch rest IH]; intros b1 b2 H;
    [reflexivity|].
  rewrite !runChains_cons. cbn [fst].
  assert (Hch : Fields.get (chPath ch) b1 = Fields.get (chPath ch) b2)
    by (apply H; left; reflexivity).
  rewrite (runChain_errors_ext today ch b1 b2 Hch). f_equal.
  apply IH. intros k Hk. apply runChain_get_ext; [exact Hch|].
  apply H. right. exact Hk.
Qed.

(** Chains on pairwise distinct fields validate independently: the
    errors are those of each chain on the body as it was sent, in the
    order of the chains. *)
Lemma runChains_independent (today : Date) (chains : list Chain) (b : Body) :
  NoDup (map chPath chains) ->
  fst (runChains today chains b)
  = flat_map (fun ch => fst (runChain today ch b)) chains.
Proof.
  revert b. induction chains as [|ch rest IH]; intros b Hnd; [reflexivity|].
  cbn [map] in Hnd. inversion Hnd as [|? ? Hnotin Hrest]; subst.
  rewrite runChains_cons. cbn [fst flat_map]. f_equal.
  rewrite <- (IH b Hrest). apply runChains_errors_ext.
  intros k Hk. apply runChain_frame. apply String.eqb_neq.
  intros ->. exact (Hnotin Hk).
Qed.

(** And each sanitizes its own field of the body as it was sent. *)
Lemma runChains_get (today : Date) (chains : list Chain) (b : Body)
      (ch : Chain) :
  NoDup (map chPath chains) -> In ch chains ->
  Fields.get (chPath ch) (snd (runChains today chains b))
  = Fields.get (chPath ch) (snd (runChain today ch b)).
Proof.
  revert b. induction chains as [|c rest IH]; intros b Hnd Hin;
    [contradiction|].
  cbn [map] in Hnd. inversion Hnd as [|? ? Hnotin Hrest]; subst.
  rewrite runChains_cons. cbn [snd]. destruct Hin as [-> | Hin].
  - rewrite runChains_frame; [reflexivity|].
    apply forallb_forall. intros c' Hc'. apply negb_true_iff.
    apply String.eqb_neq. intros E. apply Hnotin. rewrite E.
    apply in_map. exact Hc'.
  - rewrite (IH _ Hrest Hin).
    apply runChain_get_ext; apply runChain_frame; apply String.eqb_neq;
      intros E; apply Hnotin; rewrite <- E; apply in_map; exact Hin.
Qed.

(** On a value that is a string or [undefined] a standard validator
    reads its text, and a sanitizer leaves a string. *)
Lemma accepts_plain (ok : string -> bool) (v : option JSON) :
  plain v = true -> accepts ok v = ok (text v).
Proof.
  unfold accepts, rejected, text.
  destruct v as [[| | |s| |]|]; try discriminate; intros _.
  - destruct (ok s); reflexivity.
  - destruct (ok ""); reflexivity.
Qed.

Lemma sanitize_plain (f : string -> string) (v : option JSON) :
  plain v = true -> sanitize f v = JStr (f (text v)).
Proof.
  unfold sanitize, text.
  destruct v as [[| | |s| |]|]; try discriminate; reflexivity.
Qed.

Lemma runSteps_ok (today : Date) (path : string) (steps : list Step)
      (v : option JSON) :
  isEmpty (fst (runSteps today path steps v)) = stepsOk today steps v
  /\ snd (runSteps today path steps v) = sanitized steps v.
Proof.
  revert v. induction steps as [|st rest IH]; intros v; [split; reflexivity|].
  destruct st as [f | ok msg | f]; cbn [runSteps stepsOk sanitized].
  - apply IH.
  - destruct (IH v) as [IH1 IH2].
    destruct (runSteps today path rest v) as [errs v'].
    cbn [fst snd] in *. unfold accepts.
    destruct (rejected ok v); cbn [map app isEmpty andb];
      split; assumption || reflexivity.
  - destruct (IH v) as [IH1 IH2].
    destruct (runSteps today path rest v) as [errs v'].
    cbn [fst snd] in *. destruct (f today v) as [[|]|e];
      cbn [fst snd isEmpty]; split; assumption || reflexivity.
Qed.

(** A chain with a sanitizer leaves a value. *)
Lemma sanitized_some (steps : list Step) (j : JSON) :
  exists j', sanitized steps (Some j) = Some j'.
Proof.
  revert j. induction steps as [|st rest IH]; intros j;
    [exists j; reflexivity|].
  destruct st; cbn [sanitized]; apply IH.
Qed.

Lemma sanitized_hasSanitizer (steps : list Step) (v : option JSON) :
  hasSanitizer steps = true -> exists j, sanitized steps v = Some j.
Proof.
  unfold hasSanitizer. revert v.
  induction steps as [|st rest IH]; intros v H; [discriminate H|].
  destruct st; cbn [existsb orb sanitized] in *.
  - apply sanitized_some.
  - exact (IH v H).
  - exact (IH v H).
Qed.

(** A chain passes when its field is unbound and the chain optional, or
    when every validator accepts the value. *)
Lemma runChain_ok (today : Date) (ch : Chain) (b : Body) :
  isEmpty (fst (runChain today ch b))
  = (chOptional ch
     && match Fields.get (chPath ch) b with None => true | Some _ => false end)
    || stepsOk today (chSteps ch) (Fields.get (chPath ch) b).
Proof.
  unfold runChain.
  destruct (Fields.get (chPath ch) b) as [v|], (chOptional ch);
    try reflexivity; cbn [andb orb];
    match goal with
    | |- context [runSteps ?a ?p ?st ?x] =>
        destruct (runSteps_ok a p st x) as [H _];
        destruct (runSteps a p st x)
    end; exact H.
Qed.

(** What a chain leaves in its own field. *)
Lemma runChain_value (today : Date) (ch : Chain) (b : Body) :
  Fields.get (chPath ch) (snd (runChain today ch b))
  = match Fields.get (chPath ch) b, chOptional ch with
    | None, true => None
    | o, _ => if hasSanitizer (chSteps ch)
              then sanitized (chSteps ch) o
              else o
    end.
Proof.
  unfold runChain.
  destruct (Fields.get (chPath ch) b) as [v|] eqn:E, (chOptional ch);
    try exact E;
    match goal with
    | |- context [runSteps ?a ?p ?st ?x] =>
        destruct (runSteps_ok a p st x) as [_ H];
        destruct (runSteps a p st x) as [errs v']
    end; cbn [snd] in *; subst;
    destruct (hasSanitizer (chSteps ch)) eqn:Hs; try exact E;
    match goal with
    | |- context [sanitized ?st ?x] =>
        destruct (sanitized_hasSanitizer st x Hs) as (j & Hj); rewrite Hj
    end; cbn [writeBack]; apply FieldsFacts.get_set_same.
Qed.

Lemma isEmpty_flat_map {A} (f : A -> list FieldError) (l : list A) :
  isEmpty (flat_map f l) = forallb (fun x => isEmpty (f x)) l.
Proof.
  induction l as [|x l IH]; [reflexivity|].
  cbn [flat_map forallb]. rewrite isEmpty_app, IH. reflexivity.
Qed.

Lemma length_truthy (n : nat) (s : string) :
  (S n <=? String.length s)%nat = true -> JsString.truthy s = true.
Proof. destruct s; [discriminate | reflexivity]. Qed.

Lemma digits_truthy (n : nat) (s : string) :
  digits (S n) s = true -> JsString.truthy s = true.
Proof. destruct s; [discriminate | reflexivity]. Qed.

(** A rule implied by a later rule of the same chain can be dropped. *)
Lemma andb_implied (a b : bool) : (b = true -> a = true) -> a && b = b.
Proof. destruct a, b; intros H; try reflexivity. discriminate (H eq_refl). Qed.

Lemma chain_value (today : Date) (chains : list Chain) (b : Body) (i : nat) :
  NoDup (map chPath chains) -> (i < List.length chains)%nat ->
  let ch := nth i chains (mkChain "" false []) in
  Fields.get (chPath ch) (snd (runChains today chains b))
  = match Fields.get (chPath ch) b, chOptional ch with
    | None, true => None
    | o, _ => if hasSanitizer (chSteps ch)
              then sanitized (chSteps ch) o
              else o
    end.
Proof.
  intros Hnd Hi ch.
  rewrite (runChains_get today chains b ch Hnd (nth_In _ _ Hi)).
  apply runChain_value.
Qed.

End ChainFacts.

Ltac chain_value_at chains paths i :=
  match goal with
  | |- Fields.get _ (snd (runChains ?today _ ?b)) = _ =>
      let H := fresh "H" in
      pose proof (chain_value today chains b i paths) as H;
      unfold registerValidation, loginValidation in H;
      cbn [nth List.length chPath chOptional chSteps hasSanitizer existsb
           orb sanitized] in H;
      unfold registerValidation, loginValidation;
      rewrite H by lia; clear H
  end.


(* ================================================================== *)
(** ** The validation chains in plain terms *)

Section ValidationTheorems.

Context {L : Libs}.

Lemma registerValidation_paths : NoDup (map chPath registerValidation).
Proof.
  unfold registerValidation. cbn [map chPath].
  repeat constructor; cbn [In]; intuition discriminate.
Qed.

Lemma loginValidation_paths : NoDup (map chPath loginValidation).
Proof.
  unfold loginValidation. cbn [map chPath].
  repeat constructor; cbn [In]; intuition discriminate.
Qed.

Lemma stringsAt_plain (paths : list string) (b : Body) (k : string) :
  stringsAt paths b = true -> In k paths -> plain (Fields.get k b) = true.
Proof.
  unfold stringsAt. intros H Hin.
  exact (proj1 (forallb_forall _ _) H k Hin).
Qed.

Lemma plain_cases (v : option JSON) :
  plain v = true -> v = None \/ v = Some (JStr (text v)).
Proof.
  destruct v as [[| | |s| |]|]; try discriminate; intros _;
    [right | left]; reflexivity.
Qed.

Lemma ageCheck_yearsOk (today : Date) (dob : string) :
  match ageCheck today (Some (JStr dob)) with Ret true => true | _ => false end
  = yearsOk today dob.
Proof.
  unfold ageCheck, yearsOk, jsDate, parseDate.
  destruct (newDate (JStr dob)) as [birth|]; [|reflexivity].
  destruct (getFullYear today - getFullYear birth <? 18)%Z eqn:E.
  - apply Z.ltb_lt in E. symmetry. apply Z.leb_gt. exact E.
  - apply Z.ltb_ge in E. symmetry. apply Z.leb_le. exact E.
Qed.

(** The rules of the date of birth on a value that is a string or
    [undefined]. *)
Lemma dateOfBirth_rules (today : Date) (v : option JSON) :
  plain v = true ->
  accepts notEmpty v
  && (accepts isDate v
      && match ageCheck today v with Ret true => true | _ => false end)
  = JsString.truthy (text v) && isDate (text v) && yearsOk today (text v).
Proof.
  intros Hv. rewrite !accepts_plain by exact Hv. unfold notEmpty.
  destruct (plain_cases v Hv) as [-> | E].
  - reflexivity.
  - rewrite E at 3. rewrite ageCheck_yearsOk. rewrite andb_assoc.
    reflexivity.
Qed.

(** The rule of the role. *)
Lemma role_rules (v : option JSON) :
  plain v = true ->
  match v with None => true | Some _ => false end
  || accepts (isIn ["customer"; "agent"; "admin"]) v
  = match v with
    | None => true
    | Some _ => isIn ["customer"; "agent"; "admin"] (text v)
    end.
Proof.
  intros Hv. rewrite accepts_plain by exact Hv.
  destruct v; reflexivity.
Qed.

(** A sanitized field is then validated as a string. *)
Lemma accepts_sanitize (ok : string -> bool) (f : string -> string)
      (v : option JSON) :
  plain v = true ->
  accepts ok (Some (sanitize f v)) = ok (f (text v)).
Proof.
  intros Hv. rewrite (sanitize_plain f v Hv). reflexivity || 
  (rewrite accepts_plain by reflexivity; reflexivity).
Qed.

(** On a body whose fields are strings, the register chains report no
    error exactly when the preconditions of registration hold. *)
Lemma registerValidation_ok (today : Date) (b : Body) :
  stringsAt registerPaths b = true ->
  isEmpty (fst (runChains today registerValidation b))
  = registerValid today b.
Proof.
  intros Hs.
  assert (Hp : forall k, In k registerPaths -> plain (Fields.get k b) = true)
    by (intros k; apply stringsAt_plain; exact Hs).
  rewrite (runChains_independent today _ b registerValidation_paths).
  rewrite isEmpty_flat_map. unfold registerValidation. cbn [forallb].
  rewrite !runChain_ok.
  cbn [chPath chOptional chSteps stepsOk andb orb].
  rewrite !accepts_sanitize by (apply Hp; cbn; tauto).
  rewrite (dateOfBirth_rules today (Fields.get "dateOfBirth" b))
    by (apply Hp; cbn; tauto).
  rewrite !andb_true_r.
  rewrite (role_rules (Fields.get "role" b)) by (apply Hp; cbn; tauto).
  rewrite !accepts_plain by (apply Hp; cbn; tauto).
  rewrite RegexFacts.phonePattern_digits, RegexFacts.zipPattern_digits,
    RegexFacts.passwordPattern_classes.
  unfold notEmpty, isLength, registerValid.
  rewrite ?andb_true_r.
  change (text (Fields.get "name" b)) with (field "name" b).
  change (text (Fields.get "email" b)) with (field "email" b).
  change (text (Fields.get "password" b)) with (field "password" b).
  change (text (Fields.get "phone" b)) with (field "phone" b).
  change (text (Fields.get "dateOfBirth" b)) with (field "dateOfBirth" b).
  change (text (Fields.get "address.street" b))
    with (field "address.street" b).
  change (text (Fields.get "address.city" b)) with (field "address.city" b).
  change (text (Fields.get "address.state" b))
    with (field "address.state" b).
  change (text (Fields.get "address.zipCode" b))
    with (field "address.zipCode" b).
  change (text (Fields.get "role" b)) with (field "role" b).
  set (name := JsString.trim (field "name" b)).
  set (password := field "password" b).
  set (phone := JsString.trim (field "phone" b)).
  set (zip := JsString.trim (field "address.zipCode" b)).
  rewrite (andb_implied (JsString.truthy name))
    by (intros H; apply andb_true_iff in H; destruct H as [H _];
        exact (length_truthy 1 name H)).
  rewrite (andb_assoc (JsString.truthy password)).
  rewrite (andb_implied (JsString.truthy password)
                        (6 <=? String.length password)%nat)
    by (exact (length_truthy 5 password)).
  rewrite (andb_implied (JsString.truthy phone))
    by (exact (digits_truthy 9 phone)).
  rewrite (andb_implied (JsString.truthy zip))
    by (exact (digits_truthy 5 zip)).
  rewrite ?andb_assoc. reflexivity.
Qed.

(** On a body whose email and password are strings, the login chains
    report no error exactly when the preconditions of login hold. *)
Lemma loginValidation_ok (today : Date) (b : Body) :
  stringsAt loginPaths b = true ->
  isEmpty (fst (runChains today loginValidation b)) = loginValid b.
Proof.
  intros Hs.
  assert (Hp : forall k, In k loginPaths -> plain (Fields.get k b) = true)
    by (intros k; apply stringsAt_plain; exact Hs).
  rewrite (runChains_independent today _ b loginValidation_paths).
  rewrite isEmpty_flat_map. unfold loginValidation. cbn [forallb].
  rewrite !runChain_ok.
  cbn [chPath chOptional chSteps stepsOk andb orb].
  rewrite !accepts_sanitize by (apply Hp; cbn; tauto).
  rewrite !accepts_plain by (apply Hp; cbn; tauto).
  rewrite !andb_true_r. unfold notEmpty, loginValid, field.
  rewrite ?andb_assoc. reflexivity.
Qed.

End ValidationTheorems.

Section SanitizingTheorems.

Context {L : Libs}.

(** What the register chains leave in each field. *)
Lemma registerValidation_values (today : Date) (b : Body) :
  let r := snd (runChains today registerValidation b) in
  let trimmed (k : string) :=
    Fields.get k r = Some (sanitize JsString.trim (Fields.get k b)) in
  trimmed "name"
  /\ Fields.get "email" r
     = Some (sanitize normalizeEmail
               (Some (sanitize JsString.trim (Fields.get "email" b))))
  /\ trimmed "phone"
  /\ trimmed "address.street"
  /\ trimmed "address.city"
  /\ trimmed "address.state"
  /\ trimmed "address.zipCode"
  /\ Fields.get "password" r = Fields.get "password" b
  /\ Fields.get "dateOfBirth" r = Fields.get "dateOfBirth" b
  /\ Fields.get "role" r = Fields.get "role" b.
Proof.
  cbv zeta. repeat apply conj.
  - chain_value_at registerValidation registerValidation_paths 0%nat.
    destruct (Fields.get "name" b); reflexivity.
  - chain_value_at registerValidation registerValidation_paths 1%nat.
    destruct (Fields.get "email" b); reflexivity.
  - chain_value_at registerValidation registerValidation_paths 3%nat.
    destruct (Fields.get "phone" b); reflexivity.
  - chain_value_at registerValidation registerValidation_paths 5%nat.
    destruct (Fields.get "address.street" b); reflexivity.
  - chain_value_at registerValidation registerValidation_paths 6%nat.
    destruct (Fields.get "address.city" b); reflexivity.
  - chain_value_at registerValidation registerValidation_paths 7%nat.
    destruct (Fields.get "address.state" b); reflexivity.
  - chain_value_at registerValidation registerValidation_paths 8%nat.
    destruct (Fields.get "address.zipCode" b); reflexivity.
  - chain_value_at registerValidation registerValidation_paths 2%nat.
    destruct (Fields.get "password" b); reflexivity.
  - chain_value_at registerValidation registerValidation_paths 4%nat.
    destruct (Fields.get "dateOfBirth" b); reflexivity.
  - chain_value_at registerValidation registerValidation_paths 9%nat.
    destruct (Fields.get "role" b); reflexivity.
Qed.

(** What the login chains leave in each field. *)
Lemma loginValidation_values (today : Date) (b : Body) :
  let l := snd (runChains today loginValidation b) in
  Fields.get "email" l
  = Some (sanitize JsString.trim (Fields.get "email" b))
  /\ Fields.get "password" l = Fields.get "password" b.
Proof.
  cbv zeta. split.
  - chain_value_at loginValidation loginValidation_paths 0%nat.
    destruct (Fields.get "email" b); reflexivity.
  - chain_value_at loginValidation loginValidation_paths 1%nat.
    destruct (Fields.get "password" b); reflexivity.
Qed.

(** X3. What validation does to the body, for every body.  The
    register chains replace name, phone, street, city, state and zip
    code by their trimmed values and the email by the normalized
    trimmed email; password, date of birth and role reach the
    controller exactly as sent.  The login chains trim the email and
    leave the password as sent.  A field that is a string is trimmed as
    a string, and a field that was not sent becomes the empty
    string. *)
Theorem validation_sanitizes (today : Date) (b : Body) :
  let r := snd (runChains today registerValidation b) in
  let l := snd (runChains today loginValidation b) in
  let trimmed (k : string) (out : Body) :=
    Fields.get k out = Some (sanitize JsString.trim (Fields.get k b)) in
  (trimmed "name" r
   /\ Fields.get "email" r
      = Some (sanitize normalizeEmail
                (Some (sanitize JsString.trim (Fields.get "email" b))))
   /\ trimmed "phone" r
   /\ trimmed "address.street" r
   /\ trimmed "address.city" r
   /\ trimmed "address.state" r
   /\ trimmed "address.zipCode" r
   /\ Fields.get "password" r = Fields.get "password" b
   /\ Fields.get "dateOfBirth" r = Fields.get "dateOfBirth" b
   /\ Fields.get "role" r = Fields.get "role" b)
  /\ (trimmed "email" l
      /\ Fields.get "password" l = Fields.get "password" b)
  /\ (forall s,
        sanitize JsString.trim (Some (JStr s)) = JStr (JsString.trim s)
        /\ sanitize normalizeEmail (Some (JStr s)) = JStr (normalizeEmail s))
  /\ sanitize JsString.trim None = JStr "".
Proof.
  cbv zeta.
  split; [exact (registerValidation_values today b)|].
  split; [exact (loginValidation_values today b)|].
  split; [intros s; split; reflexivity | reflexivity].
Qed.

End SanitizingTheorems.

(* ================================================================== *)
(** ** The register route, decision by decision *)

Section RegisterFacts.

Context {L : Libs}.

(** [registerUser] on a request that passed validation and whose email
    is a string, unfolded into the decisions it takes. *)
Lemma registerUser_table (req : Request) (w : World) (e : string) :
  validationErrors req = [] ->
  Fields.get "email" (body req) = Some (JStr e) ->
  registerUser req w =
    let w1 := emit (EvFindOne (Some (JStr e))) w in
    let c := createInput (body req) in
    let p := stored "password" (Fields.get "password" (body req)) in
    if dbUp w then
      match byEmail e w with
      | Some _ => (Ret conflict, w1)
      | None =>
          match schemaErrors c with
          | (_ :: _) as msgs =>
              (Ret (registrationFailed (errMessage (validationError msgs))),
               bumpId w1)
          | [] =>
              let u := newUser w c (digestOf w p) in
              let w2 := setUsers (users w ++ [u])
                          (hashedAndInserted w1 p (emailSetters e)) in
              (Ret (registered u w), emit (EvJwtSign (User._id u)) w2)
          end
      end
    else (Ret (registrationFailed (errMessage dbError)), w1).
Proof.
  intros Hv He. unfold registerUser, validationResult. cbv zeta.
  change (mkCreateInput _ _ _ _ _ _ _ _ _ _) with (createInput (body req)).
  rewrite Hv, He. cbn [isEmpty negb].
  unfold tryCatch, bind. rewrite findOne_string.
  destruct (dbUp w) eqn:Hdb; [|reflexivity].
  destruct (byEmail e w) as [x|] eqn:Hf; [reflexivity|].
  cbn [option_map]. rewrite create_table.
  destruct (schemaErrors (createInput (body req))) as [|m ms]; [|reflexivity].
  cbv zeta. cbn [dbUp emit users]. rewrite Hdb.
  change (ciPassword (createInput (body req)))
    with (Fields.get "password" (body req)).
  set (p := stored "password" (Fields.get "password" (body req))).
  assert (Hu : newUser (emit (EvFindOne (Some (JStr e))) w)
                       (createInput (body req))
                       (digestOf (emit (EvFindOne (Some (JStr e))) w) p)
               = newUser w (createInput (body req)) (digestOf w p))
    by reflexivity.
  rewrite Hu.
  set (u := newUser w (createInput (body req)) (digestOf w p)).
  assert (Hem : User.email u = emailSetters e).
  { unfold u, newUser, construct, createInput, stored.
    cbn [this User.withPassword User.email ciEmail].
    rewrite He. reflexivity. }
  rewrite Hem.
  unfold byEmail in Hf. rewrite (find_none_existsb _ _ Hf).
  rewrite generateToken_run. unfold registered.
  cbn [env clock emit setUsers hashedAndInserted bumpEntropy bumpId].
  destruct (jwt_sign (User._id u) (JWT_SECRET (env w)) (JWT_EXPIRE (env w))
                     (clock w)); reflexivity.
Qed.

(** The body the register chains hand to the controller, field by
    field, when the fields are strings. *)
Lemma register_body (today : Date) (b : Body) :
  stringsAt registerPaths b = true ->
  createInput (snd (runChains today registerValidation b)) = sanitizedInput b
  /\ Fields.get "email" (snd (runChains today registerValidation b))
     = Some (JStr (registeredEmail b)).
Proof.
  intros Hs.
  assert (Hp : forall k, In k registerPaths -> plain (Fields.get k b) = true)
    by (intros k; apply stringsAt_plain; exact Hs).
  destruct (registerValidation_values today b)
    as (H0 & H1 & H3 & H5 & H6 & H7 & H8 & H2 & H4 & H9).
  cbv zeta in H0, H1, H3, H5, H6, H7, H8.
  rewrite sanitize_plain in H0 by (apply Hp; cbn; tauto).
  rewrite (sanitize_plain JsString.trim) in H1 by (apply Hp; cbn; tauto).
  rewrite sanitize_plain in H3 by (apply Hp; cbn; tauto).
  rewrite sanitize_plain in H5 by (apply Hp; cbn; tauto).
  rewrite sanitize_plain in H6 by (apply Hp; cbn; tauto).
  rewrite sanitize_plain in H7 by (apply Hp; cbn; tauto).
  rewrite sanitize_plain in H8 by (apply Hp; cbn; tauto).
  cbn [sanitize] in H1.
  unfold createInput, sanitizedInput, registeredEmail, field.
  rewrite H0, H1, H2, H3, H4, H5, H6, H7, H8, H9.
  split; reflexivity.
Qed.

End RegisterFacts.

(* ================================================================== *)
(** ** The routes behind their validation *)

Section RouteFacts.

Context {L : Libs}.

Lemma isEmpty_true (l : list FieldError) : isEmpty l = true -> l = [].
Proof. destruct l; [reflexivity | discriminate]. Qed.

Lemma isEmpty_false (l : list FieldError) : isEmpty l = false -> l <> [].
Proof. destruct l; [discriminate | intros _ E; discriminate E]. Qed.

Lemma field_some (k : string) (b : Body) :
  JsString.truthy (field k b) = true ->
  Fields.get k b = Some (JStr (field k b)).
Proof.
  unfold field, text.
  destruct (Fields.get k b) as [[| | |s| |]|]; try discriminate.
  reflexivity.
Qed.

Lemma trim_truthy (s : string) :
  JsString.truthy (JsString.trim s) = true -> JsString.truthy s = true.
Proof. destruct s; [discriminate | reflexivity]. Qed.

(** A route runs its chains, then its controller on the sanitized body
    with the chains' errors. *)
Lemma validate_then (chains : list Chain) (req : Request) (w : World)
      (controller : Request -> M Response) :
  bind (validate chains req) controller w
  = controller
      (mkRequest (authorization req)
                 (snd (runChains (clock w) chains (body req)))
                 (user req)
                 (validationErrors req
                  ++ fst (runChains (clock w) chains (body req))))
      w.
Proof.
  unfold validate, bind, get, ret.
  destruct (runChains (clock w) chains (body req)) as [errs b'].
  reflexivity.
Qed.

Lemma registerUser_invalid (req : Request) (w : World) :
  validationErrors req <> [] ->
  registerUser req w = (Ret (validationFailed (validationErrors req)), w).
Proof.
  intros H. unfold registerUser, validationResult.
  destruct (validationErrors req); [contradiction|]. reflexivity.
Qed.

Lemma loginUser_invalid (req : Request) (w : World) :
  validationErrors req <> [] ->
  loginUser req w = (Ret (validationFailed (validationErrors req)), w).
Proof.
  intros H. unfold loginUser, validationResult.
  destruct (validationErrors req); [contradiction|]. reflexivity.
Qed.

(** A controller that is given no validation errors answers without
    an [errors] member. *)
Lemma registerUser_no_errors (req : Request) (w : World) :
  validationErrors req = [] ->
  exists resp w', registerUser req w = (Ret resp, w')
                  /\ Json.hasKey "errors" (json resp) = false.
Proof.
  intros Hv.
  destruct (registerUser_responses req w) as (resp & w' & E & C).
  exists resp, w'. split; [exact E|].
  destruct C as [[Hne _] | [_ [-> | [(t & u & -> & _) | (d & ->)]]]];
    try reflexivity.
  contradiction.
Qed.

Lemma loginUser_no_errors (req : Request) (w : World) :
  validationErrors req = [] ->
  exists resp w', loginUser req w = (Ret resp, w')
                  /\ Json.hasKey "errors" (json resp) = false.
Proof.
  intros Hv.
  destruct (loginUser_responses req w) as (resp & w' & E & C).
  exists resp, w'. split; [exact E|].
  destruct C
    as [[Hne _] | [_ [-> | [-> | [(t & u & -> & _) | (d & ->)]]]]];
    try reflexivity.
  contradiction.
Qed.

(** The register route on a request that meets its preconditions. *)
Lemma postRegister_valid (req : Request) (w : World) :
  validationErrors req = [] ->
  stringsAt registerPaths (body req) = true ->
  registerValid (clock w) (body req) = true ->
  postRegister req w =
    let b := body req in
    let e := registeredEmail b in
    let c := sanitizedInput b in
    let p := field "password" b in
    let w1 := emit (EvFindOne (Some (JStr e))) w in
    if dbUp w then
      match byEmail e w with
      | Some _ => (Ret conflict, w1)
      | None =>
          match schemaErrors c with
          | (_ :: _) as msgs =>
              (Ret (registrationFailed (errMessage (validationError msgs))),
               bumpId w1)
          | [] =>
              let u := newUser w c (digestOf w p) in
              (Ret (registered u w),
               emit (EvJwtSign (nextId w))
                 (setUsers (users w ++ [u])
                    (hashedAndInserted w1 p (emailSetters e))))
          end
      end
    else (Ret (registrationFailed (errMessage dbError)), w1).
Proof.
  intros Hv Hs Hok. unfold postRegister. rewrite validate_then.
  rewrite Hv. cbn [app].
  pose proof Hok as Herrs.
  rewrite <- (registerValidation_ok _ _ Hs) in Herrs.
  apply isEmpty_true in Herrs. rewrite Herrs.
  destruct (register_body (clock w) (body req) Hs) as [Hc He].
  rewrite (registerUser_table _ w (registeredEmail (body req)));
    [|reflexivity|exact He].
  cbn [body]. rewrite Hc. cbv zeta.
  assert (Hp : Fields.get "password" (body req)
               = Some (JStr (field "password" (body req)))).
  { apply field_some. unfold registerValid in Hok.
    repeat (apply andb_true_iff in Hok; destruct Hok as [Hok ?]).
    match goal with
    | H : (6 <=? _)%nat && _ = true |- _ =>
        apply andb_true_iff in H; destruct H as [H _];
        exact (length_truthy 5 _ H)
    end. }
  assert (Hpw : stored "password"
                  (Fields.get "password"
                     (snd (runChains (clock w) registerValidation (body req))))
                = field "password" (body req)).
  { destruct (registerValidation_values (clock w) (body req))
      as (_ & _ & _ & _ & _ & _ & _ & H2 & _).
    rewrite H2, Hp. reflexivity. }
  rewrite Hpw.
  destruct (dbUp w); [|reflexivity].
  destruct (byEmail (registeredEmail (body req)) w); [reflexivity|].
  destruct (schemaErrors (sanitizedInput (body req))); reflexivity.
Qed.

(** The login route on a request that meets its preconditions meets
    [validLogin]. *)
Lemma loginValid_validLogin (req : Request) :
  validationErrors req = [] ->
  loginValid (body req) = true ->
  validLogin req (field "email" (body req)) (field "password" (body req)).
Proof.
  intros Hv Hok. unfold loginValid in Hok.
  apply andb_true_iff in Hok. destruct Hok as [Hok Hp].
  apply andb_true_iff in Hok. destruct Hok as [Te Ie].
  repeat apply conj; try assumption.
  - apply field_some. exact (trim_truthy _ Te).
  - apply field_some. exact Hp.
Qed.

End RouteFacts.

Section RegisterTheorems.

Context {L : Libs}.

Lemma find_app_some {A} (f : A -> bool) (l : list A) (x : A) :
  f x = true -> exists y, find f (l ++ [x]) = Some y.
Proof.
  intros Hx. induction l as [|a l IH]; cbn [app find].
  - rewrite Hx. eexists. reflexivity.
  - destruct (f a); [eexists; reflexivity | exact IH].
Qed.

(** X1. A register request that arrives without errors is answered
    with the chains' errors, 400 and [{success: false, errors}], when
    they report any, and then the world is as it was: no lookup, no
    hashing, no insertion.  When they report none, the response
    carries no [errors].  On a body whose fields are strings they
    report none exactly when the preconditions of registration hold. *)
Theorem register_validation_gate (req : Request) (w : World) :
  validationErrors req = [] ->
  let errors := fst (runChains (clock w) registerValidation (body req)) in
  (errors <> [] -> postRegister req w = (Ret (validationFailed errors), w))
  /\ (errors = [] ->
      exists resp w', postRegister req w = (Ret resp, w')
                      /\ Json.hasKey "errors" (json resp) = false)
  /\ (stringsAt registerPaths (body req) = true ->
      (errors = [] <-> registerValid (clock w) (body req) = true)).
Proof.
  intros Hv. cbv zeta. split; [|split].
  - intros Hne. unfold postRegister. rewrite validate_then.
    rewrite Hv. cbn [app].
    rewrite registerUser_invalid; [reflexivity | exact Hne].
  - intros Hnil. unfold postRegister. rewrite validate_then.
    apply registerUser_no_errors. cbn [validationErrors].
    rewrite Hv, Hnil. reflexivity.
  - intros Hs. rewrite <- (registerValidation_ok _ _ Hs). split.
    + intros ->. reflexivity.
    + apply isEmpty_true.
Qed.

(** X2. The same for login: a request for which the chains report
    errors is answered 400 with them and nothing is looked up;
    otherwise the response carries no [errors].  On a body whose email
    and password are strings the chains report none exactly when the
    trimmed email is an email and the password is not empty. *)
Theorem login_validation_gate (req : Request) (w : World) :
  validationErrors req = [] ->
  let errors := fst (runChains (clock w) loginValidation (body req)) in
  (errors <> [] -> postLogin req w = (Ret (validationFailed errors), w))
  /\ (errors = [] ->
      exists resp w', postLogin req w = (Ret resp, w')
                      /\ Json.hasKey "errors" (json resp) = false)
  /\ (stringsAt loginPaths (body req) = true ->
      (errors = [] <-> loginValid (body req) = true)).
Proof.
  intros Hv. cbv zeta. split; [|split].
  - intros Hne. unfold postLogin. rewrite validate_then.
    rewrite Hv. cbn [app].
    rewrite loginUser_invalid; [reflexivity | exact Hne].
  - intros Hnil. unfold postLogin. rewrite validate_then.
    apply loginUser_no_errors. cbn [validationErrors].
    rewrite Hv, Hnil. reflexivity.
  - intros Hs. rewrite <- (loginValidation_ok (clock w) _ Hs). split.
    + intros ->. reflexivity.
    + apply isEmpty_true.
Qed.

(** X4. A registration whose fields are strings and meet the
    preconditions, with the database up, no user under its email and a
    document the schema accepts, appends one user to the collection:
    the next id, the trimmed name, phone and address, the normalized
    email in lowercase, the digest of the password as sent, the role of
    the body or customer, active.  The calls are, in order: the lookup
    by email, one salt, one hash of the plaintext, [next()], the
    insertion, the signature of a token for the new id.  The answer is
    201 with the token when [jwt.sign] returns one; when it throws, the
    answer is 500 and the user stays stored. *)
Theorem register_success (req : Request) (w : World) :
  validationErrors req = [] ->
  stringsAt registerPaths (body req) = true ->
  registerValid (clock w) (body req) = true ->
  dbUp w = true ->
  byEmail (registeredEmail (body req)) w = None ->
  schemaErrors (sanitizedInput (body req)) = [] ->
  let b := body req in
  let p := field "password" b in
  let trimmed (k : string) := JsString.trim (field k b) in
  exists u w',
    postRegister req w =
      (Ret (match jwt_sign (nextId w) (JWT_SECRET (env w))
                           (JWT_EXPIRE (env w)) (clock w) with
            | Ret token => registerSuccess token u
            | Throw err =>
                serverError "Server error during registration"
                            (errMessage err)
            end), w')
    /\ users w' = (users w ++ [u])%list
    /\ nextId w' = S (nextId w)
    /\ User._id u = nextId w
    /\ User.name u = trimmed "name"
    /\ User.email u = emailSetters (registeredEmail b)
    /\ User.password u
       = Some (bcrypt_hash p (bcrypt_genSalt 10 (entropy w)))
    /\ User.phone u = trimmed "phone"
    /\ User.address u
       = Address.mk (trimmed "address.street") (trimmed "address.city")
                    (trimmed "address.state") (trimmed "address.zipCode")
    /\ User.role u = (if JsString.truthy (field "role" b)
                      then field "role" b else "customer")
    /\ User.isActive u = true
    /\ User.commissionRate u = 0%Z
    /\ User.assignedCustomers u = []
    /\ User.createdAt u = clock w
    /\ log w' = ([EvJwtSign (nextId w);
                  EvInsert (emailSetters (registeredEmail b));
                  EvNext; EvHash (Some p); EvGenSalt 10;
                  EvFindOne (Some (JStr (registeredEmail b)))]
                 ++ log w)%list.
Proof.
  intros Hv Hs Hok Hdb Hnone Hschema. cbv zeta.
  rewrite (postRegister_valid req w Hv Hs Hok). cbv zeta.
  rewrite Hdb, Hnone, Hschema.
  do 2 eexists. split; [reflexivity|].
  assert (Hrole : stored "role"
                    (Some (Json.orElse (Fields.get "role" (body req))
                                       (JStr "customer")))
                  = if JsString.truthy (field "role" (body req))
                    then field "role" (body req) else "customer").
  { assert (Hp : plain (Fields.get "role" (body req)) = true)
      by (apply (stringsAt_plain registerPaths); [exact Hs | cbn; tauto]).
    unfold field.
    destruct (plain_cases _ Hp) as [-> | ->]; [reflexivity|].
    cbn [text Json.orElse Json.truthy].
    destruct (JsString.truthy (text (Fields.get "role" (body req))));
      reflexivity. }
  unfold newUser, construct, sanitizedInput, nameSetters, digestOf,
    hashedAndInserted.
  cbn [this User.withPassword User._id User.name User.email User.password
       User.phone User.address
       User.role User.isActive User.commissionRate User.assignedCustomers
       User.createdAt ciName ciEmail ciRole ciPassword ciPhone ciStreet
       ciCity ciState ciZipCode
       users nextId log emit setUsers bumpId bumpEntropy app].
  rewrite Hrole. unfold stored. cbn [castStr casted].
  rewrite TrimFacts.trim_trim. repeat apply conj; reflexivity.
Qed.

(** X5. After a registration answered 201, a second registration that
    meets the preconditions and whose email the store maps to the same
    address is answered 400 "User already exists with this email"; only
    the lookup by email takes place. *)
Theorem second_registration_conflicts
        (first second : Request) (w w1 : World) (resp : Response) :
  validationErrors first = [] ->
  stringsAt registerPaths (body first) = true ->
  registerValid (clock w) (body first) = true ->
  postRegister first w = (Ret resp, w1) ->
  status resp = 201%Z ->
  validationErrors second = [] ->
  stringsAt registerPaths (body second) = true ->
  registerValid (clock w) (body second) = true ->
  emailSetters (registeredEmail (body second))
  = emailSetters (registeredEmail (body first)) ->
  postRegister second w1 =
    (Ret conflict,
     emit (EvFindOne (Some (JStr (registeredEmail (body second))))) w1).
Proof.
  intros Hv1 Hs1 Hok1 H1 Hs Hv2 Hs2 Hok2 Hsame.
  rewrite (postRegister_valid first w Hv1 Hs1 Hok1) in H1. cbv zeta in H1.
  destruct (dbUp w) eqn:Hdb; [|injection H1 as <- _; discriminate Hs].
  destruct (byEmail (registeredEmail (body first)) w) eqn:Hnone;
    [injection H1 as <- _; discriminate Hs|].
  destruct (schemaErrors (sanitizedInput (body first)));
    [|injection H1 as <- _; discriminate Hs].
  injection H1 as _ <-.
  assert (Hclock : forall x y,
             clock (emit x (setUsers y
               (hashedAndInserted
                  (emit (EvFindOne (Some (JStr (registeredEmail
                                                  (body first))))) w)
                  (field "password" (body first))
                  (emailSetters (registeredEmail (body first))))))
             = clock w) by reflexivity.
  rewrite postRegister_valid;
    [|exact Hv2|exact Hs2|rewrite Hclock; exact Hok2].
  cbv zeta. cbn [dbUp emit setUsers]. unfold hashedAndInserted.
  cbn [dbUp emit bumpEntropy bumpId]. rewrite Hdb.
  unfold byEmail. cbn [users emit setUsers].
  destruct (find_app_some
              (fun u => String.eqb (User.email u)
                          (emailSetters (registeredEmail (body second))))
              (users w)
              (newUser w (sanitizedInput (body first))
                 (digestOf w (field "password" (body first)))))
    as [y Hy].
  { unfold newUser, construct, sanitizedInput, stored.
    cbn [this User.withPassword User.email ciEmail castStr casted].
    rewrite Hsame. apply String.eqb_refl. }
  rewrite Hy. reflexivity.
Qed.

(** X6. When the fields are strings that meet the preconditions and
    the email is free but the schema rejects the document, the answer
    is 500 "Server error during registration" with the schema's
    messages as detail; nothing was hashed or inserted and the
    collection is as it was. *)
Theorem register_schema_rejection (req : Request) (w : World)
        (m : string) (ms : list string) :
  validationErrors req = [] ->
  stringsAt registerPaths (body req) = true ->
  registerValid (clock w) (body req) = true ->
  dbUp w = true ->
  byEmail (registeredEmail (body req)) w = None ->
  schemaErrors (sanitizedInput (body req)) = m :: ms ->
  exists w',
    postRegister req w =
      (Ret (serverError "Server error during registration"
              ("User validation failed: " ++ String.concat ", " (m :: ms))),
       w')
    /\ users w' = users w
    /\ log w' = EvFindOne (Some (JStr (registeredEmail (body req))))
                :: log w.
Proof.
  intros Hv Hs Hok Hdb Hnone Hschema.
  rewrite (postRegister_valid req w Hv Hs Hok). cbv zeta.
  rewrite Hdb, Hnone, Hschema.
  eexists. repeat apply conj; reflexivity.
Qed.

End RegisterTheorems.
(* ================================================================== *)
(** ** What the routes do to the store *)

Section StoreFacts.

Context {L : Libs}.

Lemma sameStore_refl (w : World) : sameStore w w.
Proof. unfold sameStore. repeat apply conj; reflexivity. Qed.

Lemma sameStore_trans (w1 w2 w3 : World) :
  sameStore w1 w2 -> sameStore w2 w3 -> sameStore w1 w3.
Proof.
  unfold sameStore. intros (A1 & A2 & A3 & A4 & A5 & A6)
                           (B1 & B2 & B3 & B4 & B5 & B6).
  repeat apply conj; congruence.
Qed.

Lemma sameStore_emit (e : Event) (w : World) : sameStore w (emit e w).
Proof. unfold sameStore. repeat apply conj; reflexivity. Qed.

Ltac same_store :=
  unfold respond, ret, throw; cbn [snd]; unfold sameStore;
  cbn [emit env users dbUp clock nextId entropy];
  repeat apply conj; reflexivity.

Lemma loginUser_store (req : Request) (w : World) :
  sameStore w (snd (loginUser req w)).
Proof.
  unfold loginUser, validationResult.
  destruct (validationErrors req); cbn [isEmpty negb];
    [|unfold tryCatch; same_store].
  destruct (findOne_cases (Fields.get "email" (body req)) true w)
    as (o & Ho & _).
  unfold tryCatch, bind. rewrite Ho.
  destruct o as [[u|]|err]; try same_store.
  destruct (User.isActive u); cbn [negb]; [|same_store].
  unfold comparePassword, bind, tell.
  destruct (Fields.get "password" (body req)) as [[| | |p| |]|],
    (User.password u) as [digest|];
    try same_store.
  unfold ret at 1.
  destruct (bcrypt_compare p digest); cbn [negb]; [|same_store].
  rewrite generateToken_run.
  destruct (jwt_sign _ _ _ _); same_store.
Qed.

Lemma getMe_store (req : Request) (w : World) :
  sameStore w (snd (getMe req w)).
Proof.
  unfold getMe. run.
  destruct (user req); [|same_store].
  destruct (dbUp w) eqn:Hdb; [|same_store].
  destruct (find _ (users w)); cbn [option_map]; same_store.
Qed.

Lemma protect_store (req : Request) (w : World) :
  sameStore w (snd (protect req w)).
Proof.
  destruct (JsString.truthyOpt (bearerToken (authorization req))) eqn:Ht.
  - destruct (bearerToken (authorization req)) as [t|] eqn:Hb;
      [|discriminate].
    cbn [JsString.truthyOpt] in Ht.
    rewrite (protect_with_token req w t Hb Ht). cbv zeta.
    destruct (jwt_verify t _ _); [|same_store].
    destruct (dbUp w) eqn:Hdb; [|same_store].
    destruct (byId _ w) as [u|]; [|same_store].
    destruct (User.isActive u); same_store.
  - rewrite (protect_no_token req w Ht). apply sameStore_refl.
Qed.

Lemma getMeRoute_store (req : Request) (w : World) :
  sameStore w (snd (getMeRoute req w)).
Proof.
  unfold getMeRoute, behindProtect, bind.
  pose proof (protect_store req w) as Hp.
  destruct (protect req w) as [[[resp | req'] | e] w1]; cbn [snd] in Hp.
  - exact Hp.
  - exact (sameStore_trans _ _ _ Hp (getMe_store req' w1)).
  - exact Hp.
Qed.

Lemma postLogin_store (req : Request) (w : World) :
  sameStore w (snd (postLogin req w)).
Proof.
  unfold postLogin. rewrite validate_then. apply loginUser_store.
Qed.

(** What [User.create] does to the store: the next id advances; the
    collection is as it was, or has one more user, with the id that was
    next, an email in the form of the setters that no stored user had,
    and a digest. *)
Lemma create_store (c : CreateInput) (w : World) :
  let w' := snd (create c w) in
  env w' = env w /\ dbUp w' = dbUp w /\ clock w' = clock w
  /\ nextId w' = S (nextId w)
  /\ (users w' = users w
      \/ exists u, users w' = (users w ++ [u])%list
                   /\ User._id u = nextId w
                   /\ emailSetters (User.email u) = User.email u
                   /\ User.password u <> None
                   /\ ~ In (User.email u) (map User.email (users w))).
Proof.
  cbv zeta. rewrite create_table.
  destruct (schemaErrors c);
    [|cbn [snd]; repeat apply conj; try reflexivity; left; reflexivity].
  cbv zeta. destruct (dbUp w) eqn:Hdb;
    [|cbn [snd]; repeat apply conj; try reflexivity; try exact Hdb;
      left; reflexivity].
  destruct (existsb _ (users w)) eqn:Hex;
    [cbn [snd]; repeat apply conj; try reflexivity; try exact Hdb;
     left; reflexivity|].
  cbn [snd]. repeat apply conj; try reflexivity; try exact Hdb.
  right. eexists. split; [reflexivity|].
  unfold newUser, construct.
  cbn [this User.withPassword User._id User.email User.password].
  repeat apply conj.
  - reflexivity.
  - apply TrimFacts.emailSetters_idempotent.
  - discriminate.
  - intros Hin. apply in_map_iff in Hin. destruct Hin as (v & Hv & Hin).
    assert (Ht : existsb
                   (fun v0 => String.eqb (User.email v0)
                                (emailSetters (stored "email" (ciEmail c))))
                   (users w) = true).
    { apply existsb_exists. exists v. split; [exact Hin|].
      rewrite Hv. apply String.eqb_refl. }
    unfold newUser, construct in Hex.
    cbn [this User.withPassword User.email] in Hex.
    rewrite Hex in Ht. discriminate Ht.
Qed.

Lemma registerUser_store (req : Request) (w : World) :
  let w' := snd (registerUser req w) in
  env w' = env w /\ dbUp w' = dbUp w /\ clock w' = clock w
  /\ (nextId w <= nextId w')%nat
  /\ (users w' = users w
      \/ exists u, users w' = (users w ++ [u])%list
                   /\ User._id u = nextId w
                   /\ nextId w' = S (nextId w)
                   /\ emailSetters (User.email u) = User.email u
                   /\ User.password u <> None
                   /\ ~ In (User.email u) (map User.email (users w))).
Proof.
  cbv zeta.
  assert (Hunchanged :
            forall e, let w' := emit e w in
              env w' = env w /\ dbUp w' = dbUp w /\ clock w' = clock w
              /\ (nextId w <= nextId w')%nat
              /\ (users w' = users w
                  \/ exists u, users w' = (users w ++ [u])%list
                               /\ User._id u = nextId w
                               /\ nextId w' = S (nextId w)
                               /\ emailSetters (User.email u) = User.email u
                               /\ User.password u <> None
                               /\ ~ In (User.email u)
                                       (map User.email (users w)))).
  { intros e. cbv zeta. cbn [emit env dbUp clock nextId users].
    repeat apply conj; try reflexivity; try lia.
    left; reflexivity. }
  unfold registerUser, validationResult.
  destruct (validationErrors req); cbn [isEmpty negb].
  2:{ unfold tryCatch, respond, ret. cbn [snd].
      repeat apply conj; try reflexivity; try lia. left; reflexivity. }
  destruct (findOne_cases (Fields.get "email" (body req)) false w)
    as (o & Ho & _).
  unfold tryCatch, bind. rewrite Ho.
  destruct o as [[x|]|err];
    try (unfold respond, ret; cbn [snd]; apply Hunchanged).
  match goal with
  | |- context [create ?c ?w1] =>
      destruct (create_store c w1) as (H1 & H2 & H3 & H4 & H5);
      cbn [env dbUp clock nextId users emit] in H1, H2, H3, H4, H5;
      destruct (create c w1) as [[a|err] w2]
  end.
  - rewrite generateToken_run.
    destruct (jwt_sign _ _ _ _);
      unfold respond, ret; cbn [snd] in *;
      cbn [env dbUp clock nextId users emit];
      (repeat apply conj; [exact H1 | exact H2 | exact H3 | lia |]);
      (destruct H5 as [H5 | (u & Hu & Hid & Hem & Hpw & Hnew)];
       [left; exact H5
       |right; exists u; repeat apply conj; assumption]).
  - unfold respond, ret; cbn [snd] in *;
      cbn [env dbUp clock nextId users emit];
      (repeat apply conj; [exact H1 | exact H2 | exact H3 | lia |]);
      (destruct H5 as [H5 | (u & Hu & Hid & Hem & Hpw & Hnew)];
       [left; exact H5
       |right; exists u; repeat apply conj; assumption]).
Qed.

Lemma postRegister_store (req : Request) (w : World) :
  let w' := snd (postRegister req w) in
  env w' = env w /\ dbUp w' = dbUp w /\ clock w' = clock w
  /\ (nextId w <= nextId w')%nat
  /\ (users w' = users w
      \/ exists u, users w' = (users w ++ [u])%list
                   /\ User._id u = nextId w
                   /\ nextId w' = S (nextId w)
                   /\ emailSetters (User.email u) = User.email u
                   /\ User.password u <> None
                   /\ ~ In (User.email u) (map User.email (users w))).
Proof.
  unfold postRegister. rewrite validate_then. apply registerUser_store.
Qed.

End StoreFacts.

Section StoreTheorems.

Context {L : Libs}.

Lemma NoDup_snoc {A} (l : list A) (x : A) :
  NoDup l -> ~ In x l -> NoDup (l ++ [x]).
Proof.
  induction l as [|a l IH]; intros Hnd Hx; cbn [app].
  - constructor; [intros [] | constructor].
  - inversion Hnd as [|? ? Ha Hl]; subst. constructor.
    + intros Hin. apply in_app_or in Hin. destruct Hin as [Hin | [<- | []]].
      * exact (Ha Hin).
      * apply Hx. left. reflexivity.
    + apply IH; [exact Hl|]. intros Hin. apply Hx. right. exact Hin.
Qed.

Lemma storeInvariant_same (w w' : World) :
  users w' = users w -> (nextId w <= nextId w')%nat ->
  storeInvariant w -> storeInvariant w'.
Proof.
  unfold storeInvariant. intros Hu Hn (He & Hi & Hall). rewrite Hu.
  repeat apply conj; try assumption.
  intros u Hin. destruct (Hall u Hin) as (H1 & H2 & H3).
  repeat apply conj; try assumption. lia.
Qed.

Lemma storeInvariant_append (w w' : World) (u : User.t) :
  users w' = (users w ++ [u])%list ->
  User._id u = nextId w ->
  nextId w' = S (nextId w) ->
  emailSetters (User.email u) = User.email u ->
  User.password u <> None ->
  ~ In (User.email u) (map User.email (users w)) ->
  storeInvariant w -> storeInvariant w'.
Proof.
  unfold storeInvariant.
  intros Hu Hid Hn Hem Hpw Hnew (He & Hi & Hall). rewrite Hu, !map_app.
  cbn [map]. repeat apply conj.
  - apply NoDup_snoc; assumption.
  - apply NoDup_snoc; [assumption|]. intros Hin.
    apply in_map_iff in Hin. destruct Hin as (v & Hv & Hin).
    destruct (Hall v Hin) as (Hlt & _). lia.
  - intros v Hin. apply in_app_or in Hin.
    destruct Hin as [Hin | [<- | []]].
    + destruct (Hall v Hin) as (H1 & H2 & H3).
      repeat apply conj; try assumption. lia.
    + repeat apply conj; try assumption. lia.
Qed.

Lemma happen_invariant (w : World) (h : Happening) :
  storeInvariant w -> storeInvariant (happen w h).
Proof.
  intros Hinv. destruct h as [ep req | now | up]; cbn [happen].
  - destruct ep; cbn [serve].
    + exact Hinv.
    + destruct (postRegister_store req w)
        as (_ & _ & _ & Hn & [Hu | (u & Hu & Hid & Hn' & Hem & Hpw & Hnew)]).
      * exact (storeInvariant_same _ _ Hu Hn Hinv).
      * exact (storeInvariant_append _ _ u Hu Hid Hn' Hem Hpw Hnew Hinv).
    + destruct (postLogin_store req w) as (_ & Hu & _ & _ & Hn & _).
      apply (storeInvariant_same w); [exact Hu | lia | exact Hinv].
    + destruct (getMeRoute_store req w) as (_ & Hu & _ & _ & Hn & _).
      apply (storeInvariant_same w); [exact Hu | lia | exact Hinv].
  - exact Hinv.
  - exact Hinv.
Qed.

(** X7. The test route, the login route and the profile route leave
    the environment, the collection, the next id and the random source
    as they were, for every request: they only make calls.  The
    register route leaves environment, clock and database state as they
    were and adds at most one user, after those stored. *)
Theorem routes_and_the_store (req : Request) (w : World) :
  sameStore w (snd (serve GetRoot req w))
  /\ sameStore w (snd (serve PostLogin req w))
  /\ sameStore w (snd (serve GetMe req w))
  /\ (let w' := snd (serve PostRegister req w) in
      env w' = env w /\ dbUp w' = dbUp w /\ clock w' = clock w
      /\ exists new, users w' = (users w ++ new)%list
                     /\ (List.length new <= 1)%nat).
Proof.
  split; [|split; [|split]].
  - apply sameStore_refl.
  - apply postLogin_store.
  - apply getMeRoute_store.
  - cbv zeta. cbn [serve].
    destruct (postRegister_store req w)
      as (He & Hd & Hc & _ & [Hu | (u & Hu & _)]);
      (split; [exact He|]); (split; [exact Hd|]); (split; [exact Hc|]).
    + exists []. rewrite app_nil_r. split; [exact Hu | cbn; lia].
    + exists [u]. split; [exact Hu | cbn; lia].
Qed.

(** X8. Whatever requests arrive at the four routes, and however the
    clock and the availability of the database change in between, the
    store keeps this true: no two users share an email, no two share an
    id, every id is below the next id, every stored email is in
    lowercase and trimmed, every user has a digest. *)
Theorem store_invariant_kept (hs : list Happening) (w : World) :
  storeInvariant w -> storeInvariant (history hs w).
Proof.
  unfold history. revert w. induction hs as [|h hs IH]; intros w Hinv.
  - exact Hinv.
  - cbn [fold_left]. apply IH. apply happen_invariant. exact Hinv.
Qed.

End StoreTheorems.

(* ================================================================== *)
(** ** The middlewares and the profile route *)

Section MiddlewareTheorems.

Context {L : Libs}.

Lemma existsb_In (x : string) (l : list string) :
  existsb (String.eqb x) l = true <-> In x l.
Proof.
  rewrite existsb_exists. split.
  - intros (y & Hin & E). apply String.eqb_eq in E. subst y. exact Hin.
  - intros Hin. exists x. split; [exact Hin | apply String.eqb_refl].
Qed.

(** X9. [authorize(...roles)] on a request with a user attached calls
    [next()], passing the request on unchanged, when the user's role is
    among the roles, and otherwise answers 403 with a message that
    names the role; with no user attached it throws a TypeError.  With
    no role allowed every user is refused. *)
Theorem authorize_decides (roles : list string) (req : Request) (w : World) :
  (forall u, user req = Some u ->
     (In (User.role u) roles ->
      authorize roles req w = (Ret (Proceed req), emit EvNext w))
     /\ (~ In (User.role u) roles ->
         authorize roles req w
         = (Ret (Responded (forbidden (User.role u))), w))
     /\ authorize [] req w = (Ret (Responded (forbidden (User.role u))), w))
  /\ (user req = None ->
      authorize roles req w = (Throw (typeError "role"), w)).
Proof.
  split.
  - intros u Hu. unfold authorize. rewrite Hu. repeat apply conj.
    + intros Hin. apply existsb_In in Hin. rewrite Hin. reflexivity.
    + intros Hnot.
      destruct (existsb (String.eqb (User.role u)) roles) eqn:E.
      * apply existsb_In in E. contradiction.
      * reflexivity.
    + reflexivity.
  - intros Hu. unfold authorize. rewrite Hu. reflexivity.
Qed.

(** X10. [protect] calls [next()] only for a request whose header
    carries a token that the verifier accepts and whose id is that of a
    stored, active user.  The user it attaches is the stored one
    without the digest, so that [authorize] behind it never throws and
    decides by the role stored at the time of the request. *)
Theorem protect_proceeds_only_if (roles : list string)
        (req req' : Request) (w w' : World) :
  protect req w = (Ret (Proceed req'), w') ->
  exists t id u,
    bearerToken (authorization req) = Some t
    /\ t <> ""
    /\ jwt_verify t (JWT_SECRET (env w)) (clock w) = JwtOk id
    /\ dbUp w = true
    /\ byId id w = Some u
    /\ User.isActive u = true
    /\ req' = setUser (User.withPassword None u) req
    /\ w' = emit EvNext (emit (EvFindById id) (emit (EvJwtVerify t) w))
    /\ authorize roles req' w'
       = if existsb (String.eqb (User.role u)) roles
         then (Ret (Proceed req'), emit EvNext w')
         else (Ret (Responded (forbidden (User.role u))), w').
Proof.
  intros H.
  destruct (JsString.truthyOpt (bearerToken (authorization req))) eqn:Ht.
  2:{ rewrite (protect_no_token req w Ht) in H. discriminate H. }
  destruct (bearerToken (authorization req)) as [t|] eqn:Hb; [|discriminate].
  cbn [JsString.truthyOpt] in Ht.
  rewrite (protect_with_token req w t Hb Ht) in H. cbv zeta in H.
  destruct (jwt_verify t _ _) as [id|e] eqn:Hv.
  2:{ unfold caught in H.
      destruct (String.eqb (errName e) "JsonWebTokenError");
        [|destruct (String.eqb (errName e) "TokenExpiredError")];
        discriminate H. }
  destruct (dbUp w) eqn:Hdb.
  2:{ discriminate H. }
  destruct (byId id w) as [u|] eqn:Hu; [|discriminate H].
  destruct (User.isActive u) eqn:Ha; [|discriminate H].
  injection H as <- <-.
  exists t, id, u. repeat apply conj; try reflexivity; try assumption.
  - intros ->. discriminate Ht.
  - unfold authorize, setUser. cbn [user User.role User.withPassword].
    unfold project. cbn [User.role User.withPassword].
    destruct (existsb (String.eqb (User.role u)) roles); reflexivity.
Qed.

(** X11. The error middleware answers with the error's [statusCode],
    or 500 when it is missing or zero, [success: false] and the error's
    message, or "Server Error" when it is empty.  The stack is part of
    the body exactly when [NODE_ENV] is [development] and the error has
    one; the world is as it was. *)
Theorem errorHandler_answers (err : JsError) (w : World) :
  exists resp,
    errorHandler err w = (Ret resp, w)
    /\ status resp = match statusCode err with
                     | Some c => if (c =? 0)%Z then 500%Z else c
                     | None => 500%Z
                     end
    /\ Json.field "success" (json resp) = Some (JBool false)
    /\ Json.field "message" (json resp)
       = Some (JStr (if JsString.truthy (errMessage err)
                     then errMessage err else "Server Error"))
    /\ (Json.field "stack" (json resp)
        = match errStack err with
          | Some s =>
              if String.eqb (JsString.orElse (NODE_ENV (env w)) "")
                            "development"
              then Some (JStr s) else None
          | None => None
          end)
    /\ Json.keys (json resp)
       = (["success"; "message"]
          ++ match Json.field "stack" (json resp) with
             | Some _ => ["stack"]
             | None => []
             end)%list.
Proof.
  unfold errorHandler. run. eexists. split; [reflexivity|].
  cbn [status json]. unfold Json.obj. cbn [flat_map fst snd app].
  destruct (NODE_ENV (env w)) as [mode|]; cbn [JsString.orElse].
  - destruct mode as [|c mode'] eqn:Em; cbn [JsString.truthy].
    + destruct (errStack err); repeat apply conj; reflexivity.
    + destruct (String.eqb (String c mode') "development"),
               (errStack err); repeat apply conj; reflexivity.
  - destruct (errStack err); repeat apply conj; reflexivity.
Qed.

Lemma find_id (id : ObjectId) (l : list User.t) (u : User.t) :
  find (fun v => Nat.eqb (User._id v) id) l = Some u -> User._id u = id.
Proof.
  intros H. apply find_some in H. destruct H as [_ H].
  apply Nat.eqb_eq in H. exact H.
Qed.

(** The profile route on a request that carries a token, unfolded into
    the decisions it takes. *)
Lemma getMeRoute_table (req : Request) (w : World) (t : string) :
  bearerToken (authorization req) = Some t ->
  JsString.truthy t = true ->
  getMeRoute req w =
    let w1 := emit (EvJwtVerify t) w in
    match jwt_verify t (JWT_SECRET (env w)) (clock w) with
    | JwtThrow e => (Ret (caught e), w1)
    | JwtOk id =>
        let w2 := emit (EvFindById id) w1 in
        if dbUp w then
          match byId id w with
          | None => (Ret (unauthorized "User not found"), w2)
          | Some u =>
              if User.isActive u
              then (Ret (profileSuccess u),
                    emit (EvFindById id) (emit EvNext w2))
              else (Ret (unauthorized "Account is deactivated"), w2)
          end
        else (Ret (caught dbError), w2)
    end.
Proof.
  intros Ht Htruthy.
  unfold getMeRoute, behindProtect. unfold bind at 1.
  rewrite (protect_with_token req w t Ht Htruthy). cbv zeta.
  destruct (jwt_verify t _ _) as [id|e]; [|reflexivity].
  destruct (dbUp w) eqn:Hdb; [|reflexivity].
  destruct (byId id w) as [u|] eqn:Hu; [|reflexivity].
  destruct (User.isActive u); [|reflexivity].
  unfold getMe. run. unfold setUser. cbn [user].
  unfold project, User.id. cbn [User._id User.withPassword].
  cbn [emit dbUp users]. rewrite Hdb. unfold byId in Hu.
  rewrite (find_id id _ u Hu). rewrite Hu. reflexivity.
Qed.

(** X12. A request with the header [Bearer <token>] whose token the
    verifier accepts for a stored, active user is answered 200 with
    that user's profile.  The calls are, in order: the verification,
    the lookup by id of [protect], [next()], and the lookup by id of
    [getMe]. *)
Theorem profile_with_valid_token
        (req : Request) (w : World) (t : string) (u : User.t) :
  authorization req = Some ("Bearer " ++ t) ->
  JsString.contains " " t = false ->
  t <> "" ->
  jwt_verify t (JWT_SECRET (env w)) (clock w) = JwtOk (User._id u) ->
  dbUp w = true ->
  byId (User._id u) w = Some u ->
  User.isActive u = true ->
  getMeRoute req w =
    (Ret (profileSuccess u),
     emit (EvFindById (User._id u))
       (emit EvNext
          (emit (EvFindById (User._id u)) (emit (EvJwtVerify t) w)))).
Proof.
  intros Hh Hsp Hne Hv Hdb Hu Ha.
  assert (Ht : bearerToken (authorization req) = Some t).
  { rewrite Hh. exact (bearerToken_bearer t Hsp). }
  rewrite (getMeRoute_table req w t Ht (StringFacts.truthy_neq t Hne)).
  cbv zeta. rewrite Hv, Hdb, Hu, Ha. reflexivity.
Qed.

Lemma find_unique_id (l : list User.t) (u : User.t) :
  NoDup (map User._id l) -> In u l ->
  find (fun v => Nat.eqb (User._id v) (User._id u)) l = Some u.
Proof.
  induction l as [|a l IH]; intros Hnd Hin; [contradiction|].
  cbn [map] in Hnd. inversion Hnd as [|? ? Ha Hl]; subst.
  cbn [find]. destruct Hin as [-> | Hin].
  - rewrite Nat.eqb_refl. reflexivity.
  - destruct (Nat.eqb (User._id a) (User._id u)) eqn:E.
    + exfalso. apply Nat.eqb_eq in E. apply Ha. rewrite E.
      apply in_map. exact Hin.
    + exact (IH Hl Hin).
Qed.

(** X13. Login, then profile.  A login that meets the preconditions,
    for an active user whose digest verifies the password, is answered
    200 with the summary of that user and the token [jwt.sign] returns
    for the user's id, after the lookup by email, the comparison and
    the signature.  If the verifier accepts that token and ids are
    unique in the collection, a request with the header
    [Bearer <token>] is answered with the profile of the same user. *)
Theorem login_then_profile
        (login req : Request) (w : World) (e p digest token : string)
        (u : User.t) :
  validLogin login e p ->
  dbUp w = true ->
  byEmail (JsString.trim e) w = Some u ->
  User.isActive u = true ->
  User.password u = Some digest ->
  bcrypt_compare p digest = true ->
  NoDup (map User._id (users w)) ->
  jwt_sign (User._id u) (JWT_SECRET (env w)) (JWT_EXPIRE (env w)) (clock w)
  = Ret token ->
  jwt_verify token (JWT_SECRET (env w)) (clock w) = JwtOk (User._id u) ->
  JsString.contains " " token = false ->
  token <> "" ->
  authorization req = Some ("Bearer " ++ token) ->
  exists w1,
    postLogin login w = (Ret (loginSuccess token u), w1)
    /\ log w1 = ([EvJwtSign (User._id u); EvCompare (Some (JStr p));
                  EvFindOne (Some (JStr (JsString.trim e)))] ++ log w)%list
    /\ fst (getMeRoute req w1) = Ret (profileSuccess u).
Proof.
  intros V Hdb Hf Ha Hp Hc Hnd Hsign Hv Hsp Hne Hh.
  rewrite (postLogin_valid login w e p V). cbv zeta.
  rewrite Hdb, Hf, Ha, Hp, Hc. unfold signedIn.
  cbn [env clock emit]. rewrite Hsign.
  eexists. split; [reflexivity|]. split; [reflexivity|].
  assert (Ht : bearerToken (authorization req) = Some token).
  { rewrite Hh. exact (bearerToken_bearer token Hsp). }
  rewrite (getMeRoute_table req _ token Ht
             (StringFacts.truthy_neq token Hne)).
  cbv zeta. cbn [env clock dbUp emit]. rewrite Hv, Hdb.
  assert (Hid : byId (User._id u)
                  (emit (EvJwtSign (User._id u))
                     (emit (EvCompare (Some (JStr p)))
                        (emit (EvFindOne (Some (JStr (JsString.trim e))))
                              w)))
                = Some u).
  { unfold byId. cbn [users emit]. apply find_unique_id; [exact Hnd|].
    unfold byEmail in Hf. apply find_some in Hf. exact (proj1 Hf). }
  rewrite Hid, Ha. reflexivity.
Qed.

(** X14. With the database unreachable, each route answers a request
    that passes its validation or carries a verified token 500 with its
    own message and the error's message as detail, after its first call
    to the store: "Server error during registration", "Server error
    during login", "Server error in authentication". *)
Theorem database_down (req : Request) (w : World) :
  dbUp w = false ->
  validationErrors req = [] ->
  (stringsAt registerPaths (body req) = true ->
   registerValid (clock w) (body req) = true ->
   postRegister req w =
     (Ret (serverError "Server error during registration"
                       (errMessage dbError)),
      emit (EvFindOne (Some (JStr (registeredEmail (body req))))) w))
  /\ (loginValid (body req) = true ->
      postLogin req w =
        (Ret (serverError "Server error during login" (errMessage dbError)),
         emit (EvFindOne
                 (Some (JStr (JsString.trim (field "email" (body req))))))
              w))
  /\ (forall t id,
        bearerToken (authorization req) = Some t -> t <> "" ->
        jwt_verify t (JWT_SECRET (env w)) (clock w) = JwtOk id ->
        getMeRoute req w =
          (Ret (serverError "Server error in authentication"
                            (errMessage dbError)),
           emit (EvFindById id) (emit (EvJwtVerify t) w))).
Proof.
  intros Hdb Hv. repeat apply conj.
  - intros Hs Hok. rewrite (postRegister_valid req w Hv Hs Hok). cbv zeta.
    rewrite Hdb. reflexivity.
  - intros Hok.
    rewrite (postLogin_valid req w _ _ (loginValid_validLogin req Hv Hok)).
    cbv zeta. rewrite Hdb. reflexivity.
  - intros t id Ht Hne Hver.
    rewrite (getMeRoute_table req w t Ht (StringFacts.truthy_neq t Hne)).
    cbv zeta. rewrite Hver, Hdb. reflexivity.
Qed.

End MiddlewareTheorems.

(* ================================================================== *)
(** ** The schema behind the route's validation *)

Section SchemaTheorems.

Context {L : Libs}.

(** The role [registerUser] passes on, for a role that is a string of
    the enumeration or was not sent, is in the enumeration. *)
Lemma role_in_enum (v : option JSON) :
  plain v = true ->
  match v with
  | None => true
  | Some _ => isIn ["customer"; "agent"; "admin"] (text v)
  end = true ->
  exists r, Json.orElse v (JStr "customer") = JStr r
            /\ existsb (String.eqb r) ["customer"; "agent"; "admin"] = true.
Proof.
  intros Hp H. destruct (plain_cases v Hp) as [-> | E].
  - exists "customer". split; reflexivity.
  - rewrite E in H |- *. cbn [text] in H. cbn [Json.orElse Json.truthy].
    destruct (JsString.truthy (text v)).
    + exists (text v). split; [reflexivity | exact H].
    + exists "customer". split; reflexivity.
Qed.

(** X15. For a body whose fields are strings that meet the
    preconditions of registration, the schema accepts the document
    built from it exactly when the stored form of the email is not
    empty and matches the schema's pattern and the date of birth casts
    to a date: the other rules of the schema (name, password and phone
    required, password length, phone pattern, address fields required,
    role of the enumeration) are implied by the route's validation. *)
Theorem schema_after_validation (today : Date) (b : Body) :
  stringsAt registerPaths b = true ->
  registerValid today b = true ->
  let email := emailSetters (registeredEmail b) in
  schemaErrors (sanitizedInput b) = []
  <-> (JsString.truthy email = true
       /\ Regex.matches emailPattern email = true
       /\ castDate (JStr (field "dateOfBirth" b)) <> None).
Proof.
  intros Hs Hok. cbv zeta. unfold registerValid in Hok.
  repeat (apply andb_true_iff in Hok; destruct Hok as [Hok ?]).
  repeat match goal with
         | H : _ && _ = true |- _ =>
             apply andb_true_iff in H; destruct H
         end.
  assert (Hrole : exists r,
             Json.orElse (Fields.get "role" b) (JStr "customer") = JStr r
             /\ existsb (String.eqb r) ["customer"; "agent"; "admin"]
                = true).
  { apply role_in_enum; [|assumption].
    apply (stringsAt_plain registerPaths); [exact Hs | cbn; tauto]. }
  destruct Hrole as (r & Hr & Hin).
  assert (Hpw : Fields.get "password" b = Some (JStr (field "password" b)))
    by (apply field_some; exact (length_truthy 5 _ ltac:(eassumption))).
  assert (Hdob : Fields.get "dateOfBirth" b
                 = Some (JStr (field "dateOfBirth" b)))
    by (apply field_some; assumption).
  unfold schemaErrors, sanitizedInput, registeredEmail.
  cbn [ciName ciEmail ciPassword ciPhone ciDateOfBirth ciStreet ciCity
       ciState ciZipCode ciRole].
  rewrite Hr, Hpw, Hdob.
  unfold required, check, nameSetters, noSetter, noRule.
  cbn [castStr]. rewrite TrimFacts.trim_trim.
  rewrite (length_truthy 1 (JsString.trim (field "name" b))) by assumption.
  rewrite (length_truthy 5 (field "password" b)) by assumption.
  rewrite (digits_truthy 9 (JsString.trim (field "phone" b))) by assumption.
  rewrite (digits_truthy 5 (JsString.trim (field "address.zipCode" b)))
    by assumption.
  rewrite RegexFacts.phonePattern_digits.
  repeat match goal with
         | H : ?x = true |- context [?x] => rewrite H
         end.
  cbn [app].
  assert (Hcast : castDob (Some (JStr (field "dateOfBirth" b)))
                  = match castDate (JStr (field "dateOfBirth" b)) with
                    | Some d => Casted d
                    | None =>
                        CastFailed
                          (castError "dateOfBirth"
                                     (JStr (field "dateOfBirth" b)))
                    end).
  { destruct (field "dateOfBirth" b); [discriminate | reflexivity]. }
  rewrite Hcast.
  set (email := emailSetters
                  (normalizeEmail (JsString.trim (field "email" b)))).
  destruct (JsString.truthy email); cbn [app].
  - destruct (Regex.matches emailPattern email); cbn [app].
    + destruct (castDate (JStr (field "dateOfBirth" b))); cbn [app]; split;
        try discriminate; intros H'.
      * repeat apply conj; try reflexivity. discriminate.
      * reflexivity.
      * destruct H' as (_ & _ & H'). contradiction.
    + split; [discriminate | intros (_ & H' & _); discriminate H'].
  - split; [discriminate | intros (H' & _); discriminate H'].
Qed.

End SchemaTheorems.

(* ================================================================== *)
(** ** The theorems on the reference instance *)

Lemma register_validation_gate_witness :
  let req := Ref.request None (Ref.registration "jane@ex.com" "abc"
                                                "1990-01-01") in
  @postRegister Ref.refLibs req Ref.world0 =
    (Ret (validationFailed
            [mkFieldError "password" "Password must be at least 6 characters"
                          (Some (JStr "abc"));
             mkFieldError "password"
               "Password must contain at least one uppercase letter, one lowercase letter, and one number"
               (Some (JStr "abc"))]),
     Ref.world0).
Proof.
  cbv zeta.
  destruct (@register_validation_gate Ref.refLibs
              (Ref.request None (Ref.registration "jane@ex.com" "abc"
                                                  "1990-01-01"))
              Ref.world0 eq_refl) as [Hfail _].
  rewrite Hfail; [reflexivity|]. discriminate.
Defined.

Lemma login_validation_gate_witness :
  let req := Ref.request None [("email", JStr "not an email")] in
  @postLogin Ref.refLibs req Ref.world0 =
    (Ret (validationFailed
            [mkFieldError "email" "Please provide a valid email"
                          (Some (JStr "not an email"));
             mkFieldError "password" "Password is required" None]),
     Ref.world0)
  /\ Json.hasKey "value"
       (fieldErrorJSON (mkFieldError "password" "Password is required" None))
     = false.
Proof.
  cbv zeta. split; [|reflexivity].
  destruct (@login_validation_gate Ref.refLibs
              (Ref.request None [("email", JStr "not an email")])
              Ref.world0 eq_refl) as [Hfail _].
  rewrite Hfail; [reflexivity|]. discriminate.
Defined.

Lemma register_success_witness :
  let req := Ref.request None (Ref.registration " JANE@EX.com " "Abcdef1"
                                                "1990-01-01") in
  exists u w',
    @postRegister Ref.refLibs req Ref.world0
    = (Ret (registerSuccess Ref.janeToken u), w')
    /\ users w' = [u]
    /\ User.email u = "jane@ex.com"
    /\ User.password u = Some "$2a$10$salt0$Abcdef1"
    /\ User.role u = "customer".
Proof.
  cbv zeta.
  destruct (@register_success Ref.refLibs
              (Ref.request None (Ref.registration " JANE@EX.com " "Abcdef1"
                                                  "1990-01-01"))
              Ref.world0 eq_refl eq_refl eq_refl eq_refl eq_refl eq_refl)
    as (u & w' & Hpost & Hu & _ & _ & _ & He & Hp & _ & _ & Hr & _).
  exists u, w'. repeat apply conj.
  - exact Hpost.
  - exact Hu.
  - exact He.
  - exact Hp.
  - exact Hr.
Defined.

Lemma second_registration_conflicts_witness :
  let first := Ref.request None (Ref.registration "JANE@EX.com" "Abcdef1"
                                                  "1990-01-01") in
  let second := Ref.request None (Ref.registration "jane@ex.com" "Zyxwvu9"
                                                   "1985-05-05") in
  let w1 := snd (@postRegister Ref.refLibs first Ref.world0) in
  @postRegister Ref.refLibs second w1
  = (Ret conflict, emit (EvFindOne (Some (JStr "jane@ex.com"))) w1).
Proof.
  cbv zeta.
  apply (@second_registration_conflicts Ref.refLibs
           (Ref.request None (Ref.registration "JANE@EX.com" "Abcdef1"
                                               "1990-01-01"))
           (Ref.request None (Ref.registration "jane@ex.com" "Zyxwvu9"
                                               "1985-05-05"))
           Ref.world0 _ (registerSuccess Ref.janeToken Ref.jane));
    vm_compute; reflexivity.
Defined.

Lemma register_schema_rejection_witness :
  let req := Ref.request None (Ref.registration "jane@ex.info" "Abcdef1"
                                                "1990-01-01") in
  exists w',
    @postRegister Ref.refLibs req Ref.world0
    = (Ret (serverError "Server error during registration"
              "User validation failed: email: Please add a valid email"),
       w')
    /\ users w' = [].
Proof.
  cbv zeta.
  destruct (@register_schema_rejection Ref.refLibs
              (Ref.request None (Ref.registration "jane@ex.info" "Abcdef1"
                                                  "1990-01-01"))
              Ref.world0 "email: Please add a valid email" []
              eq_refl eq_refl eq_refl eq_refl eq_refl eq_refl)
    as (w' & Hpost & Hu & _).
  exists w'. split; [exact Hpost | exact Hu].
Defined.

Lemma store_invariant_kept_witness :
  storeInvariant
    (@history Ref.refLibs
       [Arrives PostRegister
          (Ref.request None (Ref.registration "JANE@EX.com" "Abcdef1"
                                              "1990-01-01"));
        Arrives PostRegister
          (Ref.request None (Ref.registration "jane@ex.com" "Zyxwvu9"
                                              "1985-05-05"));
        DatabaseIs false;
        Arrives PostLogin
          (Ref.request None (Ref.credentials "jane@ex.com" "Abcdef1"));
        DatabaseIs true;
        TimeIs (mkDate 2024 4 2);
        Arrives PostRegister
          (Ref.request None (Ref.registration "john@ex.com" "Abcdef1"
                                              "1990-01-01"));
        Arrives GetMe (Ref.bearer Ref.janeToken)]
       Ref.world0).
Proof.
  apply (@store_invariant_kept Ref.refLibs).
  unfold storeInvariant. cbn. repeat apply conj.
  - constructor.
  - constructor.
  - intros u [].
Defined.

Lemma authorize_decides_witness :
  authorize ["admin"; "agent"] (setUser Ref.jane (Ref.request None []))
            Ref.world0
  = (Ret (Responded (forbidden "customer")), Ref.world0)
  /\ authorize ["admin"; "customer"] (setUser Ref.jane (Ref.request None []))
               Ref.world0
     = (Ret (Proceed (setUser Ref.jane (Ref.request None []))),
        emit EvNext Ref.world0).
Proof.
  split.
  - destruct (authorize_decides ["admin"; "agent"]
                (setUser Ref.jane (Ref.request None [])) Ref.world0)
      as [Hsome _].
    destruct (Hsome Ref.jane eq_refl) as (_ & Hrefused & _).
    apply Hrefused. cbn. intuition discriminate.
  - destruct (authorize_decides ["admin"; "customer"]
                (setUser Ref.jane (Ref.request None [])) Ref.world0)
      as [Hsome _].
    destruct (Hsome Ref.jane eq_refl) as (Hallowed & _).
    apply Hallowed. cbn. right. left. reflexivity.
Defined.

Lemma protect_proceeds_only_if_witness :
  let w := Ref.worldOf [Ref.jane] in
  exists t id u,
    bearerToken (authorization (Ref.bearer Ref.janeToken)) = Some t
    /\ @jwt_verify Ref.refLibs t (JWT_SECRET (env w)) (clock w) = JwtOk id
    /\ byId id w = Some u
    /\ User.isActive u = true.
Proof.
  cbv zeta.
  destruct (@protect_proceeds_only_if Ref.refLibs ["admin"]
              (Ref.bearer Ref.janeToken)
              (setUser (User.withPassword None Ref.jane)
                       (Ref.bearer Ref.janeToken))
              (Ref.worldOf [Ref.jane])
              (emit EvNext
                 (emit (EvFindById 1)
                    (emit (EvJwtVerify Ref.janeToken)
                       (Ref.worldOf [Ref.jane])))))
    as (t & id & u & Ht & _ & Hv & _ & Hu & Ha & _);
    [vm_compute; reflexivity|].
  exists t, id, u. repeat apply conj; assumption.
Defined.

Lemma profile_with_valid_token_witness :
  let w := Ref.worldOf [Ref.jane] in
  @getMeRoute Ref.refLibs (Ref.bearer Ref.janeToken) w =
    (Ret (profileSuccess Ref.jane),
     emit (EvFindById 1)
       (emit EvNext (emit (EvFindById 1) (emit (EvJwtVerify Ref.janeToken) w)))).
Proof.
  cbv zeta.
  apply (@profile_with_valid_token Ref.refLibs (Ref.bearer Ref.janeToken)
           (Ref.worldOf [Ref.jane]) Ref.janeToken Ref.jane);
    first [ reflexivity | discriminate ].
Defined.

Lemma login_then_profile_witness :
  let w := Ref.worldOf [Ref.jane] in
  exists w1,
    @postLogin Ref.refLibs
      (Ref.request None (Ref.credentials " jane@ex.com " "Abcdef1")) w
    = (Ret (loginSuccess Ref.janeToken Ref.jane), w1)
    /\ fst (@getMeRoute Ref.refLibs (Ref.bearer Ref.janeToken) w1)
       = Ret (profileSuccess Ref.jane).
Proof.
  cbv zeta.
  assert (V : @validLogin Ref.refLibs
                (Ref.request None (Ref.credentials " jane@ex.com " "Abcdef1"))
                " jane@ex.com " "Abcdef1")
    by (repeat apply conj; reflexivity).
  assert (Hnd : NoDup (map User._id (users (Ref.worldOf [Ref.jane]))))
    by (repeat constructor; intros []).
  destruct (@login_then_profile Ref.refLibs
              (Ref.request None (Ref.credentials " jane@ex.com " "Abcdef1"))
              (Ref.bearer Ref.janeToken)
              (Ref.worldOf [Ref.jane])
              " jane@ex.com " "Abcdef1" "$2a$10$salt0$Abcdef1"
              Ref.janeToken Ref.jane V
              eq_refl eq_refl eq_refl eq_refl eq_refl Hnd eq_refl eq_refl
              eq_refl ltac:(discriminate) eq_refl)
    as (w1 & Hlogin & _ & Hme).
  exists w1. split; [exact Hlogin | exact Hme].
Defined.

Lemma database_down_witness :
  let w := Ref.offline (Ref.worldOf [Ref.jane]) in
  @postLogin Ref.refLibs
    (Ref.request None (Ref.credentials "jane@ex.com" "Abcdef1")) w
  = (Ret (serverError "Server error during login" "database unreachable"),
     emit (EvFindOne (Some (JStr "jane@ex.com"))) w).
Proof.
  cbv zeta.
  destruct (@database_down Ref.refLibs
              (Ref.request None (Ref.credentials "jane@ex.com" "Abcdef1"))
              (Ref.offline (Ref.worldOf [Ref.jane])) eq_refl eq_refl)
    as (_ & Hlogin & _).
  apply Hlogin. reflexivity.
Defined.

Lemma schema_after_validation_witness :
  @schemaErrors Ref.refLibs
    (@sanitizedInput Ref.refLibs
       (Ref.registration "JANE@EX.com" "Abcdef1" "1990-01-01")) = [].
Proof.
  apply (@schema_after_validation Ref.refLibs (mkDate 2024 3 1)
           (Ref.registration "JANE@EX.com" "Abcdef1" "1990-01-01")
           eq_refl eq_refl).
  split; [reflexivity|]. split; [reflexivity|]. discriminate.
Defined.
(* ================================================================== *)
(** ** The embedding on small inputs *)

Module Checks.

Example split_bearer :
  JsString.split " " "Bearer abc.def" = ["Bearer"; "abc.def"].
Proof. reflexivity. Qed.

Example split_two_spaces :
  JsString.split " " "Bearer  abc" = ["Bearer"; ""; "abc"].
Proof. reflexivity. Qed.

Example split_empty : JsString.split " " "" = [""].
Proof. reflexivity. Qed.

Example words_two_spaces : JsString.words " " " Bearer  abc " = ["Bearer"; "abc"].
Proof. reflexivity. Qed.

Example trim_both : JsString.trim "  Jane Doe  " = "Jane Doe".
Proof. reflexivity. Qed.

(** The no-break space U+00A0 is white space. *)
Example trim_no_break_space :
  let nbsp := String (ascii_of_nat 160) "" in
  JsString.trim (nbsp ++ "J" ++ nbsp) = "J"
  /\ JsString.trim (nbsp ++ nbsp) = "".
Proof. split; reflexivity. Qed.

Example lower_email : JsString.toLowerCase "JANE@EX.com" = "jane@ex.com".
Proof. reflexivity. Qed.

(** U+00C9 (E acute) has the lowercase form U+00E9; the multiplication
    sign U+00D7 and the sharp s U+00DF have none. *)
Example lower_latin1 :
  map (fun n => nat_of_ascii (JsString.lowerUnit (ascii_of_nat n)))
      [201; 215; 223; 222; 65; 97]
  = [233; 215; 223; 254; 97; 97].
Proof. reflexivity. Qed.

Example iso_string :
  toISOString (mkInstant 2024 3 1 45296789) = "2024-03-01T12:34:56.789Z"
  /\ toISOString (mkDate 1990 1 1) = "1990-01-01T00:00:00.000Z"
  /\ Ref.ofMillis 1709296496789 = mkInstant 2024 3 1 45296789
  /\ Ref.ofMillis (-1) = mkInstant 1969 12 31 86399999.
Proof. repeat split; vm_compute; reflexivity. Qed.

Example token_of_bearer : bearerToken (Some "Bearer abc") = Some "abc".
Proof. reflexivity. Qed.

Example token_of_two_spaces : bearerToken (Some "Bearer  abc") = Some "".
Proof. reflexivity. Qed.

Example token_of_basic : bearerToken (Some "Basic abc") = None.
Proof. reflexivity. Qed.

Example email_pattern :
  map (Regex.matches emailPattern)
      ["jane@ex.com"; "a.b-c@d-e.co.uk"; "a@b.info"; "a..b@c.de"; "a@b"]
  = [true; true; false; false; false].
Proof. vm_compute. reflexivity. Qed.

Example password_pattern :
  map (Regex.matches passwordPattern)
      ["Abcdef1"; "abcdef1"; "ABCDEF1"; "Abcdefg"; "1bA"]
  = [true; false; false; false; true].
Proof. vm_compute. reflexivity. Qed.

Example phone_pattern :
  map (Regex.matches phonePattern)
      ["9876543210"; "987654321"; "98765432100"; "98765x3210"]
  = [true; false; false; false].
Proof. vm_compute. reflexivity. Qed.

Example zip_pattern :
  map (Regex.matches zipPattern) ["123456"; "12345"; "1234567"]
  = [true; false; false].
Proof. vm_compute. reflexivity. Qed.

Example age_by_year :
  map (fun dob => @ageCheck Ref.refLibs (mkDate 2024 3 1)
                              (Some (JStr dob)))
      ["2005-06-01"; "2006-02-28"; "2006-12-31"; "not a date"]
  = [Ret true; Ret true; Ret true; Ret true]
  /\ @ageCheck Ref.refLibs (mkDate 2024 3 1) None = Ret true
  /\ @ageCheck Ref.refLibs (mkDate 2024 3 1) (Some (JStr "2007-01-01"))
     = Throw (newError "Error"
                "You must be at least 18 years old to register")
  /\ map (ageInYears (mkDate 2024 3 1))
         [mkDate 2005 6 1; mkDate 2006 2 28; mkDate 2006 12 31]
     = [18; 18; 17]%Z.
Proof. repeat split; reflexivity. Qed.

Example errors_in_order :
  map feMsg
      (fst (@runChains Ref.refLibs (mkDate 2024 3 1)
              (@loginValidation Ref.refLibs) (Ref.credentials "" "")))
  = ["Email is required"; "Please provide a valid email";
     "Password is required"].
Proof. vm_compute. reflexivity. Qed.

(** The error of a field that was not sent has no [value] when its
    chain has no sanitizer, and the empty string when it has one. *)
Example errors_of_an_empty_body :
  map fieldErrorJSON
      (fst (@runChains Ref.refLibs (mkDate 2024 3 1)
              (@loginValidation Ref.refLibs) []))
  = [JObj [("type", JStr "field"); ("value", JStr "");
           ("msg", JStr "Email is required"); ("path", JStr "email");
           ("location", JStr "body")];
     JObj [("type", JStr "field"); ("value", JStr "");
           ("msg", JStr "Please provide a valid email");
           ("path", JStr "email"); ("location", JStr "body")];
     JObj [("type", JStr "field");
           ("msg", JStr "Password is required"); ("path", JStr "password");
           ("location", JStr "body")]].
Proof. vm_compute. reflexivity. Qed.

(** A number passes [notEmpty] and is left as it is. *)
Example number_as_password :
  @runChains Ref.refLibs (mkDate 2024 3 1) (@loginValidation Ref.refLibs)
    [("email", JStr "jane@ex.com"); ("password", JNum 12345678)]
  = ([], [("email", JStr "jane@ex.com"); ("password", JNum 12345678)]).
Proof. vm_compute. reflexivity. Qed.

(** [jwt.sign] without a secret. *)
Example register_without_secret :
  let w := mkWorld (mkEnv None (Some "30d") None) [] true (mkDate 2024 3 1)
                   1 0 [] in
  let out := @postRegister Ref.refLibs
               (Ref.request None (Ref.registration "jane@ex.com" "Abcdef1"
                                                   "1990-01-01")) w in
  fst out = Ret (serverError "Server error during registration"
                             "secretOrPrivateKey must have a value")
  /\ users (snd out) = [Ref.jane].
Proof. split; vm_compute; reflexivity. Qed.

Example error_handler_production :
  Ref.result (errorHandler (newError "Error" "boom")) Ref.world0
  = Ret (mkResponse 500
           (JObj [("success", JBool false); ("message", JStr "boom")])).
Proof. reflexivity. Qed.

Example authorize_customer :
  Ref.result (authorize ["admin"] (setUser Ref.jane (Ref.request None [])))
             Ref.world0
  = Ret (Responded (forbidden "customer")).
Proof. reflexivity. Qed.

End Checks.
